(** * Drilling simulation: formation model and simulation engine

    A shallow embedding of the TypeScript classes [FormationModel] and
    [SimulationEngine] and the properties stated about them.

    Conventions of the embedding:
    - a JavaScript number is an exact rational ([Q]); rounding of IEEE
      doubles, NaN and the infinities are not modelled, so a division is
      only meaningful where its divisor is not zero;
    - the simulation tick counter is an integer ([Z]);
    - [Date.now()] and [Math.random()] are inputs of the operation that
      reads them (record [Env]);
    - an object that the code shares between several owners (the
      [events] array of the current data) lives in an explicit store and
      is named by its index there. *)

From Stdlib Require Import QArith Qabs Qround Qminmax Lqa ZArith String List Lia.
From Stdlib Require Import Sorted Permutation.
From stdpp Require Import gmap strings list pretty.

Open Scope Q_scope.

(** ** Numbers *)

(** [a < b] on JavaScript numbers, as a boolean. *)
Definition Qlt_bool (a b : Q) : bool := negb (Qle_bool b a).

(** [Math.max(a, b)] and [Math.min(a, b)]. *)
Definition Math_max (a b : Q) : Q := if Qle_bool a b then b else a.
Definition Math_min (a b : Q) : Q := if Qle_bool a b then a else b.

(** [Math.floor]. *)
Definition Math_floor (a : Q) : Z := Qfloor a.

(** [x || d] on an optional number: [undefined] and [0] are falsy. *)
Definition orDefault (x : option Q) (d : Q) : Q :=
  match x with
  | Some v => if Qeq_bool v 0 then d else v
  | None => d
  end.

(** ** Formation model *)

Module Layer.
Record t := mk {
  name : string;
  depth : Q;
  thickness : Q;
  porePressure : Q;
  fracturePressure : Q;
  permeability : Q;
  lithology : string;
  kickRisk : option Q
}.
End Layer.

(** The object returned by [getPropertiesAtDepth]. It never carries a
    [kickRisk] property: neither the formation model nor the engine's
    default object sets one, so [kickRisk] is [None] for readers. *)
Module Props.
Record t := mk {
  porePressure : Q;
  fracturePressure : Q;
  permeability : Q;
  lithology : string;
  kickRisk : option Q
}.

Definition default : t :=
  mk 9.0 14.0 0.1 "sandstone" None.
End Props.

Module FormationModel.

Definition t := list Layer.t.

Definition initializeDefaultLayers : t :=
  [ Layer.mk "Topsoil" 0 500 8.5 12.0 0.01 "sand" None;
    Layer.mk "Shale" 500 1000 9.2 14.5 0.001 "shale" None;
    Layer.mk "Reservoir" 1500 800 11.0 15.0 0.5 "sandstone" None;
    Layer.mk "Overpressured Zone" 2300 500 14.0 16.5 0.05 "limestone" None ].

(** [depth >= layerTop && depth < layerBottom] *)
Definition inLayer (l : Layer.t) (d : Q) : bool :=
  Qle_bool (Layer.depth l) d
  && Qlt_bool d (Layer.depth l + Layer.thickness l).

(** The [for] loop of [getLayerAtDepth]: the first layer holding [d]. *)
Fixpoint scanLayers (ls : t) (d : Q) : option Layer.t :=
  match ls with
  | [] => None
  | l :: rest => if inLayer l d then Some l else scanLayers rest d
  end.

Definition getLayerAtDepth (ls : t) (d : Q) : option Layer.t :=
  match scanLayers ls d with
  | Some l => Some l
  | None =>
      (* beyond all layers: the deepest (last) layer *)
      match last ls with
      | Some l => if Qle_bool (Layer.depth l) d then Some l else None
      | None => None
      end
  end.

(** The loop of [getLayerIndexAtDepth], counting from [i]. *)
Fixpoint scanIndex (ls : t) (d : Q) (i : nat) : option nat :=
  match ls with
  | [] => None
  | l :: rest => if inLayer l d then Some (S i) else scanIndex rest d (S i)
  end.

Definition getLayerIndexAtDepth (ls : t) (d : Q) : nat :=
  match scanIndex ls d 0 with
  | Some i => i
  | None =>
      match last ls with
      | Some l => if Qle_bool (Layer.depth l) d then length ls else 1%nat
      | None => 1%nat
      end
  end.

Definition porePressureGradient : Q := 0.1.
Definition fracturePressureGradient : Q := 0.15.

Definition getPropertiesAtDepth (ls : t) (d : Q) : Props.t :=
  match getLayerAtDepth ls d with
  | None => Props.default
  | Some layer =>
      let depthInLayer := d - Layer.depth layer in
      let depthFactor := depthInLayer / Layer.thickness layer in
      Props.mk
        (Layer.porePressure layer + depthFactor * porePressureGradient)
        (Layer.fracturePressure layer + depthFactor * fracturePressureGradient)
        (Layer.permeability layer)
        (Layer.lithology layer)
        None
  end.

(** The data-model invariant on the layer list: the depth ranges of two
    different entries never share a depth. *)
Definition rangesDisjoint (a b : Layer.t) : Prop :=
  forall d, inLayer a d = true -> inLayer b d = true -> False.

Definition noOverlap (ls : t) : Prop := ForallOrdPairs rangesDisjoint ls.

Definition getLayers (ls : t) : t := ls.

(** [layers.sort((a, b) => a.depth - b.depth)]: a stable sort. *)
Fixpoint insertByDepth (x : Layer.t) (ls : t) : t :=
  match ls with
  | [] => [x]
  | y :: rest =>
      if Qle_bool (Layer.depth x) (Layer.depth y) then x :: y :: rest
      else y :: insertByDepth x rest
  end.

Definition sortByDepth (ls : t) : t := fold_right insertByDepth [] ls.

(** [layers.findIndex(p)] *)
Fixpoint findIndex (p : Layer.t -> bool) (ls : t) : option nat :=
  match ls with
  | [] => None
  | l :: rest => if p l then Some 0%nat else option_map S (findIndex p rest)
  end.

Definition addLayer (layer : Layer.t) (ls : t) : t := sortByDepth (ls ++ [layer]).

Definition updateLayer (updatedLayer : Layer.t) (ls : t) : t :=
  match findIndex (fun l => String.eqb (Layer.name l) (Layer.name updatedLayer)) ls with
  | Some index => sortByDepth (<[index := updatedLayer]> ls)
  | None => ls
  end.

Definition removeLayer (layerName : string) (ls : t) : t :=
  List.filter (fun l => negb (String.eqb (Layer.name l) layerName)) ls.

End FormationModel.

(** ** Records of the engine *)

(** A dynamically typed value kept in a log record. *)
Inductive Value :=
| VNum (q : Q)
| VInt (z : Z)
| VStr (s : string)
| VNull
| VTripping (direction : string) (speed : Q).

(** A text built from a template literal: its fragments in order, the
    numbers not yet rendered. *)
Definition Text := list Value.

(** An entry of [eventLog] and of the [events] array of the current data. *)
Module Event.
Record t := mk {
  type : string;
  time : Z;
  depth : Q;
  layer : nat;
  severity : string;
  description : string
}.
End Event.

Module TimelineEvent.
Record t := mk {
  id : Z * Z;
  type : string;
  time : Z;
  description : Text;
  severity : string;
  parameters : list (string * Value)
}.
End TimelineEvent.

Module LogEntry.
Record t := mk {
  time : Z;
  depth : Q;
  rop : Q;
  pumpPressure : Q;
  standpipePressure : Q;
  pitLevel : Q;
  gasLevel : Q;
  mudWeight : Q;
  formationPressure : Q;
  annularPressure : Q;
  torque : Q;
  rpm : Q;
  hookload : Q
}.
End LogEntry.

Module Action.
Record t := mk {
  action : string;
  value : Value;
  time : Z;
  depth : Q;
  rop : Q;
  pumpPressure : Q;
  pitLevel : Q;
  gasLevel : Q;
  mudWeight : Q
}.
End Action.

Module MissedWarning.
Record t := mk {
  warning : string;
  time : Z;
  requiredAction : string;
  timeAllowed : string
}.
End MissedWarning.

(** The [details] argument of [triggerGameOver]. *)
Module Details.
Record t := mk {
  description : string;
  consequence : string;
  preventionTips : list string
}.
End Details.

Module GameOverDetails.
Record t := mk {
  details : Details.t;
  time : Z;
  depth : Q;
  elapsedTime : Q;
  rop : Q;
  pumpPressure : Q;
  pitLevel : Q;
  gasLevel : Q;
  mudWeight : Q;
  standpipePressure : Q;
  annularPressure : Q;
  formationPressure : Q;
  missedWarnings : list MissedWarning.t;
  actionLog : list Action.t
}.
End GameOverDetails.

Module FormationTransition.
Record t := mk {
  time : Z;
  depth : Q;
  fromFormation : string;
  toFormation : string;
  lithology : string;
  porePressure : Q;
  fracturePressure : Q;
  permeability : Q;
  kickRisk : Q
}.
End FormationTransition.

(** [currentData]: the simulation state read by [getCurrentData]. The
    field [events] names an array of the store [arrays] of the engine. *)
Module CurrentData.
Record t := mk {
  rop : Q;
  pumpPressure : Q;
  pitLevel : Q;
  standpipePressure : Q;
  gasLevel : Q;
  bitDepth : Q;
  hookload : Q;
  mudWeight : Q;
  mudTemperature : Q;
  formationPressure : Q;
  annularPressure : Q;
  torque : Q;
  rpm : Q;
  chokePosition : Q;
  bopStatus : string;
  events : nat
}.

Definition set_rop (v : Q) (r : t) : t :=
  mk v (pumpPressure r) (pitLevel r) (standpipePressure r) (gasLevel r)
  (bitDepth r) (hookload r) (mudWeight r) (mudTemperature r)
  (formationPressure r) (annularPressure r) (torque r) (rpm r)
  (chokePosition r) (bopStatus r) (events r).
Definition set_pumpPressure (v : Q) (r : t) : t :=
  mk (rop r) v (pitLevel r) (standpipePressure r) (gasLevel r) (bitDepth r)
  (hookload r) (mudWeight r) (mudTemperature r) (formationPressure r)
  (annularPressure r) (torque r) (rpm r) (chokePosition r) (bopStatus r)
  (events r).
Definition set_pitLevel (v : Q) (r : t) : t :=
  mk (rop r) (pumpPressure r) v (standpipePressure r) (gasLevel r)
  (bitDepth r) (hookload r) (mudWeight r) (mudTemperature r)
  (formationPressure r) (annularPressure r) (torque r) (rpm r)
  (chokePosition r) (bopStatus r) (events r).
Definition set_standpipePressure (v : Q) (r : t) : t :=
  mk (rop r) (pumpPressure r) (pitLevel r) v (gasLevel r) (bitDepth r)
  (hookload r) (mudWeight r) (mudTemperature r) (formationPressure r)
  (annularPressure r) (torque r) (rpm r) (chokePosition r) (bopStatus r)
  (events r).
Definition set_gasLevel (v : Q) (r : t) : t :=
  mk (rop r) (pumpPressure r) (pitLevel r) (standpipePressure r) v
  (bitDepth r) (hookload r) (mudWeight r) (mudTemperature r)
  (formationPressure r) (annularPressure r) (torque r) (rpm r)
  (chokePosition r) (bopStatus r) (events r).
Definition set_bitDepth (v : Q) (r : t) : t :=
  mk (rop r) (pumpPressure r) (pitLevel r) (standpipePressure r) (gasLevel r)
  v (hookload r) (mudWeight r) (mudTemperature r) (formationPressure r)
  (annularPressure r) (torque r) (rpm r) (chokePosition r) (bopStatus r)
  (events r).
Definition set_hookload (v : Q) (r : t) : t :=
  mk (rop r) (pumpPressure r) (pitLevel r) (standpipePressure r) (gasLevel r)
  (bitDepth r) v (mudWeight r) (mudTemperature r) (formationPressure r)
  (annularPressure r) (torque r) (rpm r) (chokePosition r) (bopStatus r)
  (events r).
Definition set_mudWeight (v : Q) (r : t) : t :=
  mk (rop r) (pumpPressure r) (pitLevel r) (standpipePressure r) (gasLevel r)
  (bitDepth r) (hookload r) v (mudTemperature r) (formationPressure r)
  (annularPressure r) (torque r) (rpm r) (chokePosition r) (bopStatus r)
  (events r).
Definition set_mudTemperature (v : Q) (r : t) : t :=
  mk (rop r) (pumpPressure r) (pitLevel r) (standpipePressure r) (gasLevel r)
  (bitDepth r) (hookload r) (mudWeight r) v (formationPressure r)
  (annularPressure r) (torque r) (rpm r) (chokePosition r) (bopStatus r)
  (events r).
Definition set_formationPressure (v : Q) (r : t) : t :=
  mk (rop r) (pumpPressure r) (pitLevel r) (standpipePressure r) (gasLevel r)
  (bitDepth r) (hookload r) (mudWeight r) (mudTemperature r) v
  (annularPressure r) (torque r) (rpm r) (chokePosition r) (bopStatus r)
  (events r).
Definition set_annularPressure (v : Q) (r : t) : t :=
  mk (rop r) (pumpPressure r) (pitLevel r) (standpipePressure r) (gasLevel r)
  (bitDepth r) (hookload r) (mudWeight r) (mudTemperature r)
  (formationPressure r) v (torque r) (rpm r) (chokePosition r) (bopStatus r)
  (events r).
Definition set_torque (v : Q) (r : t) : t :=
  mk (rop r) (pumpPressure r) (pitLevel r) (standpipePressure r) (gasLevel r)
  (bitDepth r) (hookload r) (mudWeight r) (mudTemperature r)
  (formationPressure r) (annularPressure r) v (rpm r) (chokePosition r)
  (bopStatus r) (events r).
Definition set_rpm (v : Q) (r : t) : t :=
  mk (rop r) (pumpPressure r) (pitLevel r) (standpipePressure r) (gasLevel r)
  (bitDepth r) (hookload r) (mudWeight r) (mudTemperature r)
  (formationPressure r) (annularPressure r) (torque r) v (chokePosition r)
  (bopStatus r) (events r).
Definition set_chokePosition (v : Q) (r : t) : t :=
  mk (rop r) (pumpPressure r) (pitLevel r) (standpipePressure r) (gasLevel r)
  (bitDepth r) (hookload r) (mudWeight r) (mudTemperature r)
  (formationPressure r) (annularPressure r) (torque r) (rpm r) v (bopStatus r)
  (events r).
Definition set_bopStatus (v : string) (r : t) : t :=
  mk (rop r) (pumpPressure r) (pitLevel r) (standpipePressure r) (gasLevel r)
  (bitDepth r) (hookload r) (mudWeight r) (mudTemperature r)
  (formationPressure r) (annularPressure r) (torque r) (rpm r)
  (chokePosition r) v (events r).
Definition set_events (v : nat) (r : t) : t :=
  mk (rop r) (pumpPressure r) (pitLevel r) (standpipePressure r) (gasLevel r)
  (bitDepth r) (hookload r) (mudWeight r) (mudTemperature r)
  (formationPressure r) (annularPressure r) (torque r) (rpm r)
  (chokePosition r) (bopStatus r) v.
End CurrentData.

Module Controls.
Record t := mk {
  rop : Q;
  pumpRate : Q;
  rotarySpeed : Q;
  mudWeight : Q;
  chokePosition : Q;
  bopStatus : string;
  hookPosition : Q;
  drawworks : string
}.

Definition set_rop (v : Q) (r : t) : t :=
  mk v (pumpRate r) (rotarySpeed r) (mudWeight r) (chokePosition r)
  (bopStatus r) (hookPosition r) (drawworks r).
Definition set_pumpRate (v : Q) (r : t) : t :=
  mk (rop r) v (rotarySpeed r) (mudWeight r) (chokePosition r) (bopStatus r)
  (hookPosition r) (drawworks r).
Definition set_rotarySpeed (v : Q) (r : t) : t :=
  mk (rop r) (pumpRate r) v (mudWeight r) (chokePosition r) (bopStatus r)
  (hookPosition r) (drawworks r).
Definition set_mudWeight (v : Q) (r : t) : t :=
  mk (rop r) (pumpRate r) (rotarySpeed r) v (chokePosition r) (bopStatus r)
  (hookPosition r) (drawworks r).
Definition set_chokePosition (v : Q) (r : t) : t :=
  mk (rop r) (pumpRate r) (rotarySpeed r) (mudWeight r) v (bopStatus r)
  (hookPosition r) (drawworks r).
Definition set_bopStatus (v : string) (r : t) : t :=
  mk (rop r) (pumpRate r) (rotarySpeed r) (mudWeight r) (chokePosition r) v
  (hookPosition r) (drawworks r).
Definition set_hookPosition (v : Q) (r : t) : t :=
  mk (rop r) (pumpRate r) (rotarySpeed r) (mudWeight r) (chokePosition r)
  (bopStatus r) v (drawworks r).
Definition set_drawworks (v : string) (r : t) : t :=
  mk (rop r) (pumpRate r) (rotarySpeed r) (mudWeight r) (chokePosition r)
  (bopStatus r) (hookPosition r) v.
(** One property of the partial object handed to [setControls]. The
    list keeps the properties in the order of [Object.keys]; the keys of
    an object are distinct. *)
Inductive update :=
| Rop (v : Q)
| PumpRate (v : Q)
| RotarySpeed (v : Q)
| MudWeight (v : Q)
| ChokePosition (v : Q)
| BopStatus (s : string)
| HookPosition (v : Q)
| Drawworks (s : string).

Definition key (u : update) : string :=
  match u with
  | Rop _ => "rop"
  | PumpRate _ => "pumpRate"
  | RotarySpeed _ => "rotarySpeed"
  | MudWeight _ => "mudWeight"
  | ChokePosition _ => "chokePosition"
  | BopStatus _ => "bopStatus"
  | HookPosition _ => "hookPosition"
  | Drawworks _ => "drawworks"
  end.

Definition value (u : update) : Value :=
  match u with
  | Rop v | PumpRate v | RotarySpeed v | MudWeight v | ChokePosition v
  | HookPosition v => VNum v
  | BopStatus s | Drawworks s => VStr s
  end.

(** [this.controls[key] !== controls[key]] *)
Definition differs (c : t) (u : update) : bool :=
  match u with
  | Rop v => negb (Qeq_bool (rop c) v)
  | PumpRate v => negb (Qeq_bool (pumpRate c) v)
  | RotarySpeed v => negb (Qeq_bool (rotarySpeed c) v)
  | MudWeight v => negb (Qeq_bool (mudWeight c) v)
  | ChokePosition v => negb (Qeq_bool (chokePosition c) v)
  | BopStatus s => negb (String.eqb (bopStatus c) s)
  | HookPosition v => negb (Qeq_bool (hookPosition c) v)
  | Drawworks s => negb (String.eqb (drawworks c) s)
  end.

Definition assign (c : t) (u : update) : t :=
  match u with
  | Rop v => set_rop v c
  | PumpRate v => set_pumpRate v c
  | RotarySpeed v => set_rotarySpeed v c
  | MudWeight v => set_mudWeight v c
  | ChokePosition v => set_chokePosition v c
  | BopStatus s => set_bopStatus s c
  | HookPosition v => set_hookPosition v c
  | Drawworks s => set_drawworks s c
  end.

(** [{ ...this.controls, ...controls }] *)
Definition merge (c : t) (us : list update) : t := fold_left assign us c.

(** [controls.bopStatus] of the partial object. *)
Fixpoint partialBopStatus (us : list update) : option string :=
  match us with
  | [] => None
  | BopStatus s :: rest =>
      match partialBopStatus rest with
      | Some s' => Some s'
      | None => Some s
      end
  | _ :: rest => partialBopStatus rest
  end.
End Controls.

(** [equipmentStatus], its three units side by side. *)
Module EquipmentStatus.
Record t := mk {
  pumpsHealth : Q;
  pumpsOveruseDuration : Q;
  drillStringHealth : Q;
  drillStringVibration : Q;
  drillStringTorque : Q;
  bopHealth : Q;
  bopLastClosed : Q
}.

Definition set_pumpsHealth (v : Q) (r : t) : t :=
  mk v (pumpsOveruseDuration r) (drillStringHealth r) (drillStringVibration r)
  (drillStringTorque r) (bopHealth r) (bopLastClosed r).
Definition set_pumpsOveruseDuration (v : Q) (r : t) : t :=
  mk (pumpsHealth r) v (drillStringHealth r) (drillStringVibration r)
  (drillStringTorque r) (bopHealth r) (bopLastClosed r).
Definition set_drillStringHealth (v : Q) (r : t) : t :=
  mk (pumpsHealth r) (pumpsOveruseDuration r) v (drillStringVibration r)
  (drillStringTorque r) (bopHealth r) (bopLastClosed r).
Definition set_drillStringVibration (v : Q) (r : t) : t :=
  mk (pumpsHealth r) (pumpsOveruseDuration r) (drillStringHealth r) v
  (drillStringTorque r) (bopHealth r) (bopLastClosed r).
Definition set_drillStringTorque (v : Q) (r : t) : t :=
  mk (pumpsHealth r) (pumpsOveruseDuration r) (drillStringHealth r)
  (drillStringVibration r) v (bopHealth r) (bopLastClosed r).
Definition set_bopHealth (v : Q) (r : t) : t :=
  mk (pumpsHealth r) (pumpsOveruseDuration r) (drillStringHealth r)
  (drillStringVibration r) (drillStringTorque r) v (bopLastClosed r).
Definition set_bopLastClosed (v : Q) (r : t) : t :=
  mk (pumpsHealth r) (pumpsOveruseDuration r) (drillStringHealth r)
  (drillStringVibration r) (drillStringTorque r) (bopHealth r) v.
End EquipmentStatus.

Module TrippingStatus.
Record t := mk {
  isTripping : bool;
  direction : string;
  speed : Q;
  lastDepth : Q;
  lastTime : Z
}.

Definition set_isTripping (v : bool) (r : t) : t :=
  mk v (direction r) (speed r) (lastDepth r) (lastTime r).
Definition set_direction (v : string) (r : t) : t :=
  mk (isTripping r) v (speed r) (lastDepth r) (lastTime r).
Definition set_speed (v : Q) (r : t) : t :=
  mk (isTripping r) (direction r) v (lastDepth r) (lastTime r).
Definition set_lastDepth (v : Q) (r : t) : t :=
  mk (isTripping r) (direction r) (speed r) v (lastTime r).
Definition set_lastTime (v : Z) (r : t) : t :=
  mk (isTripping r) (direction r) (speed r) (lastDepth r) v.
End TrippingStatus.

Module CheckpointState.
Record t := mk {
  currentData : CurrentData.t;
  controls : Controls.t;
  equipmentStatus : EquipmentStatus.t;
  casingDepth : Q;
  simulationTime : Z
}.
End CheckpointState.

Module Checkpoint.
Record t := mk {
  id : string;
  name : Text;
  timestamp : Z;
  depth : Q;
  automatic : bool;
  state : CheckpointState.t
}.
End Checkpoint.

(** What an operation reads from its environment. *)
Module Env.
Record t := mk {
  now : Z;        (* Date.now(), in milliseconds *)
  random : Q;     (* the Math.random() draw of the kick test *)
  idRandom : Z    (* Math.floor(Math.random() * 1000) of a timeline id *)
}.
End Env.

Module SimulationEngine.

Record t := mk {
  running : bool;
  paused : bool;
  speed : Q;
  trainingMode : bool;
  wellType : string;
  formation : option FormationModel.t;
  simulationTime : Z;
  elapsedTime : Q;
  currentData : CurrentData.t;
  controls : Controls.t;
  logData : list LogEntry.t;
  eventLog : list Event.t;
  scenario : string;
  gameOver : bool;
  gameOverReason : string;
  gameOverDetails : option GameOverDetails.t;
  warningTimers : gmap string Z;
  warningTimestamps : gmap string Z;
  missedWarnings : list MissedWarning.t;
  actionLog : list Action.t;
  equipmentStatus : EquipmentStatus.t;
  casingDepth : Q;
  lastCasingRun : Z;
  trippingStatus : TrippingStatus.t;
  checkpoints : list Checkpoint.t;
  timelineEvents : list TimelineEvent.t;
  lastRiskLevel : Q;
  riskDecaying : bool;
  formationTransitions : list FormationTransition.t;
  lastFormationDepth : Q;
  currentFormation : option Layer.t;
  bopActivations : nat;
  kicksHandled : nat;
  targetDepth : Q;
  previousGasLevel : Q;
  arrays : list (list Event.t)
}.

Definition set_running (v : bool) (r : t) : t :=
  mk v (paused r) (speed r) (trainingMode r) (wellType r) (formation r)
  (simulationTime r) (elapsedTime r) (currentData r) (controls r) (logData r)
  (eventLog r) (scenario r) (gameOver r) (gameOverReason r)
  (gameOverDetails r) (warningTimers r) (warningTimestamps r)
  (missedWarnings r) (actionLog r) (equipmentStatus r) (casingDepth r)
  (lastCasingRun r) (trippingStatus r) (checkpoints r) (timelineEvents r)
  (lastRiskLevel r) (riskDecaying r) (formationTransitions r)
  (lastFormationDepth r) (currentFormation r) (bopActivations r)
  (kicksHandled r) (targetDepth r) (previousGasLevel r) (arrays r).
Definition set_paused (v : bool) (r : t) : t :=
  mk (running r) v (speed r) (trainingMode r) (wellType r) (formation r)
  (simulationTime r) (elapsedTime r) (currentData r) (controls r) (logData r)
  (eventLog r) (scenario r) (gameOver r) (gameOverReason r)
  (gameOverDetails r) (warningTimers r) (warningTimestamps r)
  (missedWarnings r) (actionLog r) (equipmentStatus r) (casingDepth r)
  (lastCasingRun r) (trippingStatus r) (checkpoints r) (timelineEvents r)
  (lastRiskLevel r) (riskDecaying r) (formationTransitions r)
  (lastFormationDepth r) (currentFormation r) (bopActivations r)
  (kicksHandled r) (targetDepth r) (previousGasLevel r) (arrays r).
Definition set_speed (v : Q) (r : t) : t :=
  mk (running r) (paused r) v (trainingMode r) (wellType r) (formation r)
  (simulationTime r) (elapsedTime r) (currentData r) (controls r) (logData r)
  (eventLog r) (scenario r) (gameOver r) (gameOverReason r)
  (gameOverDetails r) (warningTimers r) (warningTimestamps r)
  (missedWarnings r) (actionLog r) (equipmentStatus r) (casingDepth r)
  (lastCasingRun r) (trippingStatus r) (checkpoints r) (timelineEvents r)
  (lastRiskLevel r) (riskDecaying r) (formationTransitions r)
  (lastFormationDepth r) (currentFormation r) (bopActivations r)
  (kicksHandled r) (targetDepth r) (previousGasLevel r) (arrays r).
Definition set_trainingMode (v : bool) (r : t) : t :=
  mk (running r) (paused r) (speed r) v (wellType r) (formation r)
  (simulationTime r) (elapsedTime r) (currentData r) (controls r) (logData r)
  (eventLog r) (scenario r) (gameOver r) (gameOverReason r)
  (gameOverDetails r) (warningTimers r) (warningTimestamps r)
  (missedWarnings r) (actionLog r) (equipmentStatus r) (casingDepth r)
  (lastCasingRun r) (trippingStatus r) (checkpoints r) (timelineEvents r)
  (lastRiskLevel r) (riskDecaying r) (formationTransitions r)
  (lastFormationDepth r) (currentFormation r) (bopActivations r)
  (kicksHandled r) (targetDepth r) (previousGasLevel r) (arrays r).
Definition set_wellType (v : string) (r : t) : t :=
  mk (running r) (paused r) (speed r) (trainingMode r) v (formation r)
  (simulationTime r) (elapsedTime r) (currentData r) (controls r) (logData r)
  (eventLog r) (scenario r) (gameOver r) (gameOverReason r)
  (gameOverDetails r) (warningTimers r) (warningTimestamps r)
  (missedWarnings r) (actionLog r) (equipmentStatus r) (casingDepth r)
  (lastCasingRun r) (trippingStatus r) (checkpoints r) (timelineEvents r)
  (lastRiskLevel r) (riskDecaying r) (formationTransitions r)
  (lastFormationDepth r) (currentFormation r) (bopActivations r)
  (kicksHandled r) (targetDepth r) (previousGasLevel r) (arrays r).
Definition set_formation (v : option FormationModel.t) (r : t) : t :=
  mk (running r) (paused r) (speed r) (trainingMode r) (wellType r) v
  (simulationTime r) (elapsedTime r) (currentData r) (controls r) (logData r)
  (eventLog r) (scenario r) (gameOver r) (gameOverReason r)
  (gameOverDetails r) (warningTimers r) (warningTimestamps r)
  (missedWarnings r) (actionLog r) (equipmentStatus r) (casingDepth r)
  (lastCasingRun r) (trippingStatus r) (checkpoints r) (timelineEvents r)
  (lastRiskLevel r) (riskDecaying r) (formationTransitions r)
  (lastFormationDepth r) (currentFormation r) (bopActivations r)
  (kicksHandled r) (targetDepth r) (previousGasLevel r) (arrays r).
Definition set_simulationTime (v : Z) (r : t) : t :=
  mk (running r) (paused r) (speed r) (trainingMode r) (wellType r)
  (formation r) v (elapsedTime r) (currentData r) (controls r) (logData r)
  (eventLog r) (scenario r) (gameOver r) (gameOverReason r)
  (gameOverDetails r) (warningTimers r) (warningTimestamps r)
  (missedWarnings r) (actionLog r) (equipmentStatus r) (casingDepth r)
  (lastCasingRun r) (trippingStatus r) (checkpoints r) (timelineEvents r)
  (lastRiskLevel r) (riskDecaying r) (formationTransitions r)
  (lastFormationDepth r) (currentFormation r) (bopActivations r)
  (kicksHandled r) (targetDepth r) (previousGasLevel r) (arrays r).
Definition set_elapsedTime (v : Q) (r : t) : t :=
  mk (running r) (paused r) (speed r) (trainingMode r) (wellType r)
  (formation r) (simulationTime r) v (currentData r) (controls r) (logData r)
  (eventLog r) (scenario r) (gameOver r) (gameOverReason r)
  (gameOverDetails r) (warningTimers r) (warningTimestamps r)
  (missedWarnings r) (actionLog r) (equipmentStatus r) (casingDepth r)
  (lastCasingRun r) (trippingStatus r) (checkpoints r) (timelineEvents r)
  (lastRiskLevel r) (riskDecaying r) (formationTransitions r)
  (lastFormationDepth r) (currentFormation r) (bopActivations r)
  (kicksHandled r) (targetDepth r) (previousGasLevel r) (arrays r).
Definition set_currentData (v : CurrentData.t) (r : t) : t :=
  mk (running r) (paused r) (speed r) (trainingMode r) (wellType r)
  (formation r) (simulationTime r) (elapsedTime r) v (controls r) (logData r)
  (eventLog r) (scenario r) (gameOver r) (gameOverReason r)
  (gameOverDetails r) (warningTimers r) (warningTimestamps r)
  (missedWarnings r) (actionLog r) (equipmentStatus r) (casingDepth r)
  (lastCasingRun r) (trippingStatus r) (checkpoints r) (timelineEvents r)
  (lastRiskLevel r) (riskDecaying r) (formationTransitions r)
  (lastFormationDepth r) (currentFormation r) (bopActivations r)
  (kicksHandled r) (targetDepth r) (previousGasLevel r) (arrays r).
Definition set_controls (v : Controls.t) (r : t) : t :=
  mk (running r) (paused r) (speed r) (trainingMode r) (wellType r)
  (formation r) (simulationTime r) (elapsedTime r) (currentData r) v
  (logData r) (eventLog r) (scenario r) (gameOver r) (gameOverReason r)
  (gameOverDetails r) (warningTimers r) (warningTimestamps r)
  (missedWarnings r) (actionLog r) (equipmentStatus r) (casingDepth r)
  (lastCasingRun r) (trippingStatus r) (checkpoints r) (timelineEvents r)
  (lastRiskLevel r) (riskDecaying r) (formationTransitions r)
  (lastFormationDepth r) (currentFormation r) (bopActivations r)
  (kicksHandled r) (targetDepth r) (previousGasLevel r) (arrays r).
Definition set_logData (v : list LogEntry.t) (r : t) : t :=
  mk (running r) (paused r) (speed r) (trainingMode r) (wellType r)
  (formation r) (simulationTime r) (elapsedTime r) (currentData r)
  (controls r) v (eventLog r) (scenario r) (gameOver r) (gameOverReason r)
  (gameOverDetails r) (warningTimers r) (warningTimestamps r)
  (missedWarnings r) (actionLog r) (equipmentStatus r) (casingDepth r)
  (lastCasingRun r) (trippingStatus r) (checkpoints r) (timelineEvents r)
  (lastRiskLevel r) (riskDecaying r) (formationTransitions r)
  (lastFormationDepth r) (currentFormation r) (bopActivations r)
  (kicksHandled r) (targetDepth r) (previousGasLevel r) (arrays r).
Definition set_eventLog (v : list Event.t) (r : t) : t :=
  mk (running r) (paused r) (speed r) (trainingMode r) (wellType r)
  (formation r) (simulationTime r) (elapsedTime r) (currentData r)
  (controls r) (logData r) v (scenario r) (gameOver r) (gameOverReason r)
  (gameOverDetails r) (warningTimers r) (warningTimestamps r)
  (missedWarnings r) (actionLog r) (equipmentStatus r) (casingDepth r)
  (lastCasingRun r) (trippingStatus r) (checkpoints r) (timelineEvents r)
  (lastRiskLevel r) (riskDecaying r) (formationTransitions r)
  (lastFormationDepth r) (currentFormation r) (bopActivations r)
  (kicksHandled r) (targetDepth r) (previousGasLevel r) (arrays r).
Definition set_scenario (v : string) (r : t) : t :=
  mk (running r) (paused r) (speed r) (trainingMode r) (wellType r)
  (formation r) (simulationTime r) (elapsedTime r) (currentData r)
  (controls r) (logData r) (eventLog r) v (gameOver r) (gameOverReason r)
  (gameOverDetails r) (warningTimers r) (warningTimestamps r)
  (missedWarnings r) (actionLog r) (equipmentStatus r) (casingDepth r)
  (lastCasingRun r) (trippingStatus r) (checkpoints r) (timelineEvents r)
  (lastRiskLevel r) (riskDecaying r) (formationTransitions r)
  (lastFormationDepth r) (currentFormation r) (bopActivations r)
  (kicksHandled r) (targetDepth r) (previousGasLevel r) (arrays r).
Definition set_gameOver (v : bool) (r : t) : t :=
  mk (running r) (paused r) (speed r) (trainingMode r) (wellType r)
  (formation r) (simulationTime r) (elapsedTime r) (currentData r)
  (controls r) (logData r) (eventLog r) (scenario r) v (gameOverReason r)
  (gameOverDetails r) (warningTimers r) (warningTimestamps r)
  (missedWarnings r) (actionLog r) (equipmentStatus r) (casingDepth r)
  (lastCasingRun r) (trippingStatus r) (checkpoints r) (timelineEvents r)
  (lastRiskLevel r) (riskDecaying r) (formationTransitions r)
  (lastFormationDepth r) (currentFormation r) (bopActivations r)
  (kicksHandled r) (targetDepth r) (previousGasLevel r) (arrays r).
Definition set_gameOverReason (v : string) (r : t) : t :=
  mk (running r) (paused r) (speed r) (trainingMode r) (wellType r)
  (formation r) (simulationTime r) (elapsedTime r) (currentData r)
  (controls r) (logData r) (eventLog r) (scenario r) (gameOver r) v
  (gameOverDetails r) (warningTimers r) (warningTimestamps r)
  (missedWarnings r) (actionLog r) (equipmentStatus r) (casingDepth r)
  (lastCasingRun r) (trippingStatus r) (checkpoints r) (timelineEvents r)
  (lastRiskLevel r) (riskDecaying r) (formationTransitions r)
  (lastFormationDepth r) (currentFormation r) (bopActivations r)
  (kicksHandled r) (targetDepth r) (previousGasLevel r) (arrays r).
Definition set_gameOverDetails (v : option GameOverDetails.t) (r : t) : t :=
  mk (running r) (paused r) (speed r) (trainingMode r) (wellType r)
  (formation r) (simulationTime r) (elapsedTime r) (currentData r)
  (controls r) (logData r) (eventLog r) (scenario r) (gameOver r)
  (gameOverReason r) v (warningTimers r) (warningTimestamps r)
  (missedWarnings r) (actionLog r) (equipmentStatus r) (casingDepth r)
  (lastCasingRun r) (trippingStatus r) (checkpoints r) (timelineEvents r)
  (lastRiskLevel r) (riskDecaying r) (formationTransitions r)
  (lastFormationDepth r) (currentFormation r) (bopActivations r)
  (kicksHandled r) (targetDepth r) (previousGasLevel r) (arrays r).
Definition set_warningTimers (v : gmap string Z) (r : t) : t :=
  mk (running r) (paused r) (speed r) (trainingMode r) (wellType r)
  (formation r) (simulationTime r) (elapsedTime r) (currentData r)
  (controls r) (logData r) (eventLog r) (scenario r) (gameOver r)
  (gameOverReason r) (gameOverDetails r) v (warningTimestamps r)
  (missedWarnings r) (actionLog r) (equipmentStatus r) (casingDepth r)
  (lastCasingRun r) (trippingStatus r) (checkpoints r) (timelineEvents r)
  (lastRiskLevel r) (riskDecaying r) (formationTransitions r)
  (lastFormationDepth r) (currentFormation r) (bopActivations r)
  (kicksHandled r) (targetDepth r) (previousGasLevel r) (arrays r).
Definition set_warningTimestamps (v : gmap string Z) (r : t) : t :=
  mk (running r) (paused r) (speed r) (trainingMode r) (wellType r)
  (formation r) (simulationTime r) (elapsedTime r) (currentData r)
  (controls r) (logData r) (eventLog r) (scenario r) (gameOver r)
  (gameOverReason r) (gameOverDetails r) (warningTimers r) v
  (missedWarnings r) (actionLog r) (equipmentStatus r) (casingDepth r)
  (lastCasingRun r) (trippingStatus r) (checkpoints r) (timelineEvents r)
  (lastRiskLevel r) (riskDecaying r) (formationTransitions r)
  (lastFormationDepth r) (currentFormation r) (bopActivations r)
  (kicksHandled r) (targetDepth r) (previousGasLevel r) (arrays r).
Definition set_missedWarnings (v : list MissedWarning.t) (r : t) : t :=
  mk (running r) (paused r) (speed r) (trainingMode r) (wellType r)
  (formation r) (simulationTime r) (elapsedTime r) (currentData r)
  (controls r) (logData r) (eventLog r) (scenario r) (gameOver r)
  (gameOverReason r) (gameOverDetails r) (warningTimers r)
  (warningTimestamps r) v (actionLog r) (equipmentStatus r) (casingDepth r)
  (lastCasingRun r) (trippingStatus r) (checkpoints r) (timelineEvents r)
  (lastRiskLevel r) (riskDecaying r) (formationTransitions r)
  (lastFormationDepth r) (currentFormation r) (bopActivations r)
  (kicksHandled r) (targetDepth r) (previousGasLevel r) (arrays r).
Definition set_actionLog (v : list Action.t) (r : t) : t :=
  mk (running r) (paused r) (speed r) (trainingMode r) (wellType r)
  (formation r) (simulationTime r) (elapsedTime r) (currentData r)
  (controls r) (logData r) (eventLog r) (scenario r) (gameOver r)
  (gameOverReason r) (gameOverDetails r) (warningTimers r)
  (warningTimestamps r) (missedWarnings r) v (equipmentStatus r)
  (casingDepth r) (lastCasingRun r) (trippingStatus r) (checkpoints r)
  (timelineEvents r) (lastRiskLevel r) (riskDecaying r)
  (formationTransitions r) (lastFormationDepth r) (currentFormation r)
  (bopActivations r) (kicksHandled r) (targetDepth r) (previousGasLevel r)
  (arrays r).
Definition set_equipmentStatus (v : EquipmentStatus.t) (r : t) : t :=
  mk (running r) (paused r) (speed r) (trainingMode r) (wellType r)
  (formation r) (simulationTime r) (elapsedTime r) (currentData r)
  (controls r) (logData r) (eventLog r) (scenario r) (gameOver r)
  (gameOverReason r) (gameOverDetails r) (warningTimers r)
  (warningTimestamps r) (missedWarnings r) (actionLog r) v (casingDepth r)
  (lastCasingRun r) (trippingStatus r) (checkpoints r) (timelineEvents r)
  (lastRiskLevel r) (riskDecaying r) (formationTransitions r)
  (lastFormationDepth r) (currentFormation r) (bopActivations r)
  (kicksHandled r) (targetDepth r) (previousGasLevel r) (arrays r).
Definition set_casingDepth (v : Q) (r : t) : t :=
  mk (running r) (paused r) (speed r) (trainingMode r) (wellType r)
  (formation r) (simulationTime r) (elapsedTime r) (currentData r)
  (controls r) (logData r) (eventLog r) (scenario r) (gameOver r)
  (gameOverReason r) (gameOverDetails r) (warningTimers r)
  (warningTimestamps r) (missedWarnings r) (actionLog r) (equipmentStatus r) v
  (lastCasingRun r) (trippingStatus r) (checkpoints r) (timelineEvents r)
  (lastRiskLevel r) (riskDecaying r) (formationTransitions r)
  (lastFormationDepth r) (currentFormation r) (bopActivations r)
  (kicksHandled r) (targetDepth r) (previousGasLevel r) (arrays r).
Definition set_lastCasingRun (v : Z) (r : t) : t :=
  mk (running r) (paused r) (speed r) (trainingMode r) (wellType r)
  (formation r) (simulationTime r) (elapsedTime r) (currentData r)
  (controls r) (logData r) (eventLog r) (scenario r) (gameOver r)
  (gameOverReason r) (gameOverDetails r) (warningTimers r)
  (warningTimestamps r) (missedWarnings r) (actionLog r) (equipmentStatus r)
  (casingDepth r) v (trippingStatus r) (checkpoints r) (timelineEvents r)
  (lastRiskLevel r) (riskDecaying r) (formationTransitions r)
  (lastFormationDepth r) (currentFormation r) (bopActivations r)
  (kicksHandled r) (targetDepth r) (previousGasLevel r) (arrays r).
Definition set_trippingStatus (v : TrippingStatus.t) (r : t) : t :=
  mk (running r) (paused r) (speed r) (trainingMode r) (wellType r)
  (formation r) (simulationTime r) (elapsedTime r) (currentData r)
  (controls r) (logData r) (eventLog r) (scenario r) (gameOver r)
  (gameOverReason r) (gameOverDetails r) (warningTimers r)
  (warningTimestamps r) (missedWarnings r) (actionLog r) (equipmentStatus r)
  (casingDepth r) (lastCasingRun r) v (checkpoints r) (timelineEvents r)
  (lastRiskLevel r) (riskDecaying r) (formationTransitions r)
  (lastFormationDepth r) (currentFormation r) (bopActivations r)
  (kicksHandled r) (targetDepth r) (previousGasLevel r) (arrays r).
Definition set_checkpoints (v : list Checkpoint.t) (r : t) : t :=
  mk (running r) (paused r) (speed r) (trainingMode r) (wellType r)
  (formation r) (simulationTime r) (elapsedTime r) (currentData r)
  (controls r) (logData r) (eventLog r) (scenario r) (gameOver r)
  (gameOverReason r) (gameOverDetails r) (warningTimers r)
  (warningTimestamps r) (missedWarnings r) (actionLog r) (equipmentStatus r)
  (casingDepth r) (lastCasingRun r) (trippingStatus r) v (timelineEvents r)
  (lastRiskLevel r) (riskDecaying r) (formationTransitions r)
  (lastFormationDepth r) (currentFormation r) (bopActivations r)
  (kicksHandled r) (targetDepth r) (previousGasLevel r) (arrays r).
Definition set_timelineEvents (v : list TimelineEvent.t) (r : t) : t :=
  mk (running r) (paused r) (speed r) (trainingMode r) (wellType r)
  (formation r) (simulationTime r) (elapsedTime r) (currentData r)
  (controls r) (logData r) (eventLog r) (scenario r) (gameOver r)
  (gameOverReason r) (gameOverDetails r) (warningTimers r)
  (warningTimestamps r) (missedWarnings r) (actionLog r) (equipmentStatus r)
  (casingDepth r) (lastCasingRun r) (trippingStatus r) (checkpoints r) v
  (lastRiskLevel r) (riskDecaying r) (formationTransitions r)
  (lastFormationDepth r) (currentFormation r) (bopActivations r)
  (kicksHandled r) (targetDepth r) (previousGasLevel r) (arrays r).
Definition set_lastRiskLevel (v : Q) (r : t) : t :=
  mk (running r) (paused r) (speed r) (trainingMode r) (wellType r)
  (formation r) (simulationTime r) (elapsedTime r) (currentData r)
  (controls r) (logData r) (eventLog r) (scenario r) (gameOver r)
  (gameOverReason r) (gameOverDetails r) (warningTimers r)
  (warningTimestamps r) (missedWarnings r) (actionLog r) (equipmentStatus r)
  (casingDepth r) (lastCasingRun r) (trippingStatus r) (checkpoints r)
  (timelineEvents r) v (riskDecaying r) (formationTransitions r)
  (lastFormationDepth r) (currentFormation r) (bopActivations r)
  (kicksHandled r) (targetDepth r) (previousGasLevel r) (arrays r).
Definition set_riskDecaying (v : bool) (r : t) : t :=
  mk (running r) (paused r) (speed r) (trainingMode r) (wellType r)
  (formation r) (simulationTime r) (elapsedTime r) (currentData r)
  (controls r) (logData r) (eventLog r) (scenario r) (gameOver r)
  (gameOverReason r) (gameOverDetails r) (warningTimers r)
  (warningTimestamps r) (missedWarnings r) (actionLog r) (equipmentStatus r)
  (casingDepth r) (lastCasingRun r) (trippingStatus r) (checkpoints r)
  (timelineEvents r) (lastRiskLevel r) v (formationTransitions r)
  (lastFormationDepth r) (currentFormation r) (bopActivations r)
  (kicksHandled r) (targetDepth r) (previousGasLevel r) (arrays r).
Definition set_formationTransitions (v : list FormationTransition.t) (r : t) : t :=
  mk (running r) (paused r) (speed r) (trainingMode r) (wellType r)
  (formation r) (simulationTime r) (elapsedTime r) (currentData r)
  (controls r) (logData r) (eventLog r) (scenario r) (gameOver r)
  (gameOverReason r) (gameOverDetails r) (warningTimers r)
  (warningTimestamps r) (missedWarnings r) (actionLog r) (equipmentStatus r)
  (casingDepth r) (lastCasingRun r) (trippingStatus r) (checkpoints r)
  (timelineEvents r) (lastRiskLevel r) (riskDecaying r) v
  (lastFormationDepth r) (currentFormation r) (bopActivations r)
  (kicksHandled r) (targetDepth r) (previousGasLevel r) (arrays r).
Definition set_lastFormationDepth (v : Q) (r : t) : t :=
  mk (running r) (paused r) (speed r) (trainingMode r) (wellType r)
  (formation r) (simulationTime r) (elapsedTime r) (currentData r)
  (controls r) (logData r) (eventLog r) (scenario r) (gameOver r)
  (gameOverReason r) (gameOverDetails r) (warningTimers r)
  (warningTimestamps r) (missedWarnings r) (actionLog r) (equipmentStatus r)
  (casingDepth r) (lastCasingRun r) (trippingStatus r) (checkpoints r)
  (timelineEvents r) (lastRiskLevel r) (riskDecaying r)
  (formationTransitions r) v (currentFormation r) (bopActivations r)
  (kicksHandled r) (targetDepth r) (previousGasLevel r) (arrays r).
Definition set_currentFormation (v : option Layer.t) (r : t) : t :=
  mk (running r) (paused r) (speed r) (trainingMode r) (wellType r)
  (formation r) (simulationTime r) (elapsedTime r) (currentData r)
  (controls r) (logData r) (eventLog r) (scenario r) (gameOver r)
  (gameOverReason r) (gameOverDetails r) (warningTimers r)
  (warningTimestamps r) (missedWarnings r) (actionLog r) (equipmentStatus r)
  (casingDepth r) (lastCasingRun r) (trippingStatus r) (checkpoints r)
  (timelineEvents r) (lastRiskLevel r) (riskDecaying r)
  (formationTransitions r) (lastFormationDepth r) v (bopActivations r)
  (kicksHandled r) (targetDepth r) (previousGasLevel r) (arrays r).
Definition set_bopActivations (v : nat) (r : t) : t :=
  mk (running r) (paused r) (speed r) (trainingMode r) (wellType r)
  (formation r) (simulationTime r) (elapsedTime r) (currentData r)
  (controls r) (logData r) (eventLog r) (scenario r) (gameOver r)
  (gameOverReason r) (gameOverDetails r) (warningTimers r)
  (warningTimestamps r) (missedWarnings r) (actionLog r) (equipmentStatus r)
  (casingDepth r) (lastCasingRun r) (trippingStatus r) (checkpoints r)
  (timelineEvents r) (lastRiskLevel r) (riskDecaying r)
  (formationTransitions r) (lastFormationDepth r) (currentFormation r) v
  (kicksHandled r) (targetDepth r) (previousGasLevel r) (arrays r).
Definition set_kicksHandled (v : nat) (r : t) : t :=
  mk (running r) (paused r) (speed r) (trainingMode r) (wellType r)
  (formation r) (simulationTime r) (elapsedTime r) (currentData r)
  (controls r) (logData r) (eventLog r) (scenario r) (gameOver r)
  (gameOverReason r) (gameOverDetails r) (warningTimers r)
  (warningTimestamps r) (missedWarnings r) (actionLog r) (equipmentStatus r)
  (casingDepth r) (lastCasingRun r) (trippingStatus r) (checkpoints r)
  (timelineEvents r) (lastRiskLevel r) (riskDecaying r)
  (formationTransitions r) (lastFormationDepth r) (currentFormation r)
  (bopActivations r) v (targetDepth r) (previousGasLevel r) (arrays r).
Definition set_targetDepth (v : Q) (r : t) : t :=
  mk (running r) (paused r) (speed r) (trainingMode r) (wellType r)
  (formation r) (simulationTime r) (elapsedTime r) (currentData r)
  (controls r) (logData r) (eventLog r) (scenario r) (gameOver r)
  (gameOverReason r) (gameOverDetails r) (warningTimers r)
  (warningTimestamps r) (missedWarnings r) (actionLog r) (equipmentStatus r)
  (casingDepth r) (lastCasingRun r) (trippingStatus r) (checkpoints r)
  (timelineEvents r) (lastRiskLevel r) (riskDecaying r)
  (formationTransitions r) (lastFormationDepth r) (currentFormation r)
  (bopActivations r) (kicksHandled r) v (previousGasLevel r) (arrays r).
Definition set_previousGasLevel (v : Q) (r : t) : t :=
  mk (running r) (paused r) (speed r) (trainingMode r) (wellType r)
  (formation r) (simulationTime r) (elapsedTime r) (currentData r)
  (controls r) (logData r) (eventLog r) (scenario r) (gameOver r)
  (gameOverReason r) (gameOverDetails r) (warningTimers r)
  (warningTimestamps r) (missedWarnings r) (actionLog r) (equipmentStatus r)
  (casingDepth r) (lastCasingRun r) (trippingStatus r) (checkpoints r)
  (timelineEvents r) (lastRiskLevel r) (riskDecaying r)
  (formationTransitions r) (lastFormationDepth r) (currentFormation r)
  (bopActivations r) (kicksHandled r) (targetDepth r) v (arrays r).
Definition set_arrays (v : list (list Event.t)) (r : t) : t :=
  mk (running r) (paused r) (speed r) (trainingMode r) (wellType r)
  (formation r) (simulationTime r) (elapsedTime r) (currentData r)
  (controls r) (logData r) (eventLog r) (scenario r) (gameOver r)
  (gameOverReason r) (gameOverDetails r) (warningTimers r)
  (warningTimestamps r) (missedWarnings r) (actionLog r) (equipmentStatus r)
  (casingDepth r) (lastCasingRun r) (trippingStatus r) (checkpoints r)
  (timelineEvents r) (lastRiskLevel r) (riskDecaying r)
  (formationTransitions r) (lastFormationDepth r) (currentFormation r)
  (bopActivations r) (kicksHandled r) (targetDepth r) (previousGasLevel r) v.

(** *** Small helpers *)

(** [a.slice(-n)] *)
Definition sliceLast {A} (n : nat) (l : list A) : list A :=
  drop (length l - n) l.

(** [s.includes(sub)] *)
Fixpoint includes (s sub : string) : bool :=
  String.prefix sub s
  || match s with
     | EmptyString => false
     | String _ s' => includes s' sub
     end.

Definition updCurrentData (f : CurrentData.t -> CurrentData.t) (e : t) : t :=
  set_currentData (f (currentData e)) e.

Definition updEquipment (f : EquipmentStatus.t -> EquipmentStatus.t) (e : t) : t :=
  set_equipmentStatus (f (equipmentStatus e)) e.

Definition updTripping (f : TrippingStatus.t -> TrippingStatus.t) (e : t) : t :=
  set_trippingStatus (f (trippingStatus e)) e.

(** [!this.warningTimers[key]]: no entry, or the entry is 0. *)
Definition timerUnset (e : t) (key : string) : bool :=
  match warningTimers e !! key with
  | Some v => (v =? 0)%Z
  | None => true
  end.

(** [this.warningTimers[key] = v] *)
Definition setTimer (key : string) (v : Z) (e : t) : t :=
  set_warningTimers (<[key := v]> (warningTimers e)) e.

(** [this.warningTimers[key] = this.simulationTime;
     this.warningTimestamps[key] = Date.now()] *)
Definition startWarning (env : Env.t) (key : string) (e : t) : t :=
  let e := setTimer key (simulationTime e) e in
  set_warningTimestamps (<[key := Env.now env]> (warningTimestamps e)) e.

(** [this.eventLog.push(ev); this.currentData.events.push(ev)] *)
Definition pushEvent (ev : Event.t) (e : t) : t :=
  let e := set_eventLog (eventLog e ++ [ev]) e in
  set_arrays
    (alter (fun a => a ++ [ev]) (CurrentData.events (currentData e)) (arrays e))
    e.

(** The content of the [events] array of a current-data record. *)
Definition eventsOf (e : t) (d : CurrentData.t) : list Event.t :=
  default [] (arrays e !! CurrentData.events d).

(** *** Initial values *)

Definition initialCurrentData (events : nat) : CurrentData.t :=
  CurrentData.mk 0 0 50 0 0 0 250 10.0 120 0 0 0 0 0 "closed" events.

Definition initialControls : Controls.t :=
  Controls.mk 50 50 60 10 0 "closed" 0 "locked".

Definition initialEquipmentStatus : EquipmentStatus.t :=
  EquipmentStatus.mk 100 0 100 0 0 100 0.

Definition initialTrippingStatus : TrippingStatus.t :=
  TrippingStatus.mk false "none" 0 0 0.

(** *** Clock *)

Definition start (e : t) : t :=
  if running e then e else set_paused false (set_running true e).

Definition pause (e : t) : t := set_paused true e.

Definition resume (e : t) : t := set_paused false e.

Definition stop (e : t) : t := set_paused false (set_running false e).

Definition isGameOver (e : t) : bool := gameOver e.

Definition getGameOverReason (e : t) : string := gameOverReason e.

Definition getGameOverDetails (e : t) : option GameOverDetails.t :=
  gameOverDetails e.

Definition getBopActivations (e : t) : nat := bopActivations e.

Definition getKicksHandled (e : t) : nat := kicksHandled e.

(** *** Formation access *)

Definition getLayerIndexAtDepth (e : t) (d : Q) : nat :=
  match formation e with
  | None => 1%nat
  | Some f => FormationModel.getLayerIndexAtDepth f d
  end.

Definition getFormationPropertiesAtDepth (e : t) (d : Q) : Props.t :=
  match formation e with
  | None => Props.mk 9.0 14.0 0.1 "sandstone" None
  | Some f => FormationModel.getPropertiesAtDepth f d
  end.

(** *** Logs *)

Definition logAction (env : Env.t) (action : string) (value : Value) (e : t) : t :=
  let d := currentData e in
  set_actionLog
    (actionLog e
     ++ [Action.mk action value (Env.now env) (CurrentData.bitDepth d)
           (CurrentData.rop d) (CurrentData.pumpPressure d)
           (CurrentData.pitLevel d) (CurrentData.gasLevel d)
           (CurrentData.mudWeight d)])
    e.

Definition addTimelineEvent (env : Env.t) (type : string) (description : Text)
    (severity : string) (parameters : list (string * Value)) (e : t) : t :=
  let ev :=
    TimelineEvent.mk (Env.now env, Env.idRandom env) type (Env.now env)
      description severity parameters in
  let l := timelineEvents e ++ [ev] in
  set_timelineEvents (if (100 <? length l)%nat then sliceLast 100 l else l) e.

Definition getTimelineEvents (e : t) : list TimelineEvent.t := timelineEvents e.

Definition addToLogs (env : Env.t) (e : t) : t :=
  let d := currentData e in
  let l :=
    logData e
    ++ [LogEntry.mk (Env.now env) (CurrentData.bitDepth d) (CurrentData.rop d)
          (CurrentData.pumpPressure d) (CurrentData.standpipePressure d)
          (CurrentData.pitLevel d) (CurrentData.gasLevel d)
          (CurrentData.mudWeight d) (CurrentData.formationPressure d)
          (CurrentData.annularPressure d) (CurrentData.torque d)
          (CurrentData.rpm d) (CurrentData.hookload d)] in
  set_logData (if (1000 <? length l)%nat then sliceLast 1000 l else l) e.

Definition refreshLogs (env : Env.t) (e : t) : t := addToLogs env e.

Definition getCurrentData (e : t) : CurrentData.t := currentData e.

Definition getLogData (e : t) : list LogEntry.t := logData e.

Definition getEventLog (e : t) : list Event.t := eventLog e.

(** *** Controls and operator actions *)

Definition setControls (env : Env.t) (us : list Controls.update) (e : t) : t :=
  let e :=
    if String.eqb (Controls.bopStatus (controls e)) "open"
       && bool_decide (Controls.partialBopStatus us = Some "closed")
    then
      let e := set_bopActivations (S (bopActivations e)) e in
      addTimelineEvent env "bopActivation" [VStr "BOP activated"] "info"
        [("depth", VNum (CurrentData.bitDepth (currentData e)));
         ("gasLevel", VNum (CurrentData.gasLevel (currentData e)))]
        e
    else e in
  let e :=
    fold_left
      (fun e u =>
         if Controls.differs (controls e) u
         then logAction env ("Changed " +:+ Controls.key u) (Controls.value u) e
         else e)
      us e in
  set_controls (Controls.merge (controls e) us) e.

Definition runCasing (env : Env.t) (e : t) : t :=
  let e := set_casingDepth (CurrentData.bitDepth (currentData e)) e in
  let e := set_lastCasingRun (simulationTime e) e in
  logAction env "Run Casing" (VNum (casingDepth e)) e.

Definition startTripping (env : Env.t) (direction : string) (speed : Q) (e : t) : t :=
  let e :=
    set_trippingStatus
      (TrippingStatus.mk true direction speed
         (CurrentData.bitDepth (currentData e)) (simulationTime e))
      e in
  logAction env "Start Tripping" (VTripping direction speed) e.

Definition stopTripping (env : Env.t) (e : t) : t :=
  let e :=
    updTripping
      (fun s => TrippingStatus.set_direction "none"
                  (TrippingStatus.set_isTripping false s))
      e in
  logAction env "Stop Tripping" VNull e.

Definition setSpeed (v : Q) (e : t) : t :=
  let e := set_speed v e in
  if running e && negb (paused e) then start (stop e) else e.

Definition setTrainingMode (mode : bool) (e : t) : t := set_trainingMode mode e.

Definition setWellType (type : string) (e : t) : t := set_wellType type e.

(** *** Terminal state *)

Definition triggerGameOver (env : Env.t) (reason : string) (details : Details.t)
    (e : t) : t :=
  if gameOver e then e
  else
    let d := currentData e in
    let e := set_gameOver true e in
    let e := set_gameOverReason reason e in
    let e :=
      set_gameOverDetails
        (Some
           (GameOverDetails.mk details (Env.now env) (CurrentData.bitDepth d)
              (elapsedTime e) (CurrentData.rop d) (CurrentData.pumpPressure d)
              (CurrentData.pitLevel d) (CurrentData.gasLevel d)
              (CurrentData.mudWeight d) (CurrentData.standpipePressure d)
              (CurrentData.annularPressure d) (CurrentData.formationPressure d)
              (missedWarnings e) (sliceLast 20 (actionLog e))))
        e in
    let gameOverEvent :=
      Event.mk "gameOver" (Env.now env) (CurrentData.bitDepth d)
        (getLayerIndexAtDepth e (CurrentData.bitDepth d)) "critical"
        ("GAME OVER: " +:+ reason) in
    pause (pushEvent gameOverEvent e).

Definition resetGameOver (e : t) : t :=
  let e := set_gameOver false e in
  let e := set_gameOverReason "" e in
  let e := set_gameOverDetails None e in
  let e := set_missedWarnings [] e in
  let e := set_actionLog [] e in
  let e := set_warningTimers ∅ e in
  let e := set_warningTimestamps ∅ e in
  let e := set_equipmentStatus initialEquipmentStatus e in
  let e := set_casingDepth 0 e in
  let e := set_lastCasingRun 0%Z e in
  set_trippingStatus initialTrippingStatus e.

(** [reset]: the object literal assigned to [currentData] holds a fresh,
    empty [events] array. *)
Definition reset (e : t) : t :=
  let e := stop e in
  let e := resetGameOver e in
  let e := set_simulationTime 0%Z e in
  let e := set_elapsedTime 0 e in
  let fresh := length (arrays e) in
  let e := set_arrays (arrays e ++ [[]]) e in
  let e := set_currentData (initialCurrentData fresh) e in
  let e := set_controls initialControls e in
  let e := set_logData [] e in
  let e := set_eventLog [] e in
  let e := set_timelineEvents [] e in
  let e := set_formationTransitions [] e in
  let e := set_lastFormationDepth 0 e in
  let e := set_currentFormation None e in
  let e := set_lastRiskLevel 0 e in
  set_riskDecaying false e.

(** The values of the field initialisers of the class. *)
Definition fieldInitializers : t :=
  mk false false 1 true "vertical" None 0%Z 0 (initialCurrentData 0)
    initialControls [] [] "normal" false "" None ∅ ∅ [] []
    initialEquipmentStatus 0 0%Z initialTrippingStatus [] [] 0 false [] 0 None
    0%nat 0%nat 0 0 [[]].

(** [new SimulationEngine()] *)
Definition constructor : t :=
  let e := reset fieldInitializers in
  let e := set_checkpoints [] e in
  let e := set_timelineEvents [] e in
  set_formationTransitions [] e.

(** [setFormation]: attaches the model and back-fills a missing
    [kickRisk] on each of its layers. *)
Definition backfillKickRisk (l : Layer.t) : Layer.t :=
  match Layer.kickRisk l with
  | Some _ => l
  | None =>
      let basePressure := 9.0 in
      let pressureFactor := Math_max 0 ((Layer.porePressure l - basePressure) / 5) in
      let permeabilityFactor := Math_min 1 (Layer.permeability l * 2) in
      Layer.mk (Layer.name l) (Layer.depth l) (Layer.thickness l)
        (Layer.porePressure l) (Layer.fracturePressure l)
        (Layer.permeability l) (Layer.lithology l)
        (Some (Math_min 0.8 (pressureFactor * 0.7 + permeabilityFactor * 0.3)))
  end.

Definition setFormation (f : option FormationModel.t) (e : t) : t :=
  set_formation (option_map (map backfillKickRisk) f) e.

(** *** Physics of one tick *)

Definition hardLithology (lithology : string) : bool :=
  String.eqb lithology "limestone" || String.eqb lithology "dolomite".

Definition calculateTorque (rotarySpeed : Q) (formationProps : Props.t) : Q :=
  let baseTorque := rotarySpeed * 0.5 in
  let formationFactor :=
    if hardLithology (Props.lithology formationProps) then 1.5 else 1.0 in
  baseTorque * formationFactor.

Definition calculateHookload (depth : Q) (wellType : string) : Q :=
  let baseHookload := 100 + depth * 0.05 in
  let wellTypeFactor :=
    if String.eqb wellType "deviated" then 1.2
    else if String.eqb wellType "horizontal" then 1.5
    else 1.0 in
  baseHookload * wellTypeFactor.

Definition calculatePumpPressure (pumpRate depth : Q) : Q :=
  let basePressure := pumpRate * 3 in
  let depthFactor := 1 + (depth / 10000) * 0.5 in
  basePressure * depthFactor.

Definition calculateStandpipePressure (pumpPressure chokePosition : Q) : Q :=
  let chokeFactor := 1 + (chokePosition / 100) * 0.5 in
  pumpPressure * chokeFactor.

Definition calculateAnnularPressure (standpipePressure depth : Q) : Q :=
  let depthFactor := Math_max 0.5 (1 - depth / 20000) in
  standpipePressure * depthFactor.

Definition calculateVibration (e : t) : Q :=
  let baseVibration := Controls.rotarySpeed (controls e) * 0.5 in
  let ropFactor := Controls.rop (controls e) / 50 in
  let formationProps :=
    getFormationPropertiesAtDepth e (CurrentData.bitDepth (currentData e)) in
  let formationFactor :=
    if hardLithology (Props.lithology formationProps) then 1.5 else 1.0 in
  let depthFactor := 1 + (CurrentData.bitDepth (currentData e) / 10000) * 0.5 in
  Math_min 100 (baseVibration * ropFactor * formationFactor * depthFactor).

(** An entry for the event log at the current depth. *)
Definition eventNow (env : Env.t) (e : t) (type severity description : string)
    : Event.t :=
  Event.mk type (Env.now env) (CurrentData.bitDepth (currentData e))
    (getLayerIndexAtDepth e (CurrentData.bitDepth (currentData e)))
    severity description.

Definition checkFormationTransition (env : Env.t) (depth : Q) (e : t) : t :=
  match formation e with
  | None => e
  | Some f =>
      let e :=
        match FormationModel.getLayerAtDepth f depth with
        | Some currentLayer =>
            let entered :=
              match currentFormation e with
              | None => true
              | Some c => negb (String.eqb (Layer.name c) (Layer.name currentLayer))
              end in
            if entered then
              let transition :=
                FormationTransition.mk (Env.now env) depth
                  (match currentFormation e with
                   | Some c => Layer.name c
                   | None => "Surface"
                   end)
                  (Layer.name currentLayer) (Layer.lithology currentLayer)
                  (Layer.porePressure currentLayer)
                  (Layer.fracturePressure currentLayer)
                  (Layer.permeability currentLayer)
                  (orDefault (Layer.kickRisk currentLayer) 0.1) in
              let e := set_formationTransitions (formationTransitions e ++ [transition]) e in
              let e := set_currentFormation (Some currentLayer) e in
              addTimelineEvent env "formationTransition"
                [VStr "Entered "; VStr (Layer.name currentLayer);
                 VStr " formation at "; VNum depth; VStr "ft"]
                "info"
                [("depth", VNum depth);
                 ("lithology", VStr (Layer.lithology currentLayer));
                 ("porePressure", VNum (Layer.porePressure currentLayer));
                 ("fracturePressure", VNum (Layer.fracturePressure currentLayer))]
                e
            else e
        | None => e
        end in
      set_lastFormationDepth depth e
  end.

(** The kick half of [checkForEvents]. *)
Definition checkKick (env : Env.t) (formationProps : Props.t) (e : t) : t :=
  let d := currentData e in
  let hydrostaticPressure := CurrentData.mudWeight d * 0.052 * CurrentData.bitDepth d in
  if Qlt_bool 500 (CurrentData.bitDepth d)
     && Qlt_bool hydrostaticPressure (Props.porePressure formationProps)
     && Qlt_bool (CurrentData.pitLevel d) 100
  then
    let pressureDifferential := Props.porePressure formationProps - hydrostaticPressure in
    let formationKickRisk := orDefault (Props.kickRisk formationProps) 0.2 in
    let kickProbability := Math_min 1 (pressureDifferential * 0.1 * formationKickRisk) in
    if Qlt_bool (Env.random env) kickProbability then
      let e :=
        updCurrentData
          (fun d =>
             CurrentData.set_pitLevel (CurrentData.pitLevel d + pressureDifferential * 0.05)
               (CurrentData.set_gasLevel (CurrentData.gasLevel d + pressureDifferential * 0.1) d))
          e in
      if timerUnset e "kick" then
        let e := startWarning env "kick" e in
        let e :=
          pushEvent
            (eventNow env e "kick" "warning"
               "Potential kick detected - formation pressure exceeds hydrostatic pressure")
            e in
        addTimelineEvent env "kickDetected"
          [VStr "Kick detected at "; VNum (CurrentData.bitDepth (currentData e));
           VStr "ft - formation pressure: ";
           VNum (Props.porePressure formationProps); VStr " ppg"]
          "critical"
          [("depth", VNum (CurrentData.bitDepth (currentData e)));
           ("formationPressure", VNum (Props.porePressure formationProps));
           ("hydrostaticPressure", VNum hydrostaticPressure);
           ("mudWeight", VNum (CurrentData.mudWeight (currentData e)))]
          e
      else e
    else e
  else setTimer "kick" 0 e.

(** The lost-circulation half of [checkForEvents]. *)
Definition checkLostCirculation (env : Env.t) (formationProps : Props.t) (e : t) : t :=
  let d := currentData e in
  let fracture := Props.fracturePressure formationProps in
  if Qlt_bool fracture (CurrentData.mudWeight d)
     || Qlt_bool (fracture * 150) (CurrentData.standpipePressure d)
  then
    let lossRate :=
      Math_max ((CurrentData.mudWeight d - fracture) * 2)
        ((CurrentData.standpipePressure d - fracture * 150) * 0.01) in
    let e :=
      updCurrentData
        (fun d => CurrentData.set_pitLevel (CurrentData.pitLevel d - lossRate * 0.1) d)
        e in
    let e :=
      if timerUnset e "lostCirculation" then
        let e := startWarning env "lostCirculation" e in
        let e :=
          pushEvent
            (eventNow env e "lostCirculation" "warning"
               "Lost circulation detected - formation fracture pressure exceeded")
            e in
        addTimelineEvent env "lostCirculation"
          [VStr "Lost circulation at "; VNum (CurrentData.bitDepth (currentData e));
           VStr "ft - fracture pressure: "; VNum fracture; VStr " ppg"]
          "warning"
          [("depth", VNum (CurrentData.bitDepth (currentData e)));
           ("fracturePressure", VNum fracture);
           ("mudWeight", VNum (CurrentData.mudWeight (currentData e)));
           ("standpipePressure", VNum (CurrentData.standpipePressure (currentData e)))]
          e
      else e in
    if Qlt_bool 5 lossRate && timerUnset e "severeLostCirculation" then
      let e := startWarning env "severeLostCirculation" e in
      pushEvent
        (eventNow env e "severeLostCirculation" "critical"
           "Severe lost circulation - significant fluid loss to formation")
        e
    else e
  else setTimer "severeLostCirculation" 0 (setTimer "lostCirculation" 0 e).

Definition checkForEvents (env : Env.t) (formationProps : Props.t) (e : t) : t :=
  checkLostCirculation env formationProps (checkKick env formationProps e).

(** *** Terminal conditions *)

Definition mudPitDepletion : Details.t :=
  Details.mk
    "Mud depleted – circulation impossible – formation fluids uncontrolled."
    "Without drilling fluid, the wellbore cannot maintain hydrostatic pressure, leading to an uncontrolled influx of formation fluids and potential blowout."
    ["Monitor pit levels continuously";
     "Reduce pump rate when pit levels are low";
     "Add lost circulation material when losses are detected";
     "Maintain adequate reserve pit volume at all times"].

Definition blowoutEvent : Details.t :=
  Details.mk
    "Uncontrolled kick has escalated to a blowout."
    "Formation fluids have reached the surface in an uncontrolled manner, creating a dangerous situation with risk of fire, environmental damage, and personnel injury."
    ["Monitor for kick indicators (pit gain, flow rate changes)";
     "Close BOP immediately when kick is detected";
     "Properly weight up mud to control formation pressure";
     "Maintain proper choke control during well control operations"].

Definition formationBreakdown : Details.t :=
  Details.mk
    "Excessive pressure fractured the formation, causing severe losses followed by an influx."
    "The combination of lost circulation and kick is one of the most dangerous scenarios in drilling, as the well can no longer be controlled with conventional methods."
    ["Maintain mud weight below fracture gradient";
     "Control pump pressure and avoid pressure spikes";
     "Perform leak-off tests to determine safe operating pressures";
     "Reduce ECD (Equivalent Circulating Density) when approaching weak zones"].

Definition h2sExposure : Details.t :=
  Details.mk
    "Gas influx containing H2S reached dangerous levels without mitigation."
    "H2S is extremely toxic and can cause rapid unconsciousness and death at high concentrations. The entire rig is now in a life-threatening situation."
    ["Monitor for H2S continuously in high-risk formations";
     "Respond immediately to gas influx indicators";
     "Ensure all personnel are trained in H2S safety procedures";
     "Maintain proper BOP and well control equipment"].

Definition uncontrolledGasInflux : Details.t :=
  Details.mk
    "Gas influx was ignored and has escalated to an uncontrollable situation."
    "The increasing gas volume has displaced drilling fluid, reducing hydrostatic pressure and allowing more formation fluids to enter the wellbore in a dangerous cycle."
    ["Monitor for kick indicators continuously";
     "Take immediate action when gas is detected";
     "Properly train personnel in well control procedures";
     "Maintain adequate mud weight for formation pressure"].

Definition pumpFailure : Details.t :=
  Details.mk
    "Pumps failed due to extended operation beyond rated capacity."
    "Without functional mud pumps, circulation is impossible, leading to inability to control wellbore pressure and remove cuttings."
    ["Monitor pump pressure and maintain within specifications";
     "Perform regular maintenance checks";
     "Reduce pump rate when high pressures are observed";
     "Use multiple pumps to distribute load when high rates are needed"].

Definition drillStringFailure : Details.t :=
  Details.mk
    "Drill string failed due to excessive torque and vibration."
    "A drill string failure can result in dropped pipe, fishing operations, or in severe cases, loss of well control if it occurs during a critical operation."
    ["Monitor torque and vibration continuously";
     "Adjust drilling parameters (WOB, RPM) to minimize vibration";
     "Perform regular inspections of drill pipe";
     "Use shock subs and other vibration dampening tools"].

Definition bopFailure : Details.t :=
  Details.mk
    "BOP failed due to improper operation."
    "A non-functional BOP means the last line of defense against a blowout is compromised, creating an extremely dangerous situation."
    ["Never close annular preventer while pipe is rotating";
     "Perform regular BOP tests and maintenance";
     "Ensure proper training for BOP operation";
     "Follow manufacturer's guidelines for BOP operation"].

Definition wellboreCollapse : Details.t :=
  Details.mk
    "Wellbore collapsed due to drilling too deep without casing in unstable formation."
    "Wellbore collapse has trapped the drill string, making it impossible to circulate or trip out. The well must now be abandoned or sidetracked at significant cost."
    ["Run casing at appropriate intervals based on formation stability";
     "Monitor for signs of wellbore instability (tight hole, high torque)";
     "Use appropriate mud properties to stabilize the wellbore";
     "Perform caliper logs to assess wellbore condition before running casing"].

(** [lithology === "shale" || permeability < 0.01] *)
Definition unstableFormation (formationProps : Props.t) : bool :=
  String.eqb (Props.lithology formationProps) "shale"
  || Qlt_bool (Props.permeability formationProps) 0.01.

(** An action logged after the gas-influx warning that counts as
    mitigation. A timestamp that was never written compares false. *)
Definition mitigatingAction (e : t) (a : Action.t) : bool :=
  match warningTimestamps e !! "gasInflux" with
  | Some ts => (ts <? Action.time a)%Z
  | None => false
  end
  && (includes (Action.action a) "BOP"
      || includes (Action.action a) "mudWeight"
      || includes (Action.action a) "chokePosition").

(** Condition 4 of [checkGameOverConditions]; the boolean tells whether
    the procedure returned from inside it. *)
Definition checkGasInflux (env : Env.t) (formationProps : Props.t) (e : t) : t * bool :=
  let d := currentData e in
  if Qlt_bool 500 (CurrentData.bitDepth d) && Qlt_bool 5 (CurrentData.gasLevel d) then
    let e := if timerUnset e "gasInflux" then startWarning env "gasInflux" e else e in
    let timeElapsed := (simulationTime e - default 0 (warningTimers e !! "gasInflux"))%Z in
    if Qlt_bool (60 * speed e) (inject_Z timeElapsed) then
      let actionsAfterWarning := filter (fun a => mitigatingAction e a = true) (actionLog e) in
      if (length actionsAfterWarning =? 0)%nat then
        let e :=
          set_missedWarnings
            (missedWarnings e
             ++ [MissedWarning.mk "Gas Influx Detected"
                   (default 0%Z (warningTimestamps e !! "gasInflux"))
                   "Close BOP and adjust mud weight" "60 seconds"])
            e in
        let h2sPresent :=
          String.eqb (Props.lithology formationProps) "shale"
          || String.eqb (scenario e) "blowout" in
        if h2sPresent then (triggerGameOver env "H2S Exposure" h2sExposure e, true)
        else (triggerGameOver env "Uncontrolled Gas Influx" uncontrolledGasInflux e, true)
      else (setTimer "gasInflux" 0 e, false)
    else (e, false)
  else (setTimer "gasInflux" 0 e, false).

Definition checkGameOverConditions (env : Env.t) (formationProps : Props.t) (e : t) : t :=
  let d := currentData e in
  let fracture := Props.fracturePressure formationProps in
  if Qeq_bool (CurrentData.pitLevel d) 0 then
    triggerGameOver env "Mud Pit Depletion" mudPitDepletion e
  else if Qlt_bool 500 (CurrentData.bitDepth d)
          && Qlt_bool 20 (CurrentData.gasLevel d)
          && String.eqb (Controls.bopStatus (controls e)) "open" then
    triggerGameOver env "Blowout Event" blowoutEvent e
  else if (Qlt_bool (fracture * 200) (CurrentData.standpipePressure d)
           || Qlt_bool (fracture * 1.2) (CurrentData.mudWeight d))
          && (Qlt_bool 5 (CurrentData.gasLevel d)
              && Qlt_bool (CurrentData.pitLevel d) 30) then
    triggerGameOver env "Formation Breakdown with Kick" formationBreakdown e
  else
    let (e, returned) := checkGasInflux env formationProps e in
    if returned then e
    else if Qle_bool (EquipmentStatus.pumpsHealth (equipmentStatus e)) 0 then
      triggerGameOver env "Pump Failure" pumpFailure e
    else if Qle_bool (EquipmentStatus.drillStringHealth (equipmentStatus e)) 0 then
      triggerGameOver env "Drill String Failure" drillStringFailure e
    else if Qle_bool (EquipmentStatus.bopHealth (equipmentStatus e)) 0 then
      triggerGameOver env "BOP Failure" bopFailure e
    else
      let depthWithoutCasing := CurrentData.bitDepth (currentData e) - casingDepth e in
      let timeSinceLastCasing := (simulationTime e - lastCasingRun e)%Z in
      if Qlt_bool 1500 depthWithoutCasing
         && (1000 <? timeSinceLastCasing)%Z
         && unstableFormation formationProps
      then triggerGameOver env "Wellbore Collapse" wellboreCollapse e
      else e.

(** *** Equipment *)

Definition updateEquipmentStatus (env : Env.t) (e : t) : t :=
  let pumpRate := Controls.pumpRate (controls e) in
  (* pumps *)
  let e :=
    if Qlt_bool 800 pumpRate then
      let damageRate := (pumpRate - 800) / 200 in
      updEquipment
        (fun q =>
           EquipmentStatus.set_pumpsHealth
             (EquipmentStatus.pumpsHealth q - damageRate * 0.1)
             (EquipmentStatus.set_pumpsOveruseDuration
                (EquipmentStatus.pumpsOveruseDuration q + 1) q))
        e
    else if Qlt_bool 0 (EquipmentStatus.pumpsOveruseDuration (equipmentStatus e)) then
      updEquipment
        (fun q =>
           EquipmentStatus.set_pumpsOveruseDuration
             (Math_max 0 (EquipmentStatus.pumpsOveruseDuration q - 0.5)) q)
        e
    else e in
  (* drill string *)
  let vibration := calculateVibration e in
  let torque := CurrentData.torque (currentData e) in
  let e :=
    updEquipment
      (fun q =>
         EquipmentStatus.set_drillStringTorque torque
           (EquipmentStatus.set_drillStringVibration vibration q))
      e in
  let e :=
    if Qlt_bool 80 vibration || Qlt_bool 90 torque then
      let vibrationDamage := Math_max 0 ((vibration - 80) * 0.05) in
      let torqueDamage := Math_max 0 ((torque - 90) * 0.1) in
      let e :=
        updEquipment
          (fun q =>
             EquipmentStatus.set_drillStringHealth
               (EquipmentStatus.drillStringHealth q - (vibrationDamage + torqueDamage)) q)
          e in
      let e :=
        if timerUnset e "highVibration" && Qlt_bool 80 vibration then
          let e := startWarning env "highVibration" e in
          pushEvent
            (eventNow env e "highVibration" "warning"
               "High vibration detected - risk of drill string damage")
            e
        else e in
      if timerUnset e "highTorque" && Qlt_bool 90 torque then
        let e := startWarning env "highTorque" e in
        pushEvent
          (eventNow env e "highTorque" "warning"
             "High torque detected - risk of drill string damage or twist-off")
          e
      else e
    else setTimer "highTorque" 0 (setTimer "highVibration" 0 e) in
  (* blowout preventer *)
  if String.eqb (Controls.bopStatus (controls e)) "closed"
     && Qlt_bool 30 (Controls.rotarySpeed (controls e))
  then
    let e :=
      updEquipment
        (fun q =>
           EquipmentStatus.set_bopHealth
             (EquipmentStatus.bopHealth q - Controls.rotarySpeed (controls e) * 0.1) q)
        e in
    if timerUnset e "bopWithRotation" then
      let e := startWarning env "bopWithRotation" e in
      pushEvent
        (eventNow env e "bopWithRotation" "warning"
           "BOP closed while pipe is rotating - risk of equipment damage")
        e
    else e
  else setTimer "bopWithRotation" 0 e.

(** *** Tripping *)

Definition checkTrippingOperations (env : Env.t) (e : t) : t :=
  let ts := trippingStatus e in
  if negb (TrippingStatus.isTripping ts) then e
  else
    let currentTime := simulationTime e in
    let timeDelta := (currentTime - TrippingStatus.lastTime ts)%Z in
    if (timeDelta <=? 0)%Z then e
    else
      let currentDepth := CurrentData.bitDepth (currentData e) in
      let depthDelta := currentDepth - TrippingStatus.lastDepth ts in
      let actualSpeed := Qabs depthDelta / (inject_Z timeDelta / 60) in
      let e :=
        updTripping
          (fun s => TrippingStatus.set_lastTime currentTime
                      (TrippingStatus.set_lastDepth currentDepth s))
          e in
      (* swab: tripping out too fast *)
      let e :=
        if String.eqb (TrippingStatus.direction ts) "out" && Qlt_bool 100 actualSpeed then
          let swabPressureReduction := (actualSpeed - 100) * 0.05 in
          let e :=
            updCurrentData
              (fun d =>
                 CurrentData.set_formationPressure
                   (CurrentData.formationPressure d + swabPressureReduction) d)
              e in
          let d := currentData e in
          if Qlt_bool (CurrentData.mudWeight d * 0.052 * CurrentData.bitDepth d)
               (CurrentData.formationPressure d)
          then
            let e :=
              updCurrentData
                (fun d =>
                   CurrentData.set_pitLevel
                     (CurrentData.pitLevel d + swabPressureReduction * 0.2)
                     (CurrentData.set_gasLevel
                        (CurrentData.gasLevel d + swabPressureReduction * 0.5) d))
                e in
            if timerUnset e "swabKick" then
              let e := startWarning env "swabKick" e in
              pushEvent
                (eventNow env e "swabKick" "warning"
                   "Swab-induced kick detected - tripping out too fast")
                e
            else e
          else e
        else e in
      (* surge: tripping in too fast *)
      if String.eqb (TrippingStatus.direction ts) "in" && Qlt_bool 100 actualSpeed then
        let surgePressureIncrease := (actualSpeed - 100) * 0.1 in
        let e :=
          updCurrentData
            (fun d =>
               CurrentData.set_annularPressure
                 (CurrentData.annularPressure d + surgePressureIncrease) d)
            e in
        let formationProps :=
          getFormationPropertiesAtDepth e (CurrentData.bitDepth (currentData e)) in
        if Qlt_bool (Props.fracturePressure formationProps * 100)
             (CurrentData.annularPressure (currentData e))
        then
          let e :=
            updCurrentData
              (fun d =>
                 CurrentData.set_pitLevel
                   (CurrentData.pitLevel d - surgePressureIncrease * 0.5) d)
              e in
          if timerUnset e "surgeLoss" then
            let e := startWarning env "surgeLoss" e in
            pushEvent
              (eventNow env e "surgeLoss" "warning"
                 "Surge-induced losses detected - tripping in too fast")
              e
          else e
        else e
      else e.

(** *** Checkpoints *)

(** [createCheckpoint] returns the checkpoint it stored. The snapshot
    copies the current-data record, so it shares its [events] array. *)
Definition createCheckpoint (env : Env.t) (automatic : bool) (e : t)
    : Checkpoint.t * t :=
  let checkpointId := "cp_" +:+ pretty (Env.now env) in
  let timestamp := Env.now env in
  let depth := CurrentData.bitDepth (currentData e) in
  let checkpoint :=
    Checkpoint.mk checkpointId
      [VStr (if automatic then "Auto-save at " else "Checkpoint at ");
       VNum depth; VStr "ft"]
      timestamp depth automatic
      (CheckpointState.mk (currentData e) (controls e) (equipmentStatus e)
         (casingDepth e) (simulationTime e)) in
  let l := checkpoints e ++ [checkpoint] in
  let e := set_checkpoints (if (10 <? length l)%nat then sliceLast 10 l else l) e in
  let e :=
    if negb automatic then
      addTimelineEvent env "checkpoint"
        [VStr "Checkpoint created at "; VNum depth; VStr "ft"] "info"
        [("depth", VNum depth); ("id", VStr checkpointId)] e
    else e in
  (checkpoint, e).

Definition getCheckpoints (e : t) : list Checkpoint.t := checkpoints e.

Definition loadCheckpoint (env : Env.t) (checkpointId : string) (e : t) : bool * t :=
  match find (fun cp => String.eqb (Checkpoint.id cp) checkpointId) (checkpoints e) with
  | None => (false, e)
  | Some checkpoint =>
      let st := Checkpoint.state checkpoint in
      let e := set_currentData (CheckpointState.currentData st) e in
      let e := set_controls (CheckpointState.controls st) e in
      let e := set_equipmentStatus (CheckpointState.equipmentStatus st) e in
      let e := set_casingDepth (CheckpointState.casingDepth st) e in
      let e := set_simulationTime (CheckpointState.simulationTime st) e in
      let e := set_gameOver false e in
      let e := set_gameOverReason "" e in
      let e := set_gameOverDetails None e in
      let e :=
        addTimelineEvent env "checkpointLoaded"
          (VStr "Checkpoint loaded: " :: Checkpoint.name checkpoint) "info"
          [("depth", VNum (Checkpoint.depth checkpoint)); ("id", VStr checkpointId)]
          e in
      (true, e)
  end.

(** *** Risk *)

(** [Math.round] *)
Definition Math_round (a : Q) : Z := Qfloor (a + 0.5).

(** A candidate sub-score replaces the running maximum only when it is
    strictly larger. *)
Definition raise (candidate : Q) (type : string) (acc : Q * option string)
    : Q * option string :=
  if Qlt_bool (fst acc) candidate then (candidate, Some type) else acc.

(** The score and type computed by [getRiskLevel], before its updates. *)
Definition riskScore (e : t) : Q * option string :=
  let d := currentData e in
  let acc : Q * option string := (0, None) in
  let hydrostaticPressure := CurrentData.mudWeight d * 0.052 * CurrentData.bitDepth d in
  let formationProps := getFormationPropertiesAtDepth e (CurrentData.bitDepth d) in
  let pore := Props.porePressure formationProps in
  let fracture := Props.fracturePressure formationProps in
  let acc :=
    if Qlt_bool 500 (CurrentData.bitDepth d) && Qlt_bool (hydrostaticPressure * 0.95) pore then
      let kickRisk :=
        Math_min 100
          (((pore - hydrostaticPressure * 0.95) / (hydrostaticPressure * 0.05)) * 100) in
      let formationKickFactor := orDefault (Props.kickRisk formationProps) 0.2 in
      let adjustedKickRisk := kickRisk * (0.7 + formationKickFactor * 0.3) in
      raise adjustedKickRisk "kick" acc
    else acc in
  let acc :=
    if Qlt_bool (fracture * 0.9) (CurrentData.mudWeight d)
       || Qlt_bool (fracture * 130) (CurrentData.standpipePressure d)
    then
      let lossRisk :=
        Math_min 100
          (Math_max
             (((CurrentData.mudWeight d - fracture * 0.9) / (fracture * 0.1)) * 100)
             (((CurrentData.standpipePressure d - fracture * 130) / (fracture * 20)) * 100)) in
      raise lossRisk "lostCirculation" acc
    else acc in
  let acc :=
    if Qlt_bool (CurrentData.pitLevel d) 30 then
      let pitRisk := Math_min 100 (((30 - CurrentData.pitLevel d) / 30) * 100) in
      raise pitRisk "pitDepletion" acc
    else acc in
  let q := equipmentStatus e in
  let equipmentRisk :=
    Math_min 100
      (Math_max
         (Math_max ((100 - EquipmentStatus.pumpsHealth q) * 1.2)
            ((100 - EquipmentStatus.drillStringHealth q) * 1.2))
         ((100 - EquipmentStatus.bopHealth q) * 1.2)) in
  let acc := raise equipmentRisk "equipmentFailure" acc in
  let depthWithoutCasing := CurrentData.bitDepth d - casingDepth e in
  if Qlt_bool 1000 depthWithoutCasing && unstableFormation formationProps then
    let instabilityRisk := Math_min 100 ((depthWithoutCasing - 1000) / 10) in
    raise instabilityRisk "wellboreInstability" acc
  else acc.

Definition riskTypeValue (riskType : option string) : Value :=
  match riskType with
  | Some s => VStr s
  | None => VNull
  end.

(** Reason and details of the failure raised at the maximum risk. *)
Definition riskFailure (riskType : option string) : string * Details.t :=
  let consequence := "The operation has failed due to unmanaged risks." in
  let preventionTips :=
    ["Monitor warning signs closely";
     "Take immediate action when risks are detected";
     "Follow proper procedures for well control";
     "Maintain equipment within operational parameters"] in
  let hasType (type : string) := bool_decide (riskType = Some type) in
  let (reason, description) :=
    if hasType "kick" then
      ("Uncontrolled Kick",
       "Formation fluids entered the wellbore and were not properly controlled.")
    else if hasType "lostCirculation" then
      ("Catastrophic Lost Circulation",
       "Complete loss of drilling fluid to the formation.")
    else if hasType "pitDepletion" then
      ("Mud System Failure", "Critical depletion of drilling fluid reserves.")
    else if hasType "equipmentFailure" then
      ("Critical Equipment Failure",
       "Key drilling equipment has failed beyond operational limits.")
    else if hasType "wellboreInstability" then
      ("Wellbore Collapse",
       "The wellbore has collapsed due to instability and lack of support.")
    else
      ("Critical System Failure",
       "Multiple critical failures led to an unrecoverable situation.") in
  (reason, Details.mk description consequence preventionTips).

Module RiskLevel.
Record t := mk {
  level : Q;
  type : option string;
  decaying : bool
}.
End RiskLevel.

Definition getRiskLevel (env : Env.t) (e : t) : RiskLevel.t * t :=
  let (riskLevel, riskType) := riskScore e in
  let riskParameters :=
    [("previousRisk", VInt (Math_round (lastRiskLevel e)));
     ("currentRisk", VInt (Math_round riskLevel));
     ("riskType", riskTypeValue riskType)] in
  let decaying := Qlt_bool riskLevel (lastRiskLevel e) in
  let e :=
    if decaying then
      if Qlt_bool 20 (lastRiskLevel e - riskLevel) then
        addTimelineEvent env "riskDecreased"
          [VStr "Risk level decreased from "; VInt (Math_round (lastRiskLevel e));
           VStr "% to "; VInt (Math_round riskLevel); VStr "%"]
          "success" riskParameters e
      else e
    else if Qlt_bool (lastRiskLevel e + 10) riskLevel then
      addTimelineEvent env "riskIncreased"
        [VStr "Risk level increased to "; VInt (Math_round riskLevel); VStr "% - ";
         VStr (default "multiple issues" riskType)]
        (if Qlt_bool 70 riskLevel then "critical" else "warning")
        riskParameters e
    else e in
  let e := set_lastRiskLevel riskLevel e in
  let e := set_riskDecaying decaying e in
  let e :=
    if Qle_bool 100 riskLevel && negb (gameOver e) then
      let (reason, details) := riskFailure riskType in
      triggerGameOver env reason details e
    else e in
  (RiskLevel.mk riskLevel riskType decaying, e).

(** *** The tick *)

Definition checkKickHandling (env : Env.t) (e : t) : t :=
  let e :=
    if Qlt_bool 3 (previousGasLevel e)
       && Qlt_bool (CurrentData.gasLevel (currentData e)) (previousGasLevel e)
       && String.eqb (Controls.bopStatus (controls e)) "closed"
    then
      let e := set_kicksHandled (S (kicksHandled e)) e in
      addTimelineEvent env "kickHandled" [VStr "Kick successfully controlled"]
        "success"
        [("depth", VNum (CurrentData.bitDepth (currentData e)));
         ("gasLevel", VNum (CurrentData.gasLevel (currentData e)));
         ("mudWeight", VNum (CurrentData.mudWeight (currentData e)))]
        e
    else e in
  set_previousGasLevel (CurrentData.gasLevel (currentData e)) e.

Definition updateSimulation (env : Env.t) (e : t) : t :=
  if gameOver e then e
  else
    let e := set_simulationTime (simulationTime e + 1)%Z e in
    let e := set_elapsedTime (elapsedTime e + 1 / speed e) e in
    let formationProps :=
      getFormationPropertiesAtDepth e (CurrentData.bitDepth (currentData e)) in
    let e := checkFormationTransition env (CurrentData.bitDepth (currentData e)) e in
    (* bit depth *)
    let c := controls e in
    let unlocked := String.eqb (Controls.drawworks c) "unlocked" in
    let depthIncrement := if unlocked then 0 else Controls.rop c / (3600 / speed e) in
    let e :=
      updCurrentData
        (fun d =>
           if unlocked then
             let depthChange :=
               (Controls.hookPosition c - CurrentData.bitDepth d / 100) * 10 in
             CurrentData.set_bitDepth (Math_max 0 (CurrentData.bitDepth d + depthChange)) d
           else CurrentData.set_bitDepth (CurrentData.bitDepth d + depthIncrement) d)
        e in
    (* drilling parameters *)
    let e := updCurrentData (CurrentData.set_rop (Controls.rop c)) e in
    let e := updCurrentData (CurrentData.set_rpm (Controls.rotarySpeed c)) e in
    let e :=
      updCurrentData
        (CurrentData.set_torque (calculateTorque (Controls.rotarySpeed c) formationProps))
        e in
    let e :=
      updCurrentData
        (fun d =>
           CurrentData.set_hookload (calculateHookload (CurrentData.bitDepth d) (wellType e)) d)
        e in
    (* fluid parameters *)
    let e := updCurrentData (CurrentData.set_mudWeight (Controls.mudWeight c)) e in
    let e :=
      updCurrentData
        (fun d =>
           CurrentData.set_pumpPressure
             (calculatePumpPressure (Controls.pumpRate c) (CurrentData.bitDepth d)) d)
        e in
    let e :=
      updCurrentData
        (fun d =>
           CurrentData.set_standpipePressure
             (calculateStandpipePressure (CurrentData.pumpPressure d)
                (Controls.chokePosition c)) d)
        e in
    let e :=
      updCurrentData
        (fun d =>
           CurrentData.set_annularPressure
             (calculateAnnularPressure (CurrentData.standpipePressure d)
                (CurrentData.bitDepth d)) d)
        e in
    (* "Ensure pit level never goes below 0" *)
    let e :=
      updCurrentData
        (fun d => CurrentData.set_pitLevel (Math_max 0 (CurrentData.pitLevel d)) d) e in
    let e :=
      updCurrentData
        (CurrentData.set_formationPressure (Props.porePressure formationProps)) e in
    let e := updCurrentData (CurrentData.set_bopStatus (Controls.bopStatus c)) e in
    let e := updCurrentData (CurrentData.set_chokePosition (Controls.chokePosition c)) e in
    let e := checkForEvents env formationProps e in
    let e := checkGameOverConditions env formationProps e in
    let e := updateEquipmentStatus env e in
    let e := checkTrippingOperations env e in
    (* automatic checkpoint every 500 ft *)
    let depth := CurrentData.bitDepth (currentData e) in
    let e :=
      if (Math_floor ((depth - depthIncrement) / 500) <? Math_floor (depth / 500))%Z
      then snd (createCheckpoint env true e)
      else e in
    let e := if (Z.rem (simulationTime e) 5 =? 0)%Z then addToLogs env e else e in
    checkKickHandling env e.

(** The callback of the interval timer started by [start]. *)
Definition intervalTick (env : Env.t) (e : t) : t :=
  if running e && negb (paused e) then updateSimulation env e else e.

Definition refreshData (env : Env.t) (e : t) : t :=
  let e := refreshLogs env e in
  if running e && negb (paused e) then updateSimulation env e else e.

(** [n] calls of [updateSimulation], one environment per call. *)
Definition ticks (envs : list Env.t) (e : t) : t :=
  fold_left (fun e env => updateSimulation env e) envs e.

(** *** Scenarios *)

(** A scenario picks one layer object, changes it in place and hands it
    to [updateLayer]: the picked entry of the list changes, and so does
    the first entry of the same name. *)
Definition changeLayer (index : option nat) (change : Layer.t -> Layer.t)
    (ls : FormationModel.t) : FormationModel.t :=
  match index with
  | None => ls
  | Some i =>
      match ls !! i with
      | None => ls
      | Some l => FormationModel.updateLayer (change l) (<[i := change l]> ls)
      end
  end.

(** [layers.reduce((prev, current) => prev.depth > current.depth ? prev : current)],
    as the index of its result. *)
Definition deepestIndex (ls : FormationModel.t) : option nat :=
  match ls with
  | [] => None
  | first :: rest =>
      Some
        (fst
           (fold_left
              (fun (acc : nat * (nat * Layer.t)) current =>
                 let '(best, (i, prev)) := acc in
                 if Qlt_bool (Layer.depth current) (Layer.depth prev)
                 then (best, (S i, prev))
                 else (S i, (S i, current)))
              rest (0%nat, (0%nat, first))))
  end.

Definition scenarioFormation (scenario : string) (ls : FormationModel.t)
    : FormationModel.t :=
  if String.eqb scenario "kick" then
    changeLayer
      (FormationModel.findIndex (fun l => Qlt_bool 1500 (Layer.depth l)) ls)
      (fun l =>
         Layer.mk (Layer.name l) (Layer.depth l) (Layer.thickness l) 14.0
           (Layer.fracturePressure l) (Layer.permeability l) (Layer.lithology l)
           (Some 0.6))
      ls
  else if String.eqb scenario "lost-circulation" then
    changeLayer
      (FormationModel.findIndex
         (fun l => Qlt_bool 800 (Layer.depth l) && Qlt_bool (Layer.depth l) 1500) ls)
      (fun l =>
         Layer.mk (Layer.name l) (Layer.depth l) (Layer.thickness l)
           (Layer.porePressure l) 11.0 (Layer.permeability l) (Layer.lithology l)
           (Layer.kickRisk l))
      ls
  else if String.eqb scenario "stuck-pipe" then
    changeLayer
      (FormationModel.findIndex (fun l => Qlt_bool 1000 (Layer.depth l)) ls)
      (fun l =>
         Layer.mk (Layer.name l) (Layer.depth l) (Layer.thickness l) 8.0
           (Layer.fracturePressure l) 0.001 (Layer.lithology l) (Layer.kickRisk l))
      ls
  else if String.eqb scenario "blowout" then
    changeLayer (deepestIndex ls)
      (fun l =>
         Layer.mk (Layer.name l) (Layer.depth l) (Layer.thickness l) 16.0
           (Layer.fracturePressure l) 0.5 (Layer.lithology l) (Some 0.8))
      ls
  else ls.

Definition loadScenario (name : string) (e : t) : t :=
  let e := set_scenario name e in
  let e := reset e in
  set_formation (option_map (scenarioFormation name) (formation e)) e.

Definition setTargetDepth (depth : Q) (e : t) : t := set_targetDepth depth e.

(** *** The operations of the host, and the timer *)

Inductive Op :=
| Start
| Pause
| Resume
| Stop
| Reset
| ResetGameOver
| SetSpeed (speed : Q)
| SetTrainingMode (mode : bool)
| SetWellType (type : string)
| SetFormation (formation : option FormationModel.t)
| SetTargetDepth (depth : Q)
| SetControls (env : Env.t) (controls : list Controls.update)
| RunCasing (env : Env.t)
| StartTripping (env : Env.t) (direction : string) (speed : Q)
| StopTripping (env : Env.t)
| LoadScenario (name : string)
| CreateCheckpoint (env : Env.t) (automatic : bool)
| LoadCheckpoint (env : Env.t) (checkpointId : string)
| GetRiskLevel (env : Env.t)
| RefreshLogs (env : Env.t)
| RefreshData (env : Env.t)
| IntervalTick (env : Env.t)
| UpdateSimulation (env : Env.t).

Definition apply (o : Op) (e : t) : t :=
  match o with
  | Start => start e
  | Pause => pause e
  | Resume => resume e
  | Stop => stop e
  | Reset => reset e
  | ResetGameOver => resetGameOver e
  | SetSpeed v => setSpeed v e
  | SetTrainingMode m => setTrainingMode m e
  | SetWellType w => setWellType w e
  | SetFormation f => setFormation f e
  | SetTargetDepth d => setTargetDepth d e
  | SetControls env us => setControls env us e
  | RunCasing env => runCasing env e
  | StartTripping env direction v => startTripping env direction v e
  | StopTripping env => stopTripping env e
  | LoadScenario name => loadScenario name e
  | CreateCheckpoint env automatic => snd (createCheckpoint env automatic e)
  | LoadCheckpoint env checkpointId => snd (loadCheckpoint env checkpointId e)
  | GetRiskLevel env => snd (getRiskLevel env e)
  | RefreshLogs env => refreshLogs env e
  | RefreshData env => refreshData env e
  | IntervalTick env => intervalTick env e
  | UpdateSimulation env => updateSimulation env e
  end.

Definition run (ops : list Op) (e : t) : t := fold_left (fun e o => apply o e) ops e.

(** The states an engine can be in: those a sequence of operations
    reaches from a new engine. *)
Definition reachable (e : t) : Prop := exists ops, e = run ops constructor.

(** *** Further getters *)

(** [getTargetDepth]: [this.targetDepth || 0]. *)
Definition getTargetDepth (e : t) : Q :=
  if Qeq_bool (targetDepth e) 0 then 0 else targetDepth e.

Definition isTargetDepthReached (e : t) : bool :=
  Qlt_bool 0 (targetDepth e)
  && Qle_bool (targetDepth e) (CurrentData.bitDepth (currentData e)).

Definition getActionLog (e : t) : list Action.t := actionLog e.

Definition getMissedWarnings (e : t) : list MissedWarning.t := missedWarnings e.

(** The predefined formation table of the engine, each entry with its
    description. *)
Definition formationData : list (Layer.t * string) :=
  [ (Layer.mk "Surface Formation" 0 500 8.5 12.0 0.01 "sand" (Some 0.05),
     "Unconsolidated surface formation with low pressure.");
    (Layer.mk "Upper Shale" 500 1000 9.2 14.5 0.001 "shale" (Some 0.1),
     "Stable shale formation with moderate pressure.");
    (Layer.mk "Sandstone Reservoir" 1500 800 11.0 15.0 0.5 "sandstone" (Some 0.25),
     "Permeable sandstone with potential for fluid influx.");
    (Layer.mk "Pressured Zone" 2300 500 14.0 16.5 0.05 "limestone" (Some 0.4),
     "High-pressure limestone formation requiring careful drilling.");
    (Layer.mk "Salt Dome" 2800 400 10.0 13.0 0.001 "salt" (Some 0.15),
     "Salt formation with risk of washouts and closure.");
    (Layer.mk "Deep Reservoir" 3200 600 15.5 17.0 0.3 "sandstone" (Some 0.45),
     "Deep high-pressure reservoir with significant kick potential.") ].

(** The loop of [getFormationAtDepth] over a table, from its last entry
    down to its first. *)
Definition scanTable (table : list (Layer.t * string)) (depth : Q)
    : option (Layer.t * string) :=
  List.find (fun entry => Qle_bool (Layer.depth (fst entry)) depth) (rev table).

(** [getFormationAtDepth]: an entry of the predefined table (with its
    description) when no model is attached, the model's layer otherwise. *)
Definition getFormationAtDepth (e : t) (depth : Q) : option (Layer.t * option string) :=
  match formation e with
  | None =>
      match scanTable formationData depth with
      | Some (l, description) => Some (l, Some description)
      | None => option_map (fun entry => (fst entry, Some (snd entry))) (head formationData)
      end
  | Some f =>
      option_map (fun l => (l, None)) (FormationModel.getLayerAtDepth f depth)
  end.

(** *** Merged log views *)

Module DepthLog.
Record t := mk {
  depth : Q;
  timestamp : Z;
  eventType : string;
  parameters : list (string * Value)
}.
End DepthLog.

(** [array.sort(compare)] for a comparison by a key: a stable sort. *)
Fixpoint insertSorted {A} (le : A -> A -> bool) (x : A) (l : list A) : list A :=
  match l with
  | [] => [x]
  | y :: rest => if le x y then x :: y :: rest else y :: insertSorted le x rest
  end.

Definition sortBy {A} (le : A -> A -> bool) (l : list A) : list A :=
  fold_right (insertSorted le) [] l.

(** [event.parameters?.depth || 0] *)
Definition parameterDepth (parameters : list (string * Value)) : Q :=
  match List.find (fun p => String.eqb (fst p) "depth") parameters with
  | Some (_, VNum q) => q
  | _ => 0
  end.

Definition allEvents (e : t) : list DepthLog.t :=
  map
    (fun ev =>
       DepthLog.mk (Event.depth ev) (Event.time ev) (Event.type ev)
         [("layer", VInt (Z.of_nat (Event.layer ev)));
          ("severity", VStr (Event.severity ev))])
    (eventLog e)
  ++ map
       (fun ev =>
          DepthLog.mk (parameterDepth (TimelineEvent.parameters ev))
            (TimelineEvent.time ev) (TimelineEvent.type ev)
            (TimelineEvent.parameters ev))
       (timelineEvents e)
  ++ map
       (fun tr =>
          DepthLog.mk (FormationTransition.depth tr) (FormationTransition.time tr)
            "formationTransition"
            [("fromFormation", VStr (FormationTransition.fromFormation tr));
             ("toFormation", VStr (FormationTransition.toFormation tr));
             ("lithology", VStr (FormationTransition.lithology tr));
             ("porePressure", VNum (FormationTransition.porePressure tr));
             ("fracturePressure", VNum (FormationTransition.fracturePressure tr));
             ("permeability", VNum (FormationTransition.permeability tr));
             ("kickRisk", VNum (FormationTransition.kickRisk tr))])
       (formationTransitions e)
  ++ map
       (fun a =>
          DepthLog.mk (Action.depth a) (Action.time a) ("action_" +:+ Action.action a)
            [("value", Action.value a);
             ("rop", VNum (Action.rop a));
             ("pumpPressure", VNum (Action.pumpPressure a));
             ("pitLevel", VNum (Action.pitLevel a));
             ("gasLevel", VNum (Action.gasLevel a));
             ("mudWeight", VNum (Action.mudWeight a))])
       (actionLog e).

Definition getDepthLogs (e : t) : list DepthLog.t :=
  sortBy (fun a b => Qle_bool (DepthLog.depth a) (DepthLog.depth b)) (allEvents e).

Definition getTimeLogs (e : t) : list DepthLog.t :=
  sortBy (fun a b => (DepthLog.timestamp a <=? DepthLog.timestamp b)%Z) (getDepthLogs e).

End SimulationEngine.

(** * Invariant and sample runs *)

(** No unit is healthier than new. *)
Definition healthOK (q : EquipmentStatus.t) : Prop :=
  EquipmentStatus.pumpsHealth q <= 100
  /\ EquipmentStatus.drillStringHealth q <= 100
  /\ EquipmentStatus.bopHealth q <= 100.

(** The invariant of the engine used below: the live equipment and every
    stored snapshot satisfy [healthOK], and at most ten snapshots are
    stored. *)
Definition invariant (e : SimulationEngine.t) : Prop :=
  healthOK (SimulationEngine.equipmentStatus e)
  /\ Forall
       (fun cp => healthOK (CheckpointState.equipmentStatus (Checkpoint.state cp)))
       (SimulationEngine.checkpoints e)
  /\ (length (SimulationEngine.checkpoints e) <= 10)%nat.

(** An environment for the sample runs; the draw 0 is the one most
    favourable to a kick ([Math.random() < p] holds for every p > 0). *)
Definition sampleEnv : Env.t := Env.mk 1700000000000 0 0.

(** A new engine, started, mud weight 18 ppg and the rotary table
    stopped, after [n] timer ticks. *)
Definition heavyMudRun (n : nat) : SimulationEngine.t :=
  SimulationEngine.run
    (SimulationEngine.Start
     :: SimulationEngine.SetControls sampleEnv
          [Controls.MudWeight 18; Controls.RotarySpeed 0]
     :: repeat (SimulationEngine.IntervalTick sampleEnv) n)
    SimulationEngine.constructor.

(** A new engine, started and left alone for [n] timer ticks. *)
Definition idleRun (n : nat) : SimulationEngine.t :=
  SimulationEngine.run
    (SimulationEngine.Start :: repeat (SimulationEngine.IntervalTick sampleEnv) n)
    SimulationEngine.constructor.

(** The default formation with a deeper layer of pore pressure 15.5
    whose top is at 3000 ft. *)
Definition deepFormation : FormationModel.t :=
  FormationModel.addLayer
    (Layer.mk "Deep Reservoir" 3000 600 15.5 17.0 0.3 "sandstone" (Some 0.45))
    FormationModel.initializeDefaultLayers.

(** An engine on [deepFormation] whose bit was lowered to 3000 ft with
    the drawworks (hook position 300 for one tick, then 30, which holds
    the bit at 3000 ft), and whose mud weight was then set to 8.0 ppg. *)
Definition underbalancedAt3000 : SimulationEngine.t :=
  SimulationEngine.run
    [SimulationEngine.SetFormation (Some deepFormation);
     SimulationEngine.Start;
     SimulationEngine.SetControls sampleEnv
       [Controls.Drawworks "unlocked"; Controls.HookPosition 300];
     SimulationEngine.IntervalTick sampleEnv;
     SimulationEngine.SetControls sampleEnv
       [Controls.HookPosition 30; Controls.MudWeight 8.0]]
    SimulationEngine.constructor.

(** A new engine with one manual checkpoint, its speed set to 2. *)
Definition savedOnce : SimulationEngine.t :=
  SimulationEngine.run
    [SimulationEngine.SetSpeed 2;
     SimulationEngine.CreateCheckpoint sampleEnv false]
    SimulationEngine.constructor.

(** A new engine after [n] manual checkpoints taken at the times
    1, 2, ..., n. *)
Definition savedTimes (n : nat) : SimulationEngine.t :=
  SimulationEngine.run
    (map (fun k => SimulationEngine.CreateCheckpoint (Env.mk (Z.of_nat k) 0 0) false)
       (seq 1 n))
    SimulationEngine.constructor.

(** A new engine, started, mud weight 13 ppg, after one timer tick. *)
Definition mudWeight13 : SimulationEngine.t :=
  SimulationEngine.run
    [SimulationEngine.Start;
     SimulationEngine.SetControls sampleEnv [Controls.MudWeight 13];
     SimulationEngine.IntervalTick sampleEnv]
    SimulationEngine.constructor.

(** * The completed-scenario store *)

Module ScenarioStore.

(** [addCompletedScenario]: the list of completed scenario ids after
    one more completion. *)
Definition addCompletedScenario (scenarioId : string) (completedScenarios : list string)
    : list string :=
  if bool_decide (scenarioId ∈ completedScenarios) then completedScenarios
  else completedScenarios ++ [scenarioId].

Definition resetCompletedScenarios (completedScenarios : list string) : list string := [].

End ScenarioStore.

(** * Relations between the states of one tick *)

(** What a tick reads but never writes, together with its clock values. *)
Definition settings (e : SimulationEngine.t) :=
  (SimulationEngine.controls e, SimulationEngine.speed e, SimulationEngine.formation e,
   SimulationEngine.wellType e, SimulationEngine.trainingMode e,
   SimulationEngine.scenario e, SimulationEngine.running e,
   SimulationEngine.simulationTime e, SimulationEngine.elapsedTime e,
   SimulationEngine.casingDepth e, SimulationEngine.lastCasingRun e,
   SimulationEngine.targetDepth e, SimulationEngine.bopActivations e,
   SimulationEngine.actionLog e).

(** [during e0 e]: [e] can arise from [e0] in the course of a tick: same
    settings, an event log that only grew, health that only dropped. *)
Definition during (e0 e : SimulationEngine.t) : Prop :=
  settings e = settings e0
  /\ SimulationEngine.eventLog e0 `prefix_of` SimulationEngine.eventLog e
  /\ EquipmentStatus.pumpsHealth (SimulationEngine.equipmentStatus e)
     <= EquipmentStatus.pumpsHealth (SimulationEngine.equipmentStatus e0)
  /\ EquipmentStatus.drillStringHealth (SimulationEngine.equipmentStatus e)
     <= EquipmentStatus.drillStringHealth (SimulationEngine.equipmentStatus e0)
  /\ EquipmentStatus.bopHealth (SimulationEngine.equipmentStatus e)
     <= EquipmentStatus.bopHealth (SimulationEngine.equipmentStatus e0).

(** The retention bounds of the two trimmed logs. *)
Definition capped (e : SimulationEngine.t) : Prop :=
  (length (SimulationEngine.timelineEvents e) <= 100)%nat
  /\ (length (SimulationEngine.logData e) <= 1000)%nat.

(** A change of the equipment record that raises no health. *)
Definition wears (f : EquipmentStatus.t -> EquipmentStatus.t) : Prop :=
  forall q,
    EquipmentStatus.pumpsHealth (f q) <= EquipmentStatus.pumpsHealth q
    /\ EquipmentStatus.drillStringHealth (f q) <= EquipmentStatus.drillStringHealth q
    /\ EquipmentStatus.bopHealth (f q) <= EquipmentStatus.bopHealth q.


(** The health of the pumps and of the blowout preventer after the wear
    of one tick, from the controls [c] and the health before it. *)
Definition pumpsHealthAfter (c : Controls.t) (health : Q) : Q :=
  if Qlt_bool 800 (Controls.pumpRate c)
  then health - (Controls.pumpRate c - 800) / 200 * 0.1
  else health.

Definition bopHealthAfter (c : Controls.t) (health : Q) : Q :=
  if String.eqb (Controls.bopStatus c) "closed" && Qlt_bool 30 (Controls.rotarySpeed c)
  then health - Controls.rotarySpeed c * 0.1
  else health.

(** [gearIs g e]: the controls, the pump health and the preventer health
    of [e] are the three components of [g]. *)
Definition gearIs (g : Controls.t * Q * Q) (e : SimulationEngine.t) : Prop :=
  (SimulationEngine.controls e,
   EquipmentStatus.pumpsHealth (SimulationEngine.equipmentStatus e),
   EquipmentStatus.bopHealth (SimulationEngine.equipmentStatus e)) = g.

(** * Auxiliary definitions of the properties *)

(** The entry that [setControls] logs for one changed property. *)
Definition changeEntry (env : Env.t) (e : SimulationEngine.t) (u : Controls.update)
    : Action.t :=
  let d := SimulationEngine.currentData e in
  Action.mk ("Changed " +:+ Controls.key u) (Controls.value u) (Env.now env)
    (CurrentData.bitDepth d) (CurrentData.rop d) (CurrentData.pumpPressure d)
    (CurrentData.pitLevel d) (CurrentData.gasLevel d) (CurrentData.mudWeight d).

(** The order of [sortByDepth]: by the depth of the top. *)
Definition depthLe (a b : Layer.t) : bool := Qle_bool (Layer.depth a) (Layer.depth b).

(** [notOver e]: no failure has been raised. *)
Definition notOver (e : SimulationEngine.t) : Prop := SimulationEngine.gameOver e = false.

(** [collapseOnlyIf e]: when [e] has failed by wellbore collapse, the
    bit is more than 1500 ft below the casing and the last casing run is
    more than 1000 ticks old. *)
Definition collapseOnlyIf (e : SimulationEngine.t) : Prop :=
  SimulationEngine.gameOver e = true ->
  SimulationEngine.gameOverReason e = "Wellbore Collapse" ->
  1500 < CurrentData.bitDepth (SimulationEngine.currentData e) - SimulationEngine.casingDepth e
  /\ (1000 < SimulationEngine.simulationTime e - SimulationEngine.lastCasingRun e)%Z.

(** What the running maximum of [riskScore] keeps: the level is between
    0 and 100, it is 0 while no type is set and positive once one is, and
    a level of type kick is at most 76. *)
Definition scoreOK (acc : Q * option string) : Prop :=
  (0 <= fst acc /\ fst acc <= 100)
  /\ (snd acc = None -> fst acc = 0)
  /\ (snd acc <> None -> 0 < fst acc)
  /\ (snd acc = Some "kick" -> fst acc <= 76).

(** [tallyIs g e]: the gas level of the previous tick, the count of
    handled kicks and the controls of [e] are the components of [g]. *)
Definition tallyIs (g : Q * nat * Controls.t) (e : SimulationEngine.t) : Prop :=
  (SimulationEngine.previousGasLevel e, SimulationEngine.kicksHandled e,
   SimulationEngine.controls e) = g.

(** [unread mode speed e]: [e] with another training mode and another
    recorded tripping speed. *)
Definition unread (mode : bool) (speed : Q) (e : SimulationEngine.t) : SimulationEngine.t :=
  SimulationEngine.set_trainingMode mode
    (SimulationEngine.updTripping (TrippingStatus.set_speed speed) e).

(** The same change on the state of a result paired with a flag. *)
Definition unreadFst (mode : bool) (speed : Q) (r : SimulationEngine.t * bool)
    : SimulationEngine.t * bool :=
  (unread mode speed (fst r), snd r).

(** What a scenario never changes of a layer. *)
Definition layout (l : Layer.t) : string * Q * Q * string :=
  (Layer.name l, Layer.depth l, Layer.thickness l, Layer.lithology l).

(** [isOver e]: a failure has been raised and not cleared. *)
Definition isOver (e : SimulationEngine.t) : Prop := SimulationEngine.gameOver e = true.

(** The operations that can clear the game-over flag: [reset] (also
    through [loadScenario]), [resetGameOver] and [loadCheckpoint]. *)
Definition clearsGameOver (o : SimulationEngine.Op) : bool :=
  match o with
  | SimulationEngine.Reset
  | SimulationEngine.ResetGameOver
  | SimulationEngine.LoadScenario _
  | SimulationEngine.LoadCheckpoint _ _ => true
  | _ => false
  end.

(** Two layers whose ranges overlap, [0, 100) and [50, 150), added to an
    empty model with [addLayer]. *)
Definition upperLayer : Layer.t := Layer.mk "A" 0 100 10 15 0.1 "sandstone" None.

Definition lowerLayer : Layer.t := Layer.mk "B" 50 100 5 15 0.1 "sandstone" None.

Definition overlappingLayers : FormationModel.t :=
  FormationModel.addLayer lowerLayer (FormationModel.addLayer upperLayer []).

(** * Properties *)

(** ** Comparisons *)

Lemma Qlt_bool_iff (a b : Q) : Qlt_bool a b = true <-> a < b.
Proof.
  unfold Qlt_bool. rewrite negb_true_iff. split.
  - intros H. apply Qnot_le_lt. intros Hc.
    apply Qle_bool_iff in Hc. congruence.
  - intros H. destruct (Qle_bool b a) eqn:E; [|reflexivity].
    apply Qle_bool_iff in E. lra.
Qed.

Lemma Qlt_bool_false (a b : Q) : Qlt_bool a b = false <-> b <= a.
Proof.
  unfold Qlt_bool. rewrite negb_false_iff. apply Qle_bool_iff.
Qed.

Lemma Math_max_lower (a b : Q) : a <= Math_max a b.
Proof.
  unfold Math_max. destruct (Qle_bool a b) eqn:E.
  - now apply Qle_bool_iff.
  - lra.
Qed.

Lemma Math_max_upper (a b : Q) : b <= Math_max a b.
Proof.
  unfold Math_max. destruct (Qle_bool a b) eqn:E; [lra|].
  destruct (Qlt_le_dec b a) as [H|H]; [lra|].
  apply Qle_bool_iff in H. congruence.
Qed.

(** ** Formation model *)

Lemma inLayer_spec (l : Layer.t) (d : Q) :
  FormationModel.inLayer l d = true
  <-> Layer.depth l <= d /\ d < Layer.depth l + Layer.thickness l.
Proof.
  unfold FormationModel.inLayer.
  rewrite andb_true_iff, Qle_bool_iff, Qlt_bool_iff. reflexivity.
Qed.

(** In a list without overlap, the scan finds the layer whose range
    holds the depth. *)
Lemma scanLayers_noOverlap (ls : FormationModel.t) (l : Layer.t) (d : Q) :
  FormationModel.noOverlap ls -> In l ls -> FormationModel.inLayer l d = true ->
  FormationModel.scanLayers ls d = Some l.
Proof.
  unfold FormationModel.noOverlap.
  induction 1 as [|h rest Hh Hrest IH]; intros Hin Hd; [destruct Hin|].
  simpl. destruct (FormationModel.inLayer h d) eqn:Eh.
  - destruct Hin as [->|Hin]; [reflexivity|].
    rewrite List.Forall_forall in Hh.
    destruct (Hh l Hin d Eh Hd).
  - destruct Hin as [->|Hin]; [congruence|].
    apply IH; assumption.
Qed.

Lemma getLayerAtDepth_noOverlap (ls : FormationModel.t) (l : Layer.t) (d : Q) :
  FormationModel.noOverlap ls -> In l ls -> FormationModel.inLayer l d = true ->
  FormationModel.getLayerAtDepth ls d = Some l.
Proof.
  intros Hno Hin Hd. unfold FormationModel.getLayerAtDepth.
  now rewrite (scanLayers_noOverlap ls l d Hno Hin Hd).
Qed.

(** A depth above the top of every layer is in no layer. *)
Lemma scanLayers_above (ls : FormationModel.t) (d : Q) :
  (forall l, In l ls -> d < Layer.depth l) ->
  FormationModel.scanLayers ls d = None.
Proof.
  induction ls as [|h rest IH]; intros Habove; [reflexivity|].
  simpl. destruct (FormationModel.inLayer h d) eqn:Eh.
  - apply inLayer_spec in Eh. specialize (Habove h (or_introl eq_refl)). lra.
  - apply IH. intros l Hl. apply Habove. now right.
Qed.

Lemma last_In (ls : FormationModel.t) (l : Layer.t) : last ls = Some l -> In l ls.
Proof.
  intros H. apply list_elem_of_In. now apply last_Some_elem_of.
Qed.

Lemma getLayerAtDepth_above (ls : FormationModel.t) (d : Q) :
  (forall l, In l ls -> d < Layer.depth l) ->
  FormationModel.getLayerAtDepth ls d = None.
Proof.
  intros Habove. unfold FormationModel.getLayerAtDepth.
  rewrite (scanLayers_above ls d Habove).
  destruct (last ls) as [l|] eqn:El; [|reflexivity].
  destruct (Qle_bool (Layer.depth l) d) eqn:E; [|reflexivity].
  apply Qle_bool_iff in E. specialize (Habove l (last_In ls l El)). lra.
Qed.

Lemma defaultLayers_noOverlap :
  FormationModel.noOverlap FormationModel.initializeDefaultLayers.
Proof.
  unfold FormationModel.noOverlap, FormationModel.initializeDefaultLayers.
  repeat constructor; intros d H1 H2;
    apply inLayer_spec in H1; apply inLayer_spec in H2; simpl in *; lra.
Qed.

(** C9. In a formation whose depth ranges do not overlap (the invariant
    of the layer list), for a layer of positive thickness and depths
    d1 <= d2 within its range, the pore pressure returned for d1 is at
    most the one returned for d2, and at the layer's own top the returned
    pore pressure is the layer's base pore pressure. *)
Theorem C9_porePressure_monotone_in_layer
    (ls : FormationModel.t) (l : Layer.t) (d1 d2 : Q) :
  FormationModel.noOverlap ls -> In l ls -> 0 < Layer.thickness l ->
  Layer.depth l <= d1 -> d1 <= d2 -> d2 < Layer.depth l + Layer.thickness l ->
  Props.porePressure (FormationModel.getPropertiesAtDepth ls d1)
    <= Props.porePressure (FormationModel.getPropertiesAtDepth ls d2)
  /\ Props.porePressure (FormationModel.getPropertiesAtDepth ls (Layer.depth l))
       == Layer.porePressure l.
Proof.
  intros Hno Hin Hth Hlo H12 Hhi.
  assert (Hin1 : FormationModel.inLayer l d1 = true) by (apply inLayer_spec; lra).
  assert (Hin2 : FormationModel.inLayer l d2 = true) by (apply inLayer_spec; lra).
  assert (Hin0 : FormationModel.inLayer l (Layer.depth l) = true)
    by (apply inLayer_spec; lra).
  unfold FormationModel.getPropertiesAtDepth.
  rewrite (getLayerAtDepth_noOverlap ls l d1 Hno Hin Hin1).
  rewrite (getLayerAtDepth_noOverlap ls l d2 Hno Hin Hin2).
  rewrite (getLayerAtDepth_noOverlap ls l _ Hno Hin Hin0).
  simpl. split.
  - apply Qplus_le_r. apply Qmult_le_compat_r.
    + unfold Qdiv. apply Qmult_le_compat_r; [lra|].
      apply Qlt_le_weak. now apply Qinv_lt_0_compat.
    + unfold FormationModel.porePressureGradient. lra.
  - unfold Qdiv. ring.
Qed.

(** The default four-layer formation, its shale layer, depths 600 and 700. *)
Lemma C9_witness :
  Props.porePressure
    (FormationModel.getPropertiesAtDepth FormationModel.initializeDefaultLayers 600)
    <= Props.porePressure
         (FormationModel.getPropertiesAtDepth FormationModel.initializeDefaultLayers 700)
  /\ Props.porePressure
       (FormationModel.getPropertiesAtDepth FormationModel.initializeDefaultLayers 500)
       == 9.2.
Proof.
  apply (C9_porePressure_monotone_in_layer FormationModel.initializeDefaultLayers
           (Layer.mk "Shale" 500 1000 9.2 14.5 0.001 "shale" None) 600 700).
  - exact defaultLayers_noOverlap.
  - simpl. right. left. reflexivity.
  - reflexivity.
  - vm_compute. discriminate.
  - vm_compute. discriminate.
  - reflexivity.
Defined.

(** C9 as stated fails where ranges overlap, which [addLayer] accepts:
    with the layers [0, 100) of pore pressure 10 and [50, 150) of pore
    pressure 5, the depths 99 and 100 are both in the range of the second
    layer, yet the pressure returned at 99 (10.099, from the first layer)
    is above the one returned at 100 (5.05), and at the second layer's
    own top the returned pressure is 10.05, not its base 5. *)
Lemma C9_overlapping_layers_break_monotonicity :
  In lowerLayer overlappingLayers
  /\ 0 < Layer.thickness lowerLayer
  /\ Layer.depth lowerLayer <= 99
  /\ 100 < Layer.depth lowerLayer + Layer.thickness lowerLayer
  /\ Props.porePressure (FormationModel.getPropertiesAtDepth overlappingLayers 99) == 10.099
  /\ Props.porePressure (FormationModel.getPropertiesAtDepth overlappingLayers 100) == 5.05
  /\ ~ Props.porePressure (FormationModel.getPropertiesAtDepth overlappingLayers 99)
       <= Props.porePressure (FormationModel.getPropertiesAtDepth overlappingLayers 100)
  /\ Props.porePressure
       (FormationModel.getPropertiesAtDepth overlappingLayers (Layer.depth lowerLayer))
     == 10.05
  /\ ~ Props.porePressure
         (FormationModel.getPropertiesAtDepth overlappingLayers (Layer.depth lowerLayer))
       == Layer.porePressure lowerLayer.
Proof.
  split; [right; left; reflexivity|].
  split; [reflexivity|].
  split; [vm_compute; discriminate|].
  split; [reflexivity|].
  split; [vm_compute; reflexivity|].
  split; [vm_compute; reflexivity|].
  split; [vm_compute; intros H; now apply H|].
  split; [vm_compute; reflexivity|].
  vm_compute. discriminate.
Qed.


(** C10. Where [getLayerAtDepth] yields no layer, [getPropertiesAtDepth]
    returns the default record; this is the case for an empty layer list
    and for a depth above the top of every layer (a negative depth in a
    formation that starts at the surface). *)
Theorem C10_default_properties_without_layer (ls : FormationModel.t) (d : Q) :
  (FormationModel.getLayerAtDepth ls d = None ->
   FormationModel.getPropertiesAtDepth ls d
   = Props.mk 9.0 14.0 0.1 "sandstone" None)
  /\ FormationModel.getLayerAtDepth [] d = None
  /\ ((forall l, In l ls -> d < Layer.depth l) ->
      FormationModel.getLayerAtDepth ls d = None).
Proof.
  split; [|split].
  - intros H. unfold FormationModel.getPropertiesAtDepth. now rewrite H.
  - reflexivity.
  - apply getLayerAtDepth_above.
Qed.

(** A negative depth in the default formation. *)
Lemma C10_witness :
  FormationModel.getPropertiesAtDepth FormationModel.initializeDefaultLayers (-5)
  = Props.mk 9.0 14.0 0.1 "sandstone" None.
Proof.
  destruct (C10_default_properties_without_layer
              FormationModel.initializeDefaultLayers (-5)) as [Hdefault [_ Habove]].
  apply Hdefault. apply Habove.
  intros l Hl. simpl in Hl.
  destruct Hl as [<-|[<-|[<-|[<-|[]]]]]; reflexivity.
Defined.

(** ** Checkpoints *)

Lemma find_none_iff (id : string) (cps : list Checkpoint.t) :
  find (fun cp => String.eqb (Checkpoint.id cp) id) cps = None
  <-> (forall cp, In cp cps -> Checkpoint.id cp <> id).
Proof.
  split.
  - intros H cp Hin Heq.
    pose proof (find_none _ _ H cp Hin) as Hf. simpl in Hf.
    apply String.eqb_neq in Hf. contradiction.
  - intros H. destruct (find _ cps) as [cp|] eqn:E; [|reflexivity].
    apply find_some in E as [Hin Heq]. apply String.eqb_eq in Heq.
    destruct (H cp Hin Heq).
Qed.

(** C4. [loadCheckpoint] with an id that no stored checkpoint has returns
    false and leaves the engine as it is; with a stored id it returns
    true, clears the game-over flag, and the current data read right
    after is the record stored in a checkpoint of that id (the first one
    in the list), field for field and with the same events array. *)
Theorem C4_loadCheckpoint (env : Env.t) (id : string) (e : SimulationEngine.t) :
  ((forall cp, In cp (SimulationEngine.getCheckpoints e) -> Checkpoint.id cp <> id) ->
   SimulationEngine.loadCheckpoint env id e = (false, e))
  /\ ((exists cp, In cp (SimulationEngine.getCheckpoints e) /\ Checkpoint.id cp = id) ->
      exists cp,
        In cp (SimulationEngine.getCheckpoints e)
        /\ Checkpoint.id cp = id
        /\ find (fun c => String.eqb (Checkpoint.id c) id)
             (SimulationEngine.getCheckpoints e) = Some cp
        /\ fst (SimulationEngine.loadCheckpoint env id e) = true
        /\ SimulationEngine.isGameOver
             (snd (SimulationEngine.loadCheckpoint env id e)) = false
        /\ SimulationEngine.getCurrentData
             (snd (SimulationEngine.loadCheckpoint env id e))
           = CheckpointState.currentData (Checkpoint.state cp)
        /\ SimulationEngine.eventsOf
             (snd (SimulationEngine.loadCheckpoint env id e))
             (SimulationEngine.getCurrentData
                (snd (SimulationEngine.loadCheckpoint env id e)))
           = SimulationEngine.eventsOf e
               (CheckpointState.currentData (Checkpoint.state cp))).
Proof.
  unfold SimulationEngine.getCheckpoints. split.
  - intros Hnone. unfold SimulationEngine.loadCheckpoint.
    now rewrite (proj2 (find_none_iff id _) Hnone).
  - intros [cp0 [Hin0 Hid0]].
    destruct (find (fun c => String.eqb (Checkpoint.id c) id)
                (SimulationEngine.checkpoints e)) as [cp|] eqn:E.
    + exists cp. pose proof (find_some _ _ E) as [Hin Heq].
      apply String.eqb_eq in Heq.
      unfold SimulationEngine.loadCheckpoint. rewrite E.
      repeat split; try assumption; reflexivity.
    + destruct (proj1 (find_none_iff id _) E cp0 Hin0 Hid0).
Qed.

(** The checkpoint of [savedOnce], and an id that was never issued. *)
Lemma C4_witness :
  SimulationEngine.loadCheckpoint sampleEnv "cp_0" savedOnce = (false, savedOnce)
  /\ exists cp,
       In cp (SimulationEngine.getCheckpoints savedOnce)
       /\ fst (SimulationEngine.loadCheckpoint sampleEnv "cp_1700000000000" savedOnce)
          = true
       /\ SimulationEngine.getCurrentData
            (snd (SimulationEngine.loadCheckpoint sampleEnv "cp_1700000000000" savedOnce))
          = CheckpointState.currentData (Checkpoint.state cp).
Proof.
  split.
  - apply (proj1 (C4_loadCheckpoint sampleEnv "cp_0" savedOnce)).
    intros cp Hin. vm_compute in Hin. destruct Hin as [<-|[]]. discriminate.
  - destruct (proj2 (C4_loadCheckpoint sampleEnv "cp_1700000000000" savedOnce))
      as [cp [Hin [_ [_ [Hok [_ [Hdata _]]]]]]].
    + eexists. split; [left; reflexivity|]. vm_compute. reflexivity.
    + exists cp. repeat split; assumption.
Defined.

(** ** The invariant *)

Lemma invariant_frame (e e' : SimulationEngine.t) :
  SimulationEngine.equipmentStatus e' = SimulationEngine.equipmentStatus e ->
  SimulationEngine.checkpoints e' = SimulationEngine.checkpoints e ->
  invariant e -> invariant e'.
Proof. unfold invariant. intros -> ->. trivial. Qed.

(** One step through the body of an operation: a state bound by [let]
    is replaced by any state satisfying the invariant, a branch is split,
    and a call that touches neither the equipment nor the checkpoints is
    stepped over. *)
Ltac inv_step :=
  match goal with
  | H : invariant ?e |- invariant ?e => exact H
  | |- invariant (let x := ?a in @?b x) =>
      let T := type of a in
      lazymatch T with
      | SimulationEngine.t =>
          let e' := fresh "e" in
          let H := fresh "H" in
          cut (invariant a);
          [ generalize a; intros e' H; change (invariant (b e')); cbv beta | ]
      | _ => change (invariant (b a)); cbv beta
      end
  | |- invariant (if ?c then _ else _) => destruct c
  | |- invariant (match ?c with Some _ => _ | None => _ end) => destruct c
  | |- invariant (?f ?x) =>
      apply (invariant_frame x (f x)); [reflexivity | reflexivity | ]
  end.

Ltac inv_steps := repeat inv_step.

Lemma checkFormationTransition_inv env depth e :
  invariant e -> invariant (SimulationEngine.checkFormationTransition env depth e).
Proof. intros H. cbv beta delta [SimulationEngine.checkFormationTransition]. inv_steps. Qed.

Lemma checkKick_inv env fp e :
  invariant e -> invariant (SimulationEngine.checkKick env fp e).
Proof. intros H. cbv beta delta [SimulationEngine.checkKick]. inv_steps. Qed.

Lemma checkLostCirculation_inv env fp e :
  invariant e -> invariant (SimulationEngine.checkLostCirculation env fp e).
Proof. intros H. cbv beta delta [SimulationEngine.checkLostCirculation]. inv_steps. Qed.

Lemma checkForEvents_inv env fp e :
  invariant e -> invariant (SimulationEngine.checkForEvents env fp e).
Proof.
  intros H. cbv beta delta [SimulationEngine.checkForEvents].
  now apply checkLostCirculation_inv, checkKick_inv.
Qed.

Lemma triggerGameOver_inv env reason details e :
  invariant e -> invariant (SimulationEngine.triggerGameOver env reason details e).
Proof. intros H. cbv beta delta [SimulationEngine.triggerGameOver]. inv_steps. Qed.

Lemma checkGasInflux_inv env fp e :
  invariant e -> invariant (fst (SimulationEngine.checkGasInflux env fp e)).
Proof.
  intros H. cbv beta delta [SimulationEngine.checkGasInflux].
  repeat match goal with
         | |- invariant (fst (let x := ?a in @?b x)) =>
             let T := type of a in
             lazymatch T with
             | SimulationEngine.t =>
                 let e' := fresh "e" in
                 let H := fresh "H" in
                 cut (invariant a);
                 [ generalize a; intros e' H; change (invariant (fst (b e'))); cbv beta
                 | inv_steps ]
             | _ => change (invariant (fst (b a))); cbv beta
             end
         | |- invariant (fst (if ?c then _ else _)) => destruct c
         | |- invariant (fst (_, _)) => cbn [fst]
         | |- invariant (SimulationEngine.triggerGameOver _ _ _ _) =>
             apply triggerGameOver_inv
         | _ => inv_step
         end.
Qed.

Lemma checkGameOverConditions_inv env fp e :
  invariant e -> invariant (SimulationEngine.checkGameOverConditions env fp e).
Proof.
  intros H. cbv beta delta [SimulationEngine.checkGameOverConditions].
  pose proof (checkGasInflux_inv env fp e H) as Hgas.
  destruct (SimulationEngine.checkGasInflux env fp e) as [e1 returned].
  cbn [fst] in Hgas. cbv beta iota zeta.
  repeat match goal with
         | |- invariant (if ?c then _ else _) => destruct c
         | |- invariant (SimulationEngine.triggerGameOver _ _ _ _) =>
             apply triggerGameOver_inv
         | _ => assumption
         end.
Qed.

Lemma updEquipment_inv (f : EquipmentStatus.t -> EquipmentStatus.t) e :
  invariant e -> (forall q, healthOK q -> healthOK (f q)) ->
  invariant (SimulationEngine.updEquipment f e).
Proof.
  intros [Hq [Hcps Hlen]] Hf. repeat split; try assumption.
  all: apply (Hf _ Hq).
Qed.

Lemma pumpDamage_nonneg (p : Q) : 800 < p -> 0 <= (p - 800) / 200 * 0.1.
Proof.
  intros Hp. apply Qmult_le_0_compat; [|lra].
  apply Qle_shift_div_l; lra.
Qed.

(** Facts read off the conditions of the branches taken. *)
Ltac branch_facts :=
  repeat match goal with
         | E : (_ && _) = true |- _ => apply andb_true_iff in E; destruct E
         | E : Qlt_bool _ _ = true |- _ => apply Qlt_bool_iff in E
         end.

(** A health that only loses a non-negative amount stays at most 100. *)
Ltac still_healthy :=
  let q := fresh "q" in
  intros q [? [? ?]]; unfold healthOK;
  cbn [EquipmentStatus.pumpsHealth EquipmentStatus.drillStringHealth
       EquipmentStatus.bopHealth EquipmentStatus.set_pumpsHealth
       EquipmentStatus.set_pumpsOveruseDuration
       EquipmentStatus.set_drillStringHealth
       EquipmentStatus.set_drillStringVibration
       EquipmentStatus.set_drillStringTorque EquipmentStatus.set_bopHealth];
  repeat split; try assumption; branch_facts;
  repeat match goal with
         | |- context [Math_max 0 ?x] =>
             pose proof (Math_max_lower 0 x);
             generalize dependent (Math_max 0 x); intros
         | Hp : 800 < ?p |- context [(?p - 800) / 200 * 0.1] =>
             pose proof (pumpDamage_nonneg p Hp);
             generalize dependent ((p - 800) / 200 * 0.1); intros
         end;
  lra.

Ltac equip_step :=
  match goal with
  | |- invariant (if ?c then _ else _) =>
      let E := fresh "E" in destruct c eqn:E
  | |- invariant (SimulationEngine.updEquipment _ _) =>
      apply updEquipment_inv; [ | still_healthy ]
  | _ => inv_step
  end.

Lemma updateEquipmentStatus_inv env e :
  invariant e -> invariant (SimulationEngine.updateEquipmentStatus env e).
Proof.
  intros H. cbv beta delta [SimulationEngine.updateEquipmentStatus].
  repeat equip_step.
Qed.

Lemma checkTrippingOperations_inv env e :
  invariant e -> invariant (SimulationEngine.checkTrippingOperations env e).
Proof.
  intros H. cbv beta delta [SimulationEngine.checkTrippingOperations]. inv_steps.
Qed.

Lemma addToLogs_inv env e : invariant e -> invariant (SimulationEngine.addToLogs env e).
Proof. intros H. cbv beta delta [SimulationEngine.addToLogs]. inv_steps. Qed.

Lemma checkKickHandling_inv env e :
  invariant e -> invariant (SimulationEngine.checkKickHandling env e).
Proof. intros H. cbv beta delta [SimulationEngine.checkKickHandling]. inv_steps. Qed.

Lemma sliceLast_length {A} (n : nat) (l : list A) :
  length (SimulationEngine.sliceLast n l) = Nat.min n (length l).
Proof. unfold SimulationEngine.sliceLast. rewrite length_drop. lia. Qed.

Lemma createCheckpoint_inv env automatic e :
  invariant e -> invariant (snd (SimulationEngine.createCheckpoint env automatic e)).
Proof.
  intros [Hq [Hcps Hlen]].
  cbv beta delta [SimulationEngine.createCheckpoint]. cbv zeta. cbn [snd].
  match goal with
  | |- invariant (if _ then SimulationEngine.addTimelineEvent _ _ _ _ _ ?x else ?x) =>
      assert (Hx : invariant x);
      [ | destruct (negb automatic); [inv_step|]; exact Hx ]
  end.
  split; [exact Hq | split].
  - cbn [SimulationEngine.checkpoints SimulationEngine.set_checkpoints].
    match goal with
    | |- Forall ?P (if _ then SimulationEngine.sliceLast 10 ?l else ?l) =>
        assert (Hl : Forall P l)
          by (apply Forall_app_2; [exact Hcps | apply Forall_singleton; exact Hq]);
        destruct (10 <? length l)%nat;
        [unfold SimulationEngine.sliceLast; now apply Forall_drop | exact Hl]
    end.
  - cbn [SimulationEngine.checkpoints SimulationEngine.set_checkpoints].
    match goal with
    | |- (length (if _ then SimulationEngine.sliceLast 10 ?l else ?l) <= 10)%nat =>
        destruct (10 <? length l)%nat eqn:E;
        [rewrite sliceLast_length; lia | apply Nat.ltb_ge in E; exact E]
    end.
Qed.

Ltac tick_step :=
  match goal with
  | |- invariant (SimulationEngine.checkFormationTransition _ _ _) =>
      apply checkFormationTransition_inv
  | |- invariant (SimulationEngine.checkForEvents _ _ _) => apply checkForEvents_inv
  | |- invariant (SimulationEngine.checkGameOverConditions _ _ _) =>
      apply checkGameOverConditions_inv
  | |- invariant (SimulationEngine.updateEquipmentStatus _ _) =>
      apply updateEquipmentStatus_inv
  | |- invariant (SimulationEngine.checkTrippingOperations _ _) =>
      apply checkTrippingOperations_inv
  | |- invariant (snd (SimulationEngine.createCheckpoint _ _ _)) =>
      apply createCheckpoint_inv
  | |- invariant (SimulationEngine.addToLogs _ _) => apply addToLogs_inv
  | |- invariant (SimulationEngine.checkKickHandling _ _) => apply checkKickHandling_inv
  | |- invariant (SimulationEngine.triggerGameOver _ _ _ _) => apply triggerGameOver_inv
  | _ => inv_step
  end.

Lemma updateSimulation_inv env e :
  invariant e -> invariant (SimulationEngine.updateSimulation env e).
Proof.
  intros H. cbv beta delta [SimulationEngine.updateSimulation].
  repeat tick_step.
Qed.

Lemma initialEquipment_healthy : healthOK SimulationEngine.initialEquipmentStatus.
Proof. unfold healthOK. cbn. repeat split; lra. Qed.

Lemma resetGameOver_inv e : invariant e -> invariant (SimulationEngine.resetGameOver e).
Proof.
  intros [_ [Hcps Hlen]]. split; [exact initialEquipment_healthy|].
  split; assumption.
Qed.

Lemma reset_inv e : invariant e -> invariant (SimulationEngine.reset e).
Proof.
  intros H. cbv beta delta [SimulationEngine.reset].
  repeat match goal with
         | |- invariant (SimulationEngine.resetGameOver _) => apply resetGameOver_inv
         | _ => inv_step
         end.
Qed.

Lemma constructor_inv : invariant SimulationEngine.constructor.
Proof.
  split; [exact initialEquipment_healthy|]. split; [constructor|cbn; lia].
Qed.

Lemma logChanges_inv env us e :
  invariant e ->
  invariant
    (fold_left
       (fun e u =>
          if Controls.differs (SimulationEngine.controls e) u
          then SimulationEngine.logAction env ("Changed " +:+ Controls.key u)
                 (Controls.value u) e
          else e)
       us e).
Proof.
  revert e. induction us as [|u us IH]; intros e H; [exact H|].
  cbn [fold_left]. apply IH. inv_steps.
Qed.

Lemma setControls_inv env us e :
  invariant e -> invariant (SimulationEngine.setControls env us e).
Proof.
  intros H. cbv beta delta [SimulationEngine.setControls].
  repeat match goal with
         | |- invariant (fold_left _ _ _) => apply logChanges_inv
         | _ => inv_step
         end.
Qed.

Lemma loadCheckpoint_inv env id e :
  invariant e -> invariant (snd (SimulationEngine.loadCheckpoint env id e)).
Proof.
  intros H. cbv beta delta [SimulationEngine.loadCheckpoint].
  destruct (find _ (SimulationEngine.checkpoints e)) as [cp|] eqn:E; [|exact H].
  apply find_some in E as [Hin _].
  destruct H as [Hq [Hcps Hlen]].
  cbv zeta. cbn [snd].
  apply (invariant_frame
           (SimulationEngine.set_equipmentStatus
              (CheckpointState.equipmentStatus (Checkpoint.state cp)) e));
    [reflexivity | reflexivity | ].
  split; [|split; assumption].
  rewrite List.Forall_forall in Hcps. exact (Hcps cp Hin).
Qed.

Lemma getRiskLevel_inv env e :
  invariant e -> invariant (snd (SimulationEngine.getRiskLevel env e)).
Proof.
  intros H. cbv beta delta [SimulationEngine.getRiskLevel].
  destruct (SimulationEngine.riskScore e) as [riskLevel riskType].
  cbv beta iota. 
  repeat match goal with
         | |- invariant (snd (let x := ?a in @?b x)) =>
             let T := type of a in
             lazymatch T with
             | SimulationEngine.t =>
                 let e' := fresh "e" in
                 let H := fresh "H" in
                 cut (invariant a);
                 [ generalize a; intros e' H; change (invariant (snd (b e'))); cbv beta
                 | ]
             | _ => change (invariant (snd (b a))); cbv beta
             end
         | |- invariant (snd (_, _)) => cbn [snd]
         | |- invariant (let (_, _) := ?p in _) => destruct p
         | |- invariant (SimulationEngine.triggerGameOver _ _ _ _) =>
             apply triggerGameOver_inv
         | _ => inv_step
         end.
Qed.

Lemma loadScenario_inv name e : invariant e -> invariant (SimulationEngine.loadScenario name e).
Proof.
  intros H. cbv beta delta [SimulationEngine.loadScenario].
  repeat match goal with
         | |- invariant (SimulationEngine.reset _) => apply reset_inv
         | _ => inv_step
         end.
Qed.

Lemma apply_inv o e : invariant e -> invariant (SimulationEngine.apply o e).
Proof.
  intros H. destruct o; cbn [SimulationEngine.apply].
  all: try (apply (invariant_frame e); [reflexivity | reflexivity | exact H]).
  all: try (cbv beta delta [SimulationEngine.start SimulationEngine.setSpeed
                           SimulationEngine.stop
                           SimulationEngine.intervalTick SimulationEngine.refreshData
                           SimulationEngine.refreshLogs];
            repeat match goal with
                   | |- invariant (SimulationEngine.updateSimulation _ _) =>
                       apply updateSimulation_inv
                   | |- invariant (SimulationEngine.addToLogs _ _) => apply addToLogs_inv
                   | _ => inv_step
                   end; fail).
  - now apply reset_inv.
  - now apply resetGameOver_inv.
  - now apply setControls_inv.
  - now apply loadScenario_inv.
  - now apply createCheckpoint_inv.
  - now apply loadCheckpoint_inv.
  - now apply getRiskLevel_inv.
Qed.

Lemma run_inv ops e : invariant e -> invariant (SimulationEngine.run ops e).
Proof.
  unfold SimulationEngine.run. revert e.
  induction ops as [|o ops IH]; intros e H; [exact H|].
  cbn [fold_left]. apply IH. now apply apply_inv.
Qed.

Lemma reachable_inv e : SimulationEngine.reachable e -> invariant e.
Proof. intros [ops ->]. apply run_inv. exact constructor_inv. Qed.

(** C6. After any [createCheckpoint] the list read by [getCheckpoints]
    holds at most 10 entries: below 10 the new checkpoint is appended,
    at 10 the oldest (first) entry is dropped and the order of the others
    is kept; no reachable state holds more than 10. *)
Theorem C6_checkpoints_bounded_fifo
    (env : Env.t) (automatic : bool) (e : SimulationEngine.t) :
  let cp := fst (SimulationEngine.createCheckpoint env automatic e) in
  let e' := snd (SimulationEngine.createCheckpoint env automatic e) in
  (length (SimulationEngine.getCheckpoints e') <= 10)%nat
  /\ ((length (SimulationEngine.getCheckpoints e) < 10)%nat ->
      SimulationEngine.getCheckpoints e' = SimulationEngine.getCheckpoints e ++ [cp])
  /\ (length (SimulationEngine.getCheckpoints e) = 10%nat ->
      SimulationEngine.getCheckpoints e'
      = tl (SimulationEngine.getCheckpoints e) ++ [cp])
  /\ (forall s, SimulationEngine.reachable s ->
      (length (SimulationEngine.getCheckpoints s) <= 10)%nat).
Proof.
  cbv zeta. unfold SimulationEngine.getCheckpoints.
  assert (Hcps :
    SimulationEngine.checkpoints
      (snd (SimulationEngine.createCheckpoint env automatic e))
    = let l := SimulationEngine.checkpoints e
               ++ [fst (SimulationEngine.createCheckpoint env automatic e)] in
      if (10 <? length l)%nat then SimulationEngine.sliceLast 10 l else l).
  { unfold SimulationEngine.createCheckpoint. cbn [fst snd].
    destruct automatic; reflexivity. }
  rewrite Hcps. cbv zeta. rewrite length_app. cbn [length].
  split; [|split; [|split]].
  - destruct (10 <? _)%nat eqn:E.
    + rewrite sliceLast_length. lia.
    + apply Nat.ltb_ge in E. rewrite length_app. cbn [length]. exact E.
  - intros Hlt. destruct (10 <? _)%nat eqn:E; [|reflexivity].
    apply Nat.ltb_lt in E. lia.
  - intros Hlen. rewrite Hlen. cbn [Nat.add Nat.ltb Nat.leb].
    unfold SimulationEngine.sliceLast. rewrite length_app, Hlen. cbn [length Nat.add Nat.sub].
    destruct (SimulationEngine.checkpoints e); [discriminate|reflexivity].
  - intros s Hs. apply reachable_inv in Hs. apply Hs.
Qed.

(** The eleventh manual checkpoint evicts the first one. *)
Lemma C6_witness :
  map Checkpoint.id
    (SimulationEngine.getCheckpoints
       (snd (SimulationEngine.createCheckpoint (Env.mk 11 0 0) false (savedTimes 10))))
  = ["cp_2"; "cp_3"; "cp_4"; "cp_5"; "cp_6"; "cp_7"; "cp_8"; "cp_9"; "cp_10"; "cp_11"]
  /\ SimulationEngine.getCheckpoints
       (snd (SimulationEngine.createCheckpoint (Env.mk 11 0 0) false (savedTimes 10)))
     = tl (SimulationEngine.getCheckpoints (savedTimes 10))
       ++ [fst (SimulationEngine.createCheckpoint (Env.mk 11 0 0) false (savedTimes 10))].
Proof.
  split.
  - vm_compute. reflexivity.
  - apply (C6_checkpoints_bounded_fifo (Env.mk 11 0 0) false (savedTimes 10)).
    vm_compute. reflexivity.
Defined.

(** ** Equipment health *)

(** C7, as the code has it: in every reachable state the health of the
    pumps, of the drill string and of the blowout preventer is at most
    100. (Nothing bounds it below, see [C7_health_goes_negative].) *)
Theorem C7_health_at_most_100 (e : SimulationEngine.t) :
  SimulationEngine.reachable e ->
  EquipmentStatus.pumpsHealth (SimulationEngine.equipmentStatus e) <= 100
  /\ EquipmentStatus.drillStringHealth (SimulationEngine.equipmentStatus e) <= 100
  /\ EquipmentStatus.bopHealth (SimulationEngine.equipmentStatus e) <= 100.
Proof. intros H. apply reachable_inv in H. apply H. Qed.

Lemma idleRun_reachable (n : nat) : SimulationEngine.reachable (idleRun n).
Proof. unfold idleRun. eexists. reflexivity. Qed.

Lemma C7_witness :
  EquipmentStatus.pumpsHealth (SimulationEngine.equipmentStatus (idleRun 17)) <= 100
  /\ EquipmentStatus.drillStringHealth (SimulationEngine.equipmentStatus (idleRun 17)) <= 100
  /\ EquipmentStatus.bopHealth (SimulationEngine.equipmentStatus (idleRun 17)) <= 100.
Proof. apply (C7_health_at_most_100 (idleRun 17)). apply idleRun_reachable. Defined.

(** C7 as stated fails: a new engine, started and left alone (blowout
    preventer closed, rotary speed 60), has a blowout-preventer health
    of -2 after 17 ticks, and the game is not over yet. *)
Lemma C7_health_goes_negative :
  SimulationEngine.reachable (idleRun 17)
  /\ EquipmentStatus.bopHealth (SimulationEngine.equipmentStatus (idleRun 17)) == -2
  /\ EquipmentStatus.bopHealth (SimulationEngine.equipmentStatus (idleRun 17)) < 0
  /\ SimulationEngine.isGameOver (idleRun 17) = false.
Proof.
  split; [apply idleRun_reachable|].
  split; [|split]; vm_compute; reflexivity.
Qed.

(** ** Reset *)

(** C5 as stated fails: after [reset] the checkpoint taken before is
    still in the list, and the speed set before is still 2, not the
    initial 1. *)
Lemma C5_reset_keeps_checkpoints_and_speed :
  map Checkpoint.id (SimulationEngine.getCheckpoints (SimulationEngine.reset savedOnce))
  = ["cp_1700000000000"]
  /\ SimulationEngine.getCheckpoints (SimulationEngine.reset savedOnce) <> []
  /\ SimulationEngine.speed (SimulationEngine.reset savedOnce) = 2
  /\ SimulationEngine.speed SimulationEngine.constructor = 1.
Proof.
  split; [vm_compute; reflexivity|].
  split; [vm_compute; discriminate|].
  split; vm_compute; reflexivity.
Qed.

(** C5, as the code has it: [reset] stops the clock, clears the
    game-over state, puts the clock values, the current data (with a fresh,
    empty events array), the controls, the equipment, casing, tripping,
    warning timers and risk tracking back to their initial constants and
    empties the log data, the event log, the action log, the missed
    warnings, the formation transitions and the timeline; the checkpoint
    list and the configuration (speed, training mode, well type,
    formation, scenario, target depth) stay as they were. *)
Theorem C5_reset (e : SimulationEngine.t) :
  let e' := SimulationEngine.reset e in
  (SimulationEngine.running e' = false /\ SimulationEngine.paused e' = false)
  /\ (SimulationEngine.isGameOver e' = false
      /\ SimulationEngine.getGameOverReason e' = ""
      /\ SimulationEngine.getGameOverDetails e' = None)
  /\ (SimulationEngine.simulationTime e' = 0%Z
      /\ SimulationEngine.elapsedTime e' = 0
      /\ SimulationEngine.getCurrentData e'
         = CurrentData.mk 0 0 50 0 0 0 250 10.0 120 0 0 0 0 0 "closed"
             (length (SimulationEngine.arrays e))
      /\ SimulationEngine.eventsOf e' (SimulationEngine.getCurrentData e') = []
      /\ SimulationEngine.controls e'
         = Controls.mk 50 50 60 10 0 "closed" 0 "locked"
      /\ SimulationEngine.equipmentStatus e' = EquipmentStatus.mk 100 0 100 0 0 100 0
      /\ SimulationEngine.casingDepth e' = 0
      /\ SimulationEngine.lastCasingRun e' = 0%Z
      /\ SimulationEngine.trippingStatus e' = TrippingStatus.mk false "none" 0 0 0
      /\ SimulationEngine.warningTimers e' = ∅
      /\ SimulationEngine.warningTimestamps e' = ∅
      /\ SimulationEngine.lastFormationDepth e' = 0
      /\ SimulationEngine.currentFormation e' = None
      /\ SimulationEngine.lastRiskLevel e' = 0
      /\ SimulationEngine.riskDecaying e' = false)
  /\ (SimulationEngine.getLogData e' = []
      /\ SimulationEngine.getEventLog e' = []
      /\ SimulationEngine.actionLog e' = []
      /\ SimulationEngine.missedWarnings e' = []
      /\ SimulationEngine.formationTransitions e' = []
      /\ SimulationEngine.getTimelineEvents e' = [])
  /\ (SimulationEngine.getCheckpoints e' = SimulationEngine.getCheckpoints e
      /\ SimulationEngine.speed e' = SimulationEngine.speed e
      /\ SimulationEngine.trainingMode e' = SimulationEngine.trainingMode e
      /\ SimulationEngine.wellType e' = SimulationEngine.wellType e
      /\ SimulationEngine.formation e' = SimulationEngine.formation e
      /\ SimulationEngine.scenario e' = SimulationEngine.scenario e
      /\ SimulationEngine.targetDepth e' = SimulationEngine.targetDepth e).
Proof.
  cbv zeta.
  assert (Hevents :
    SimulationEngine.eventsOf (SimulationEngine.reset e)
      (SimulationEngine.getCurrentData (SimulationEngine.reset e)) = []).
  { unfold SimulationEngine.eventsOf, SimulationEngine.getCurrentData.
    change (SimulationEngine.arrays (SimulationEngine.reset e))
      with (SimulationEngine.arrays e ++ [[]]).
    change (CurrentData.events (SimulationEngine.currentData (SimulationEngine.reset e)))
      with (length (SimulationEngine.arrays e)).
    now rewrite list_lookup_middle. }
  repeat split; try reflexivity. exact Hevents.
Qed.

(** ** Risk level *)

(** C8 as stated fails: on an engine drilling with mud weight 13 the
    call stores a new last risk level and appends a timeline event; on
    the engine whose pit ran negative it raises the terminal failure. *)
Lemma C8_getRiskLevel_changes_state :
  snd (SimulationEngine.getRiskLevel sampleEnv mudWeight13) <> mudWeight13
  /\ map TimelineEvent.type (SimulationEngine.getTimelineEvents mudWeight13) = []
  /\ map TimelineEvent.type
       (SimulationEngine.getTimelineEvents
          (snd (SimulationEngine.getRiskLevel sampleEnv mudWeight13)))
     = ["riskIncreased"]
  /\ SimulationEngine.isGameOver (heavyMudRun 63) = false
  /\ SimulationEngine.isGameOver
       (snd (SimulationEngine.getRiskLevel sampleEnv (heavyMudRun 63))) = true.
Proof.
  split.
  - intros H.
    apply (f_equal (fun s => length (SimulationEngine.timelineEvents s))) in H.
    vm_compute in H. discriminate H.
  - split; [|split; [|split]]; vm_compute; reflexivity.
Qed.

(** Pushing to an array of the store shows in its content. *)
Lemma events_after_push (arrays : list (list Event.t)) (i : nat) (ev : Event.t) :
  (i < length arrays)%nat ->
  default [] (alter (fun a => a ++ [ev]) i arrays !! i) = default [] (arrays !! i) ++ [ev].
Proof.
  intros Hi. destruct (lookup_lt_is_Some_2 _ _ Hi) as [a Ha].
  rewrite list_lookup_alter, Ha. now destruct (decide (i = i)).
Qed.

(** C8, as the code has it: [getRiskLevel] returns the score, type and
    decaying flag computed from the state, and leaves the record of the
    current data, the controls, the equipment, the checkpoints, the logs,
    the timers, the clock values, the settings and the counters as they
    are. It is not read-only:
    - it stores the score and the flag as the last risk level;
    - when the score is more than 20 below the last one it appends a
      riskDecreased event to the timeline, when it is more than 10 above
      it appends a riskIncreased event (the timeline trimmed to its last
      100), and in between it leaves the timeline;
    - at a score of 100 or more on an engine that is not over it makes
      the game-over transition: flag, reason and details set, the clock
      paused, one critical gameOver event appended to the event log and
      to the events array of the current data;
    - otherwise it leaves the terminal state, the event log, the events
      arrays and the pause flag. *)
Theorem C8_getRiskLevel_effects (env : Env.t) (e : SimulationEngine.t) :
  let r := fst (SimulationEngine.getRiskLevel env e) in
  let e' := snd (SimulationEngine.getRiskLevel env e) in
  let level := fst (SimulationEngine.riskScore e) in
  let type := snd (SimulationEngine.riskScore e) in
  let last := SimulationEngine.lastRiskLevel e in
  let d := SimulationEngine.currentData e in
  let parameters :=
    [("previousRisk", VInt (SimulationEngine.Math_round last));
     ("currentRisk", VInt (SimulationEngine.Math_round level));
     ("riskType", SimulationEngine.riskTypeValue type)] in
  let decreased :=
    TimelineEvent.mk (Env.now env, Env.idRandom env) "riskDecreased" (Env.now env)
      [VStr "Risk level decreased from "; VInt (SimulationEngine.Math_round last);
       VStr "% to "; VInt (SimulationEngine.Math_round level); VStr "%"]
      "success" parameters in
  let increased :=
    TimelineEvent.mk (Env.now env, Env.idRandom env) "riskIncreased" (Env.now env)
      [VStr "Risk level increased to "; VInt (SimulationEngine.Math_round level);
       VStr "% - "; VStr (default "multiple issues" type)]
      (if Qlt_bool 70 level then "critical" else "warning") parameters in
  let trimmed (l : list TimelineEvent.t) :=
    if (100 <? length l)%nat then SimulationEngine.sliceLast 100 l else l in
  let reason := fst (SimulationEngine.riskFailure type) in
  let gameOverEvent :=
    Event.mk "gameOver" (Env.now env) (CurrentData.bitDepth d)
      (SimulationEngine.getLayerIndexAtDepth e (CurrentData.bitDepth d))
      "critical" ("GAME OVER: " +:+ reason) in
  (SimulationEngine.RiskLevel.level r = level
   /\ SimulationEngine.RiskLevel.type r = type
   /\ SimulationEngine.RiskLevel.decaying r = Qlt_bool level last)
  /\ (SimulationEngine.lastRiskLevel e' = SimulationEngine.RiskLevel.level r
      /\ SimulationEngine.riskDecaying e' = SimulationEngine.RiskLevel.decaying r)
  /\ (SimulationEngine.currentData e' = d
      /\ SimulationEngine.controls e' = SimulationEngine.controls e
      /\ SimulationEngine.equipmentStatus e' = SimulationEngine.equipmentStatus e
      /\ SimulationEngine.checkpoints e' = SimulationEngine.checkpoints e
      /\ SimulationEngine.logData e' = SimulationEngine.logData e
      /\ SimulationEngine.actionLog e' = SimulationEngine.actionLog e
      /\ SimulationEngine.missedWarnings e' = SimulationEngine.missedWarnings e
      /\ SimulationEngine.warningTimers e' = SimulationEngine.warningTimers e
      /\ SimulationEngine.warningTimestamps e' = SimulationEngine.warningTimestamps e
      /\ SimulationEngine.simulationTime e' = SimulationEngine.simulationTime e
      /\ SimulationEngine.elapsedTime e' = SimulationEngine.elapsedTime e
      /\ SimulationEngine.casingDepth e' = SimulationEngine.casingDepth e
      /\ SimulationEngine.lastCasingRun e' = SimulationEngine.lastCasingRun e
      /\ SimulationEngine.trippingStatus e' = SimulationEngine.trippingStatus e
      /\ SimulationEngine.running e' = SimulationEngine.running e
      /\ SimulationEngine.speed e' = SimulationEngine.speed e
      /\ SimulationEngine.formation e' = SimulationEngine.formation e
      /\ SimulationEngine.trainingMode e' = SimulationEngine.trainingMode e
      /\ SimulationEngine.wellType e' = SimulationEngine.wellType e
      /\ SimulationEngine.scenario e' = SimulationEngine.scenario e
      /\ SimulationEngine.formationTransitions e' = SimulationEngine.formationTransitions e
      /\ SimulationEngine.lastFormationDepth e' = SimulationEngine.lastFormationDepth e
      /\ SimulationEngine.currentFormation e' = SimulationEngine.currentFormation e
      /\ SimulationEngine.bopActivations e' = SimulationEngine.bopActivations e
      /\ SimulationEngine.kicksHandled e' = SimulationEngine.kicksHandled e
      /\ SimulationEngine.targetDepth e' = SimulationEngine.targetDepth e
      /\ SimulationEngine.previousGasLevel e' = SimulationEngine.previousGasLevel e)
  /\ ((last - 20 <= level -> level <= last + 10 ->
       SimulationEngine.timelineEvents e' = SimulationEngine.timelineEvents e)
      /\ (level < last - 20 ->
          SimulationEngine.timelineEvents e'
          = trimmed (SimulationEngine.timelineEvents e ++ [decreased]))
      /\ (last + 10 < level ->
          SimulationEngine.timelineEvents e'
          = trimmed (SimulationEngine.timelineEvents e ++ [increased])))
  /\ (level < 100 \/ SimulationEngine.gameOver e = true ->
      SimulationEngine.gameOver e' = SimulationEngine.gameOver e
      /\ SimulationEngine.gameOverReason e' = SimulationEngine.gameOverReason e
      /\ SimulationEngine.gameOverDetails e' = SimulationEngine.gameOverDetails e
      /\ SimulationEngine.eventLog e' = SimulationEngine.eventLog e
      /\ SimulationEngine.arrays e' = SimulationEngine.arrays e
      /\ SimulationEngine.eventsOf e' (SimulationEngine.currentData e')
         = SimulationEngine.eventsOf e d
      /\ SimulationEngine.paused e' = SimulationEngine.paused e)
  /\ (100 <= level -> SimulationEngine.isGameOver e' = true)
  /\ (100 <= level -> SimulationEngine.gameOver e = false ->
      SimulationEngine.gameOverReason e' = reason
      /\ SimulationEngine.gameOverDetails e'
         = Some
             (GameOverDetails.mk (snd (SimulationEngine.riskFailure type)) (Env.now env)
                (CurrentData.bitDepth d) (SimulationEngine.elapsedTime e)
                (CurrentData.rop d) (CurrentData.pumpPressure d)
                (CurrentData.pitLevel d) (CurrentData.gasLevel d)
                (CurrentData.mudWeight d) (CurrentData.standpipePressure d)
                (CurrentData.annularPressure d) (CurrentData.formationPressure d)
                (SimulationEngine.missedWarnings e)
                (SimulationEngine.sliceLast 20 (SimulationEngine.actionLog e)))
      /\ SimulationEngine.paused e' = true
      /\ SimulationEngine.eventLog e' = SimulationEngine.eventLog e ++ [gameOverEvent]
      /\ SimulationEngine.arrays e'
         = alter (fun a => a ++ [gameOverEvent]) (CurrentData.events d)
             (SimulationEngine.arrays e)
      /\ ((CurrentData.events d < length (SimulationEngine.arrays e))%nat ->
          SimulationEngine.eventsOf e' (SimulationEngine.currentData e')
          = SimulationEngine.eventsOf e d ++ [gameOverEvent])).
Proof.
  cbv zeta. unfold SimulationEngine.getRiskLevel, SimulationEngine.isGameOver.
  destruct (SimulationEngine.riskScore e) as [riskLevel riskType].
  cbn [fst snd].
  destruct (SimulationEngine.riskFailure riskType) as [reason details].
  cbn [fst snd].
  (* the timeline step only replaces the timeline *)
  match goal with
  | |- context [SimulationEngine.set_lastRiskLevel riskLevel ?x] => set (e1 := x)
  end.
  set (last := SimulationEngine.lastRiskLevel e).
  match goal with
  | |- context [SimulationEngine.timelineEvents e ++ [?ev]] =>
      lazymatch ev with
      | context ["riskDecreased"] => set (decreased := ev)
      end
  end.
  match goal with
  | |- context [SimulationEngine.timelineEvents e ++ [?ev]] =>
      lazymatch ev with
      | context ["riskIncreased"] => set (increased := ev)
      end
  end.
  assert (H1 : exists T,
             e1 = SimulationEngine.set_timelineEvents T e
             /\ (last - 20 <= riskLevel -> riskLevel <= last + 10 ->
                 T = SimulationEngine.timelineEvents e)
             /\ (riskLevel < last - 20 ->
                 T = (let l := SimulationEngine.timelineEvents e ++ [decreased] in
                      if (100 <? length l)%nat
                      then SimulationEngine.sliceLast 100 l else l))
             /\ (last + 10 < riskLevel ->
                 T = (let l := SimulationEngine.timelineEvents e ++ [increased] in
                      if (100 <? length l)%nat
                      then SimulationEngine.sliceLast 100 l else l))).
  { subst e1. fold last.
    destruct (Qlt_bool riskLevel last) eqn:Edec;
      [ destruct (Qlt_bool 20 (last - riskLevel)) eqn:E
      | destruct (Qlt_bool (last + 10) riskLevel) eqn:E ].
    - apply Qlt_bool_iff in E. eexists. split; [reflexivity|].
      split; [intros; lra|]. split; [reflexivity|intros; lra].
    - apply Qlt_bool_false in E. apply Qlt_bool_iff in Edec.
      exists (SimulationEngine.timelineEvents e). split; [now destruct e|].
      split; [reflexivity|]. split; intros; lra.
    - apply Qlt_bool_iff in E. apply Qlt_bool_false in Edec. eexists.
      split; [reflexivity|].
      split; [intros; lra|]. split; [intros; lra|reflexivity].
    - apply Qlt_bool_false in E. apply Qlt_bool_false in Edec.
      exists (SimulationEngine.timelineEvents e). split; [now destruct e|].
      split; [reflexivity|]. split; intros; lra. }
  destruct H1 as [T [-> [Hquiet [Hdown Hup]]]]. cbv zeta in Hdown, Hup.
  split; [split; [|split]; reflexivity|].
  unfold SimulationEngine.triggerGameOver.
  destruct (Qle_bool 100 riskLevel) eqn:Emax;
    [apply Qle_bool_iff in Emax|];
    cbn [SimulationEngine.gameOver SimulationEngine.set_riskDecaying
         SimulationEngine.set_lastRiskLevel SimulationEngine.set_timelineEvents];
    destruct (SimulationEngine.gameOver e) eqn:Eover;
    cbn [negb andb].
  all: split; [split; reflexivity|].
  all: split; [repeat (split; [reflexivity|]); reflexivity|].
  all: split; [split; [exact Hquiet|split; [exact Hdown|exact Hup]]|].
  all: split;
    [ first
        [ intros _; repeat (split; [first [reflexivity | exact Eover]|]); reflexivity
        | intros [Hlow|[=]]; exfalso; lra ]
    | ].
  all: split;
    [ first
        [ intros _; first [reflexivity | exact Eover]
        | intros Hlevel; exfalso; apply Qle_bool_iff in Hlevel; congruence ]
    | ].
  all: try (intros Hlevel; exfalso; apply Qle_bool_iff in Hlevel; congruence).
  all: try (intros _ Hf; discriminate Hf).
  intros _ _. repeat (split; [reflexivity|]).
  intros Hvalid.
  exact (events_after_push (SimulationEngine.arrays e) _ _ Hvalid).
Qed.

Lemma C8_witness :
  SimulationEngine.timelineEvents
    (snd (SimulationEngine.getRiskLevel sampleEnv SimulationEngine.constructor))
  = SimulationEngine.timelineEvents SimulationEngine.constructor
  /\ SimulationEngine.gameOver
       (snd (SimulationEngine.getRiskLevel sampleEnv SimulationEngine.constructor))
     = SimulationEngine.gameOver SimulationEngine.constructor
  /\ map TimelineEvent.type
       (SimulationEngine.timelineEvents
          (snd (SimulationEngine.getRiskLevel sampleEnv mudWeight13)))
     = ["riskIncreased"]
  /\ SimulationEngine.isGameOver
       (snd (SimulationEngine.getRiskLevel sampleEnv (heavyMudRun 63))) = true
  /\ SimulationEngine.paused
       (snd (SimulationEngine.getRiskLevel sampleEnv (heavyMudRun 63))) = true
  /\ map Event.type
       (SimulationEngine.eventLog
          (snd (SimulationEngine.getRiskLevel sampleEnv (heavyMudRun 63))))
     = map Event.type (SimulationEngine.eventLog (heavyMudRun 63)) ++ ["gameOver"].
Proof.
  pose proof (C8_getRiskLevel_effects sampleEnv SimulationEngine.constructor)
    as [_ [_ [_ [[Hquiet _] [Hlow _]]]]].
  pose proof (C8_getRiskLevel_effects sampleEnv mudWeight13)
    as [_ [_ [_ [[_ [_ Hup]] _]]]].
  pose proof (C8_getRiskLevel_effects sampleEnv (heavyMudRun 63))
    as [_ [_ [_ [_ [_ [Hmax Hover]]]]]].
  split; [|split; [|split; [|split; [|split]]]].
  - apply Hquiet; vm_compute; discriminate.
  - apply Hlow. left. vm_compute. reflexivity.
  - rewrite Hup; [vm_compute; reflexivity|]. vm_compute. reflexivity.
  - apply Hmax. vm_compute. discriminate.
  - destruct Hover as [_ [_ [Hp _]]]; [vm_compute; discriminate|vm_compute; reflexivity|].
    exact Hp.
  - destruct Hover as [_ [_ [_ [Hlog _]]]];
      [vm_compute; discriminate|vm_compute; reflexivity|].
    rewrite Hlog, map_app. reflexivity.
Defined.

(** ** Pit level *)

(** The clamp of the pit level in [updateSimulation] comes before the
    losses of the same tick are taken off. *)
Lemma checkLostCirculation_pitLevel env fp e :
  let d := SimulationEngine.currentData e in
  Props.fracturePressure fp < CurrentData.mudWeight d ->
  Props.fracturePressure fp * 150 >= CurrentData.standpipePressure d ->
  CurrentData.pitLevel
    (SimulationEngine.currentData (SimulationEngine.checkLostCirculation env fp e))
  == CurrentData.pitLevel d
     - (CurrentData.mudWeight d - Props.fracturePressure fp) * 2 * 0.1.
Proof.
  cbv zeta. intros Hmud Hpipe.
  assert (Hcond :
    Qlt_bool (Props.fracturePressure fp)
      (CurrentData.mudWeight (SimulationEngine.currentData e)) = true)
    by now apply Qlt_bool_iff.
  assert (Hmax :
    Math_max
      ((CurrentData.mudWeight (SimulationEngine.currentData e)
        - Props.fracturePressure fp) * 2)
      ((CurrentData.standpipePressure (SimulationEngine.currentData e)
        - Props.fracturePressure fp * 150) * 0.01)
    = (CurrentData.mudWeight (SimulationEngine.currentData e)
       - Props.fracturePressure fp) * 2).
  { unfold Math_max.
    destruct (Qle_bool _ _) eqn:E; [|reflexivity].
    apply Qle_bool_iff in E. lra. }
  unfold SimulationEngine.checkLostCirculation. rewrite Hcond, Hmax.
  cbn [orb].
  repeat match goal with
         | |- context [if ?c then _ else _] => destruct c
         end; cbn; reflexivity.
Qed.

(** C1, evaluated on the code: a new engine, started, with the mud
    weight set to 18 ppg (above the default fracture pressure 14) and the
    rotary table stopped, loses 0.8 of pit level per tick; after 63 ticks
    [getCurrentData] shows a pit level of -0.4 and the game is not over. *)
Theorem C1_pit_level_observed_negative :
  CurrentData.pitLevel (SimulationEngine.getCurrentData (heavyMudRun 62)) == 0.4
  /\ CurrentData.pitLevel (SimulationEngine.getCurrentData (heavyMudRun 63)) == -0.4
  /\ CurrentData.pitLevel (SimulationEngine.getCurrentData (heavyMudRun 63)) < 0
  /\ SimulationEngine.isGameOver (heavyMudRun 63) = false
  /\ SimulationEngine.reachable (heavyMudRun 63).
Proof.
  split; [|split; [|split; [|split]]].
  5: (unfold heavyMudRun; eexists; reflexivity).
  all: vm_compute; reflexivity.
Qed.

(** ** Kick detection *)

(** The kick test compares the pore pressure with
    [mudWeight * 0.052 * bitDepth]: while the pore pressure is not above
    that product, no draw of [Math.random] logs a kick. *)
Lemma checkKick_needs_pore_above_hydrostatic env fp e :
  Props.porePressure fp
    <= CurrentData.mudWeight (SimulationEngine.currentData e) * 0.052
       * CurrentData.bitDepth (SimulationEngine.currentData e) ->
  SimulationEngine.eventLog (SimulationEngine.checkKick env fp e)
  = SimulationEngine.eventLog e.
Proof.
  intros H. apply Qlt_bool_false in H.
  unfold SimulationEngine.checkKick. rewrite H.
  rewrite andb_false_r. reflexivity.
Qed.

(** C3, evaluated on the code: on the engine at 3000 ft in the layer of
    pore pressure 15.5 with the mud weight set to 8.0, the hydrostatic
    term is 8.0 * 0.052 * 3000 = 1248, and whatever the clock and the
    random draws are, no event of type kick is in [getEventLog] after
    any number of ticks up to 5. *)
Theorem C3_no_kick_event_within_five_ticks :
  (CurrentData.bitDepth (SimulationEngine.getCurrentData underbalancedAt3000) == 3000
   /\ Controls.mudWeight (SimulationEngine.controls underbalancedAt3000) == 8
   /\ Props.porePressure
        (SimulationEngine.getFormationPropertiesAtDepth underbalancedAt3000 3000)
      == 15.5
   /\ SimulationEngine.running underbalancedAt3000 = true
   /\ SimulationEngine.isGameOver underbalancedAt3000 = false)
  /\ forall envs : list Env.t,
       existsb (fun ev => String.eqb (Event.type ev) "kick")
         (SimulationEngine.getEventLog
            (SimulationEngine.run
               (map SimulationEngine.IntervalTick (take 5 envs))
               underbalancedAt3000))
       = false.
Proof.
  split.
  - split; [|split; [|split; [|split]]]; vm_compute; reflexivity.
  - intros envs.
    destruct envs as [|e1 [|e2 [|e3 [|e4 [|e5 rest]]]]]; vm_compute; reflexivity.
Qed.

(** * Further properties of the code *)

(** ** Stepping through an operation for any predicate on states *)

(** [step_with P frame]: as [inv_step], for a predicate [P] whose lemma
    [frame : forall e e', view e' = view e -> P e -> P e'] says which
    part of the state it reads. *)
Ltac step_with P frame :=
  match goal with
  | H : P ?e |- P ?e => exact H
  | |- P (let x := ?a in @?b x) =>
      let T := type of a in
      lazymatch T with
      | SimulationEngine.t =>
          let e' := fresh "e" in
          let H := fresh "H" in
          cut (P a);
          [ generalize a; intros e' H; change (P (b e')); cbv beta | ]
      | _ => change (P (b a)); cbv beta
      end
  | |- P (if ?c then _ else _) => destruct c
  | |- P (match ?c with Some _ => _ | None => _ end) => destruct c
  | |- P (?f ?x) => apply (frame x (f x)); [reflexivity | ]
  end.

(** *** The retention bounds *)

Lemma capped_frame (e e' : SimulationEngine.t) :
  (SimulationEngine.timelineEvents e', SimulationEngine.logData e')
  = (SimulationEngine.timelineEvents e, SimulationEngine.logData e) ->
  capped e -> capped e'.
Proof. unfold capped. intros [= -> ->]. trivial. Qed.

Ltac cap_step := step_with capped capped_frame.

Lemma addTimelineEvent_capped env type description severity parameters e :
  capped e ->
  capped (SimulationEngine.addTimelineEvent env type description severity parameters e).
Proof.
  intros [Ht Hl]. split; [|exact Hl].
  cbn [SimulationEngine.addTimelineEvent SimulationEngine.timelineEvents
       SimulationEngine.set_timelineEvents].
  unfold SimulationEngine.addTimelineEvent.
  cbn [SimulationEngine.timelineEvents SimulationEngine.set_timelineEvents].
  destruct (100 <? _)%nat eqn:E.
  - rewrite sliceLast_length. lia.
  - now apply Nat.ltb_ge in E.
Qed.

Lemma addToLogs_capped env e : capped e -> capped (SimulationEngine.addToLogs env e).
Proof.
  intros [Ht Hl]. split; [exact Ht|].
  unfold SimulationEngine.addToLogs.
  cbn [SimulationEngine.logData SimulationEngine.set_logData].
  destruct (1000 <? _)%nat eqn:E.
  - rewrite sliceLast_length. lia.
  - now apply Nat.ltb_ge in E.
Qed.

Ltac cap_steps :=
  repeat match goal with
         | |- capped (SimulationEngine.addTimelineEvent _ _ _ _ _ _) =>
             apply addTimelineEvent_capped
         | |- capped (SimulationEngine.addToLogs _ _) => apply addToLogs_capped
         | _ => cap_step
         end.

Lemma checkFormationTransition_capped env depth e :
  capped e -> capped (SimulationEngine.checkFormationTransition env depth e).
Proof. intros H. cbv beta delta [SimulationEngine.checkFormationTransition]. cap_steps. Qed.

Lemma checkKick_capped env fp e : capped e -> capped (SimulationEngine.checkKick env fp e).
Proof. intros H. cbv beta delta [SimulationEngine.checkKick]. cap_steps. Qed.

Lemma checkLostCirculation_capped env fp e :
  capped e -> capped (SimulationEngine.checkLostCirculation env fp e).
Proof. intros H. cbv beta delta [SimulationEngine.checkLostCirculation]. cap_steps. Qed.

Lemma triggerGameOver_capped env reason details e :
  capped e -> capped (SimulationEngine.triggerGameOver env reason details e).
Proof. intros H. cbv beta delta [SimulationEngine.triggerGameOver]. cap_steps. Qed.

Lemma checkGasInflux_capped env fp e :
  capped e -> capped (fst (SimulationEngine.checkGasInflux env fp e)).
Proof.
  intros H. unfold SimulationEngine.checkGasInflux.
  repeat match goal with
         | |- context [if ?c then _ else _] => destruct c
         end;
    cbn [fst];
    repeat match goal with
           | |- capped (SimulationEngine.triggerGameOver _ _ _ _) =>
               apply triggerGameOver_capped
           | _ => cap_step
           end.
Qed.

Lemma checkGameOverConditions_capped env fp e :
  capped e -> capped (SimulationEngine.checkGameOverConditions env fp e).
Proof.
  intros H. cbv beta delta [SimulationEngine.checkGameOverConditions].
  pose proof (checkGasInflux_capped env fp e H) as Hgas.
  destruct (SimulationEngine.checkGasInflux env fp e) as [e1 returned].
  cbn [fst] in Hgas. cbv beta iota zeta.
  repeat match goal with
         | |- capped (if ?c then _ else _) => destruct c
         | |- capped (SimulationEngine.triggerGameOver _ _ _ _) =>
             apply triggerGameOver_capped
         | _ => assumption
         end.
Qed.

Lemma updateEquipmentStatus_capped env e :
  capped e -> capped (SimulationEngine.updateEquipmentStatus env e).
Proof. intros H. cbv beta delta [SimulationEngine.updateEquipmentStatus]. cap_steps. Qed.

Lemma checkTrippingOperations_capped env e :
  capped e -> capped (SimulationEngine.checkTrippingOperations env e).
Proof. intros H. cbv beta delta [SimulationEngine.checkTrippingOperations]. cap_steps. Qed.

Lemma createCheckpoint_capped env automatic e :
  capped e -> capped (snd (SimulationEngine.createCheckpoint env automatic e)).
Proof.
  intros H. unfold SimulationEngine.createCheckpoint. cbn [snd].
  destruct automatic; cbn [negb]; cap_steps.
Qed.

Lemma checkKickHandling_capped env e :
  capped e -> capped (SimulationEngine.checkKickHandling env e).
Proof. intros H. cbv beta delta [SimulationEngine.checkKickHandling]. cap_steps. Qed.

Ltac cap_calls :=
  repeat match goal with
         | |- capped (SimulationEngine.checkFormationTransition _ _ _) =>
             apply checkFormationTransition_capped
         | |- capped (SimulationEngine.checkForEvents _ _ _) =>
             apply checkLostCirculation_capped, checkKick_capped
         | |- capped (SimulationEngine.checkGameOverConditions _ _ _) =>
             apply checkGameOverConditions_capped
         | |- capped (SimulationEngine.updateEquipmentStatus _ _) =>
             apply updateEquipmentStatus_capped
         | |- capped (SimulationEngine.checkTrippingOperations _ _) =>
             apply checkTrippingOperations_capped
         | |- capped (snd (SimulationEngine.createCheckpoint _ _ _)) =>
             apply createCheckpoint_capped
         | |- capped (SimulationEngine.checkKickHandling _ _) =>
             apply checkKickHandling_capped
         | |- capped (SimulationEngine.triggerGameOver _ _ _ _) =>
             apply triggerGameOver_capped
         | |- capped (SimulationEngine.addTimelineEvent _ _ _ _ _ _) =>
             apply addTimelineEvent_capped
         | |- capped (SimulationEngine.addToLogs _ _) => apply addToLogs_capped
         | _ => cap_step
         end.

Lemma updateSimulation_capped env e :
  capped e -> capped (SimulationEngine.updateSimulation env e).
Proof. intros H. cbv beta delta [SimulationEngine.updateSimulation]. cap_calls. Qed.

Lemma reset_capped e : capped (SimulationEngine.reset e).
Proof. split; cbn; lia. Qed.

Lemma logChanges_capped env us e :
  capped e ->
  capped
    (fold_left
       (fun e u =>
          if Controls.differs (SimulationEngine.controls e) u
          then SimulationEngine.logAction env ("Changed " +:+ Controls.key u)
                 (Controls.value u) e
          else e)
       us e).
Proof.
  revert e. induction us as [|u us IH]; intros e H; [exact H|].
  cbn [fold_left]. apply IH. cap_steps.
Qed.

Lemma setControls_capped env us e :
  capped e -> capped (SimulationEngine.setControls env us e).
Proof.
  intros H. cbv beta delta [SimulationEngine.setControls].
  repeat match goal with
         | |- capped (fold_left _ _ _) => apply logChanges_capped
         | |- capped (SimulationEngine.addTimelineEvent _ _ _ _ _ _) =>
             apply addTimelineEvent_capped
         | _ => cap_step
         end.
Qed.

Lemma loadCheckpoint_capped env id e :
  capped e -> capped (snd (SimulationEngine.loadCheckpoint env id e)).
Proof.
  intros H. cbv beta delta [SimulationEngine.loadCheckpoint].
  destruct (find _ _); [|exact H].
  repeat match goal with
         | |- capped (snd (let x := ?a in @?b x)) =>
             let T := type of a in
             lazymatch T with
             | SimulationEngine.t =>
                 let e' := fresh "e" in
                 let H := fresh "H" in
                 cut (capped a);
                 [ generalize a; intros e' H; change (capped (snd (b e'))); cbv beta
                 | cap_steps ]
             | _ => change (capped (snd (b a))); cbv beta
             end
         | |- capped (snd (_, _)) => cbn [snd]
         | _ => cap_step
         end.
Qed.

Lemma getRiskLevel_capped env e :
  capped e -> capped (snd (SimulationEngine.getRiskLevel env e)).
Proof.
  intros H. unfold SimulationEngine.getRiskLevel.
  destruct (SimulationEngine.riskScore e) as [riskLevel riskType].
  destruct (SimulationEngine.riskFailure riskType) as [reason details].
  repeat match goal with
         | |- context [if ?c then _ else _] => destruct c
         end;
    cbn [snd]; cap_calls.
Qed.

Lemma apply_capped o e : capped e -> capped (SimulationEngine.apply o e).
Proof.
  intros H. destruct o; cbn [SimulationEngine.apply];
    cbv beta delta [SimulationEngine.start SimulationEngine.pause
                    SimulationEngine.resume SimulationEngine.stop
                    SimulationEngine.resetGameOver SimulationEngine.setSpeed
                    SimulationEngine.setTrainingMode SimulationEngine.setWellType
                    SimulationEngine.setFormation SimulationEngine.setTargetDepth
                    SimulationEngine.loadScenario
                    SimulationEngine.runCasing SimulationEngine.startTripping
                    SimulationEngine.stopTripping
                    SimulationEngine.intervalTick SimulationEngine.refreshData
                    SimulationEngine.refreshLogs];
    repeat match goal with
           | |- capped (SimulationEngine.updateSimulation _ _) =>
               apply updateSimulation_capped
           | |- capped (SimulationEngine.reset _) => apply reset_capped
           | |- capped (SimulationEngine.addToLogs _ _) => apply addToLogs_capped
           | |- capped (SimulationEngine.setControls _ _ _) => apply setControls_capped
           | |- capped (snd (SimulationEngine.createCheckpoint _ _ _)) =>
               apply createCheckpoint_capped
           | |- capped (snd (SimulationEngine.loadCheckpoint _ _ _)) =>
               apply loadCheckpoint_capped
           | |- capped (snd (SimulationEngine.getRiskLevel _ _)) =>
               apply getRiskLevel_capped
           | _ => cap_step
           end.
Qed.

Lemma constructor_capped : capped SimulationEngine.constructor.
Proof. split; cbn; lia. Qed.

(** X1. The two trimmed logs keep their bounds in every reachable
    state: at most 100 timeline events and at most 1000 log entries. *)
Theorem X1_logs_capped (e : SimulationEngine.t) :
  SimulationEngine.reachable e ->
  (length (SimulationEngine.getTimelineEvents e) <= 100)%nat
  /\ (length (SimulationEngine.getLogData e) <= 1000)%nat.
Proof.
  intros [ops ->]. unfold SimulationEngine.run.
  change (capped (fold_left (fun e o => SimulationEngine.apply o e) ops
                    SimulationEngine.constructor)).
  generalize constructor_capped. generalize SimulationEngine.constructor.
  induction ops as [|o ops IH]; intros e H; [exact H|].
  cbn [fold_left]. apply IH. now apply apply_capped.
Qed.

Lemma X1_witness :
  (length (SimulationEngine.getTimelineEvents mudWeight13) <= 100)%nat
  /\ (length (SimulationEngine.getLogData mudWeight13) <= 1000)%nat.
Proof.
  apply (X1_logs_capped mudWeight13). unfold mudWeight13. eexists. reflexivity.
Defined.

(** *** What a tick keeps *)

Lemma during_refl (e : SimulationEngine.t) : during e e.
Proof. unfold during. repeat split; try reflexivity; lra. Qed.

Lemma during_frame (e0 e e' : SimulationEngine.t) :
  (settings e', SimulationEngine.eventLog e', SimulationEngine.equipmentStatus e')
  = (settings e, SimulationEngine.eventLog e, SimulationEngine.equipmentStatus e) ->
  during e0 e -> during e0 e'.
Proof.
  intros H.
  pose proof (f_equal (fun p => fst (fst p)) H) as Hs.
  pose proof (f_equal (fun p => snd (fst p)) H) as Hl.
  pose proof (f_equal snd H) as Hq.
  cbn [fst snd] in Hs, Hl, Hq.
  unfold during. rewrite Hs, Hl, Hq. trivial.
Qed.

Lemma pushEvent_during e0 ev e :
  during e0 e -> during e0 (SimulationEngine.pushEvent ev e).
Proof.
  intros [Hs [Hlog Hwear]]. split; [exact Hs|]. split; [|exact Hwear].
  cbn. now apply prefix_app_r.
Qed.

Lemma updEquipment_during e0 f e :
  during e0 e -> wears f -> during e0 (SimulationEngine.updEquipment f e).
Proof.
  intros [Hs [Hlog [Hp [Hd Hb]]]] Hf.
  destruct (Hf (SimulationEngine.equipmentStatus e)) as [Hp' [Hd' Hb']].
  split; [exact Hs|]. split; [exact Hlog|].
  cbn. repeat split; lra.
Qed.

Ltac during_wears :=
  let q := fresh "q" in
  intros q;
  cbn [EquipmentStatus.pumpsHealth EquipmentStatus.drillStringHealth
       EquipmentStatus.bopHealth EquipmentStatus.set_pumpsHealth
       EquipmentStatus.set_pumpsOveruseDuration
       EquipmentStatus.set_drillStringHealth
       EquipmentStatus.set_drillStringVibration
       EquipmentStatus.set_drillStringTorque EquipmentStatus.set_bopHealth];
  branch_facts;
  repeat match goal with
         | |- context [Math_max 0 ?x] =>
             pose proof (Math_max_lower 0 x);
             generalize dependent (Math_max 0 x); intros
         | Hp : 800 < ?p |- context [(?p - 800) / 200 * 0.1] =>
             pose proof (pumpDamage_nonneg p Hp);
             generalize dependent ((p - 800) / 200 * 0.1); intros
         end;
  repeat split; lra.

Ltac during_step e0 :=
  match goal with
  | |- during e0 (SimulationEngine.pushEvent _ _) => apply pushEvent_during
  | |- during e0 (if ?c then _ else _) => let E := fresh "E" in destruct c eqn:E
  | |- during e0 (SimulationEngine.updEquipment _ _) =>
      apply updEquipment_during; [ | during_wears ]
  | _ => step_with (during e0) (during_frame e0)
  end.

Lemma checkFormationTransition_during e0 env depth e :
  during e0 e -> during e0 (SimulationEngine.checkFormationTransition env depth e).
Proof.
  intros H. cbv beta delta [SimulationEngine.checkFormationTransition].
  repeat during_step e0.
Qed.

Lemma checkKick_during e0 env fp e :
  during e0 e -> during e0 (SimulationEngine.checkKick env fp e).
Proof. intros H. cbv beta delta [SimulationEngine.checkKick]. repeat during_step e0. Qed.

Lemma checkLostCirculation_during e0 env fp e :
  during e0 e -> during e0 (SimulationEngine.checkLostCirculation env fp e).
Proof.
  intros H. cbv beta delta [SimulationEngine.checkLostCirculation].
  repeat during_step e0.
Qed.

Lemma triggerGameOver_during e0 env reason details e :
  during e0 e -> during e0 (SimulationEngine.triggerGameOver env reason details e).
Proof.
  intros H. cbv beta delta [SimulationEngine.triggerGameOver SimulationEngine.pause].
  repeat during_step e0.
Qed.

Lemma checkGasInflux_during e0 env fp e :
  during e0 e -> during e0 (fst (SimulationEngine.checkGasInflux env fp e)).
Proof.
  intros H. unfold SimulationEngine.checkGasInflux.
  repeat match goal with
         | |- context [if ?c then _ else _] => destruct c
         end;
    cbn [fst];
    repeat match goal with
           | |- during e0 (SimulationEngine.triggerGameOver _ _ _ _) =>
               apply triggerGameOver_during
           | _ => during_step e0
           end.
Qed.

Lemma checkGameOverConditions_during e0 env fp e :
  during e0 e -> during e0 (SimulationEngine.checkGameOverConditions env fp e).
Proof.
  intros H. cbv beta delta [SimulationEngine.checkGameOverConditions].
  pose proof (checkGasInflux_during e0 env fp e H) as Hgas.
  destruct (SimulationEngine.checkGasInflux env fp e) as [e1 returned].
  cbn [fst] in Hgas. cbv beta iota zeta.
  repeat match goal with
         | |- during e0 (if ?c then _ else _) => destruct c
         | |- during e0 (SimulationEngine.triggerGameOver _ _ _ _) =>
             apply triggerGameOver_during
         | _ => assumption
         end.
Qed.

Lemma updateEquipmentStatus_during e0 env e :
  during e0 e -> during e0 (SimulationEngine.updateEquipmentStatus env e).
Proof.
  intros H. cbv beta delta [SimulationEngine.updateEquipmentStatus].
  repeat during_step e0.
Qed.

Lemma checkTrippingOperations_during e0 env e :
  during e0 e -> during e0 (SimulationEngine.checkTrippingOperations env e).
Proof.
  intros H. cbv beta delta [SimulationEngine.checkTrippingOperations].
  repeat during_step e0.
Qed.

Lemma createCheckpoint_during e0 env automatic e :
  during e0 e -> during e0 (snd (SimulationEngine.createCheckpoint env automatic e)).
Proof.
  intros H. unfold SimulationEngine.createCheckpoint. cbn [snd].
  destruct automatic; cbn [negb]; repeat during_step e0.
Qed.

Lemma addToLogs_during e0 env e :
  during e0 e -> during e0 (SimulationEngine.addToLogs env e).
Proof. intros H. cbv beta delta [SimulationEngine.addToLogs]. repeat during_step e0. Qed.

Lemma checkKickHandling_during e0 env e :
  during e0 e -> during e0 (SimulationEngine.checkKickHandling env e).
Proof.
  intros H. cbv beta delta [SimulationEngine.checkKickHandling].
  repeat during_step e0.
Qed.

Ltac during_calls e0 :=
  repeat match goal with
         | |- during e0 (SimulationEngine.checkFormationTransition _ _ _) =>
             apply checkFormationTransition_during
         | |- during e0 (SimulationEngine.checkForEvents _ _ _) =>
             apply checkLostCirculation_during, checkKick_during
         | |- during e0 (SimulationEngine.checkGameOverConditions _ _ _) =>
             apply checkGameOverConditions_during
         | |- during e0 (SimulationEngine.updateEquipmentStatus _ _) =>
             apply updateEquipmentStatus_during
         | |- during e0 (SimulationEngine.checkTrippingOperations _ _) =>
             apply checkTrippingOperations_during
         | |- during e0 (snd (SimulationEngine.createCheckpoint _ _ _)) =>
             apply createCheckpoint_during
         | |- during e0 (SimulationEngine.addToLogs _ _) => apply addToLogs_during
         | |- during e0 (SimulationEngine.checkKickHandling _ _) =>
             apply checkKickHandling_during
         | _ => during_step e0
         end.

(** A tick, seen from the state right after its two clock assignments. *)
Lemma updateSimulation_during env e :
  SimulationEngine.gameOver e = false ->
  during
    (SimulationEngine.set_elapsedTime
       (SimulationEngine.elapsedTime e + 1 / SimulationEngine.speed e)
       (SimulationEngine.set_simulationTime (SimulationEngine.simulationTime e + 1)%Z e))
    (SimulationEngine.updateSimulation env e).
Proof.
  intros Hover. cbv beta delta [SimulationEngine.updateSimulation]. rewrite Hover.
  do 2 match goal with
       | |- during ?s (let x := ?a in @?b x) => change (during s (b a)); cbv beta
       end.
  match goal with
  | |- during ?s
         (let formationProps := SimulationEngine.getFormationPropertiesAtDepth ?x _ in _) =>
      change s with x; pose proof (during_refl x) as H0;
      set (e0 := x) in *; clearbody e0
  end.
  during_calls e0.
Qed.

(** X2. A tick of an engine that is not over advances the tick counter
    by one and the elapsed time by 1/speed, and leaves the controls, the
    speed, the formation, the well type, the scenario, the casing record,
    the target depth, the BOP activation count and the action log as
    they are: operator input is read, never written, by the tick. *)
Theorem X2_tick_advances_clock_keeps_settings (env : Env.t) (e : SimulationEngine.t) :
  SimulationEngine.isGameOver e = false ->
  let e' := SimulationEngine.updateSimulation env e in
  SimulationEngine.simulationTime e' = (SimulationEngine.simulationTime e + 1)%Z
  /\ SimulationEngine.elapsedTime e'
     = SimulationEngine.elapsedTime e + 1 / SimulationEngine.speed e
  /\ SimulationEngine.controls e' = SimulationEngine.controls e
  /\ SimulationEngine.speed e' = SimulationEngine.speed e
  /\ SimulationEngine.formation e' = SimulationEngine.formation e
  /\ SimulationEngine.wellType e' = SimulationEngine.wellType e
  /\ SimulationEngine.scenario e' = SimulationEngine.scenario e
  /\ SimulationEngine.running e' = SimulationEngine.running e
  /\ SimulationEngine.casingDepth e' = SimulationEngine.casingDepth e
  /\ SimulationEngine.lastCasingRun e' = SimulationEngine.lastCasingRun e
  /\ SimulationEngine.targetDepth e' = SimulationEngine.targetDepth e
  /\ SimulationEngine.getBopActivations e' = SimulationEngine.getBopActivations e
  /\ SimulationEngine.getActionLog e' = SimulationEngine.getActionLog e.
Proof.
  intros Hover. destruct (updateSimulation_during env e Hover) as [Hs _].
  unfold settings in Hs. cbn in Hs.
  injection Hs as Hc Hsp Hf Hw Ht Hsc Hr Hst Het Hcd Hlc Htd Hb Ha.
  cbv zeta. unfold SimulationEngine.getBopActivations, SimulationEngine.getActionLog.
  repeat split; assumption.
Qed.

Lemma X2_witness :
  SimulationEngine.simulationTime
    (SimulationEngine.updateSimulation sampleEnv mudWeight13) = 2%Z
  /\ SimulationEngine.controls (SimulationEngine.updateSimulation sampleEnv mudWeight13)
     = SimulationEngine.controls mudWeight13.
Proof.
  destruct (X2_tick_advances_clock_keeps_settings sampleEnv mudWeight13)
    as [Htime [_ [Hcontrols _]]].
  - vm_compute. reflexivity.
  - split; [rewrite Htime; vm_compute; reflexivity | exact Hcontrols].
Defined.

(** X3. A tick never removes or rewrites an entry of the event log: the
    log before the tick is a prefix of the log after it. *)
Theorem X3_tick_event_log_append_only (env : Env.t) (e : SimulationEngine.t) :
  SimulationEngine.getEventLog e
    `prefix_of` SimulationEngine.getEventLog (SimulationEngine.updateSimulation env e).
Proof.
  unfold SimulationEngine.getEventLog.
  destruct (SimulationEngine.gameOver e) eqn:Hover.
  - unfold SimulationEngine.updateSimulation. rewrite Hover. reflexivity.
  - destruct (updateSimulation_during env e Hover) as [_ [Hlog _]]. exact Hlog.
Qed.

(** X4. No tick raises the health of a unit: after a tick the health of
    the pumps, of the drill string and of the blowout preventer is at
    most what it was before (only the pump overuse duration recovers). *)
Theorem X4_tick_health_never_increases (env : Env.t) (e : SimulationEngine.t) :
  let q := SimulationEngine.equipmentStatus e in
  let q' := SimulationEngine.equipmentStatus (SimulationEngine.updateSimulation env e) in
  EquipmentStatus.pumpsHealth q' <= EquipmentStatus.pumpsHealth q
  /\ EquipmentStatus.drillStringHealth q' <= EquipmentStatus.drillStringHealth q
  /\ EquipmentStatus.bopHealth q' <= EquipmentStatus.bopHealth q.
Proof.
  cbv zeta. destruct (SimulationEngine.gameOver e) eqn:Hover.
  - unfold SimulationEngine.updateSimulation. rewrite Hover. repeat split; lra.
  - destruct (updateSimulation_during env e Hover) as [_ [_ Hwear]]. exact Hwear.
Qed.

(** ** Operator input *)

Lemma set_actionLog_same (e : SimulationEngine.t) :
  SimulationEngine.set_actionLog (SimulationEngine.actionLog e) e = e.
Proof. now destruct e. Qed.

Lemma set_actionLog_twice l1 l2 (e : SimulationEngine.t) :
  SimulationEngine.set_actionLog l2 (SimulationEngine.set_actionLog l1 e)
  = SimulationEngine.set_actionLog l2 e.
Proof. reflexivity. Qed.

(** The loop of [setControls] only appends to the action log: one entry
    for each property whose value differs from the controls in force. *)
Lemma logChanges_spec env us e :
  fold_left
    (fun e u =>
       if Controls.differs (SimulationEngine.controls e) u
       then SimulationEngine.logAction env ("Changed " +:+ Controls.key u)
              (Controls.value u) e
       else e)
    us e
  = SimulationEngine.set_actionLog
      (SimulationEngine.actionLog e
       ++ map (changeEntry env e)
            (List.filter (Controls.differs (SimulationEngine.controls e)) us))
      e.
Proof.
  revert e. induction us as [|u us IH]; intros e.
  - cbn. rewrite app_nil_r. symmetry. apply set_actionLog_same.
  - cbn [fold_left List.filter].
    destruct (Controls.differs (SimulationEngine.controls e) u) eqn:E.
    + rewrite IH. unfold SimulationEngine.logAction.
      rewrite set_actionLog_twice.
      cbn [SimulationEngine.actionLog SimulationEngine.set_actionLog
           SimulationEngine.controls map].
      rewrite <- app_assoc. reflexivity.
    + apply IH.
Qed.

Lemma merge_bopStatus (c : Controls.t) (us : list Controls.update) :
  Controls.bopStatus (Controls.merge c us)
  = default (Controls.bopStatus c) (Controls.partialBopStatus us).
Proof.
  unfold Controls.merge. revert c.
  induction us as [|u us IH]; intros c; [reflexivity|].
  cbn [fold_left]. rewrite IH.
  destruct u; cbn [Controls.partialBopStatus Controls.assign];
    destruct (Controls.partialBopStatus us); reflexivity.
Qed.

Lemma setControls_bopActivations env us e :
  SimulationEngine.getBopActivations (SimulationEngine.setControls env us e)
  = if String.eqb (Controls.bopStatus (SimulationEngine.controls e)) "open"
       && bool_decide (Controls.partialBopStatus us = Some "closed")
    then S (SimulationEngine.getBopActivations e)
    else SimulationEngine.getBopActivations e.
Proof.
  unfold SimulationEngine.setControls, SimulationEngine.getBopActivations.
  rewrite logChanges_spec.
  destruct (_ && _); reflexivity.
Qed.

Lemma setControls_bopStatus env us e :
  Controls.bopStatus (SimulationEngine.controls (SimulationEngine.setControls env us e))
  = default (Controls.bopStatus (SimulationEngine.controls e))
      (Controls.partialBopStatus us).
Proof.
  unfold SimulationEngine.setControls. rewrite logChanges_spec.
  cbn [SimulationEngine.controls SimulationEngine.set_controls
       SimulationEngine.set_actionLog].
  rewrite merge_bopStatus. destruct (_ && _); reflexivity.
Qed.

(** X5. Closing an open blowout preventer through [setControls] counts
    one activation; whatever [setControls] call follows directly (the
    same closing again included) counts none, because the preventer is
    then closed. *)
Theorem X5_bop_activation_counted_once
    (env1 env2 : Env.t) (us1 us2 : list Controls.update) (e : SimulationEngine.t) :
  Controls.bopStatus (SimulationEngine.controls e) = "open" ->
  Controls.partialBopStatus us1 = Some "closed" ->
  SimulationEngine.getBopActivations (SimulationEngine.setControls env1 us1 e)
  = S (SimulationEngine.getBopActivations e)
  /\ SimulationEngine.getBopActivations
       (SimulationEngine.setControls env2 us2 (SimulationEngine.setControls env1 us1 e))
     = S (SimulationEngine.getBopActivations e).
Proof.
  intros Hopen Hclose.
  assert (H1 : SimulationEngine.getBopActivations (SimulationEngine.setControls env1 us1 e)
               = S (SimulationEngine.getBopActivations e)).
  { rewrite setControls_bopActivations, Hopen, Hclose. reflexivity. }
  split; [exact H1|].
  rewrite setControls_bopActivations, setControls_bopStatus, Hclose, H1.
  reflexivity.
Qed.

(** An engine whose preventer was opened, then closed twice. *)
Lemma X5_witness :
  let opened :=
    SimulationEngine.setControls sampleEnv [Controls.BopStatus "open"]
      SimulationEngine.constructor in
  SimulationEngine.getBopActivations
    (SimulationEngine.setControls sampleEnv [Controls.BopStatus "closed"]
       (SimulationEngine.setControls sampleEnv [Controls.BopStatus "closed"] opened))
  = 1%nat.
Proof.
  cbv zeta.
  apply (X5_bop_activation_counted_once sampleEnv sampleEnv
           [Controls.BopStatus "closed"] [Controls.BopStatus "closed"]);
    reflexivity.
Defined.

(** X6. [setControls] replaces the controls by the merge of the old
    controls and the given properties, and appends to the action log
    one entry per property that differs from the old controls; the
    simulation data, the equipment, the clock, the event log, the
    checkpoints and the terminal state are not touched: input takes
    effect at the next tick. *)
Theorem X6_setControls_effects
    (env : Env.t) (us : list Controls.update) (e : SimulationEngine.t) :
  let e' := SimulationEngine.setControls env us e in
  SimulationEngine.controls e' = Controls.merge (SimulationEngine.controls e) us
  /\ SimulationEngine.getActionLog e'
     = SimulationEngine.getActionLog e
       ++ map (changeEntry env e)
            (List.filter (Controls.differs (SimulationEngine.controls e)) us)
  /\ SimulationEngine.getCurrentData e' = SimulationEngine.getCurrentData e
  /\ SimulationEngine.equipmentStatus e' = SimulationEngine.equipmentStatus e
  /\ SimulationEngine.simulationTime e' = SimulationEngine.simulationTime e
  /\ SimulationEngine.getEventLog e' = SimulationEngine.getEventLog e
  /\ SimulationEngine.getLogData e' = SimulationEngine.getLogData e
  /\ SimulationEngine.getCheckpoints e' = SimulationEngine.getCheckpoints e
  /\ SimulationEngine.isGameOver e' = SimulationEngine.isGameOver e
  /\ SimulationEngine.running e' = SimulationEngine.running e
  /\ SimulationEngine.paused e' = SimulationEngine.paused e.
Proof.
  cbv zeta. unfold SimulationEngine.setControls. rewrite logChanges_spec.
  unfold SimulationEngine.getActionLog, SimulationEngine.getCurrentData,
    SimulationEngine.getEventLog, SimulationEngine.getLogData,
    SimulationEngine.getCheckpoints, SimulationEngine.isGameOver.
  destruct (_ && _); repeat split; reflexivity.
Qed.

(** ** Terminal transition *)

(** X7. [triggerGameOver] on an engine that is not over sets the flag
    and the reason, pauses the clock and appends one critical gameOver
    event to the event log and to the events array of the current data;
    on an engine that is over it changes nothing, so of two failures the
    first one's reason stays. *)
Theorem X7_triggerGameOver_first_reason_wins
    (env env2 : Env.t) (reason reason2 : string) (details details2 : Details.t)
    (e : SimulationEngine.t) :
  let e' := SimulationEngine.triggerGameOver env reason details e in
  (SimulationEngine.isGameOver e = true -> e' = e)
  /\ (SimulationEngine.isGameOver e = false ->
      SimulationEngine.isGameOver e' = true
      /\ SimulationEngine.getGameOverReason e' = reason
      /\ SimulationEngine.paused e' = true
      /\ SimulationEngine.getEventLog e'
         = SimulationEngine.getEventLog e
           ++ [Event.mk "gameOver" (Env.now env)
                 (CurrentData.bitDepth (SimulationEngine.currentData e))
                 (SimulationEngine.getLayerIndexAtDepth e
                    (CurrentData.bitDepth (SimulationEngine.currentData e)))
                 "critical" ("GAME OVER: " +:+ reason)]
      /\ SimulationEngine.getCurrentData e' = SimulationEngine.getCurrentData e
      /\ SimulationEngine.triggerGameOver env2 reason2 details2 e' = e').
Proof.
  cbv zeta. unfold SimulationEngine.isGameOver. split.
  - intros Hover. unfold SimulationEngine.triggerGameOver. now rewrite Hover.
  - intros Hover. unfold SimulationEngine.triggerGameOver at 1 2 3 4 5 6.
    rewrite Hover. repeat split; try reflexivity.
    unfold SimulationEngine.triggerGameOver. now rewrite Hover.
Qed.

Lemma X7_witness :
  SimulationEngine.getGameOverReason
    (SimulationEngine.triggerGameOver sampleEnv "Pump Failure"
       SimulationEngine.pumpFailure SimulationEngine.constructor)
  = "Pump Failure"
  /\ SimulationEngine.triggerGameOver sampleEnv "BOP Failure" SimulationEngine.bopFailure
       (SimulationEngine.triggerGameOver sampleEnv "Pump Failure"
          SimulationEngine.pumpFailure SimulationEngine.constructor)
     = SimulationEngine.triggerGameOver sampleEnv "Pump Failure"
         SimulationEngine.pumpFailure SimulationEngine.constructor.
Proof.
  destruct (X7_triggerGameOver_first_reason_wins sampleEnv sampleEnv "Pump Failure"
              "BOP Failure" SimulationEngine.pumpFailure SimulationEngine.bopFailure
              SimulationEngine.constructor) as [_ H].
  destruct H as [_ [Hreason [_ [_ [_ Hagain]]]]]; [reflexivity|].
  split; [exact Hreason | exact Hagain].
Defined.

(** X8. The terminal conditions are tried in order: a pit level of
    exactly 0 gives "Mud Pit Depletion" whatever the gas level, depth and
    equipment are; otherwise a gas level above 20 with the bit deeper than
    500 ft and the preventer open gives "Blowout Event" before any later
    condition is looked at. *)
Theorem X8_terminal_conditions_in_order
    (env : Env.t) (fp : Props.t) (e : SimulationEngine.t) :
  SimulationEngine.isGameOver e = false ->
  let d := SimulationEngine.currentData e in
  let e' := SimulationEngine.checkGameOverConditions env fp e in
  (CurrentData.pitLevel d == 0 ->
   SimulationEngine.isGameOver e' = true
   /\ SimulationEngine.getGameOverReason e' = "Mud Pit Depletion")
  /\ (~ CurrentData.pitLevel d == 0 ->
      500 < CurrentData.bitDepth d -> 20 < CurrentData.gasLevel d ->
      Controls.bopStatus (SimulationEngine.controls e) = "open" ->
      SimulationEngine.isGameOver e' = true
      /\ SimulationEngine.getGameOverReason e' = "Blowout Event").
Proof.
  unfold SimulationEngine.isGameOver. intros Hover. cbv zeta. split.
  - intros Hpit. apply Qeq_bool_iff in Hpit.
    unfold SimulationEngine.checkGameOverConditions. rewrite Hpit.
    unfold SimulationEngine.triggerGameOver. rewrite Hover. split; reflexivity.
  - intros Hpit Hdepth Hgas Hbop.
    assert (Hp : Qeq_bool (CurrentData.pitLevel (SimulationEngine.currentData e)) 0
                 = false).
    { destruct (Qeq_bool _ 0) eqn:E; [|reflexivity].
      apply Qeq_bool_iff in E. contradiction. }
    apply Qlt_bool_iff in Hdepth. apply Qlt_bool_iff in Hgas.
    unfold SimulationEngine.checkGameOverConditions.
    rewrite Hp, Hdepth, Hgas, Hbop. cbn [andb String.eqb].
    unfold SimulationEngine.triggerGameOver. rewrite Hover. split; reflexivity.
Qed.

(** An engine whose pit level was set to 0 while gas is at 50 with the
    preventer open at 3000 ft: the reason is the pit, not the blowout. *)
Lemma X8_witness :
  let e :=
    SimulationEngine.set_controls
      (Controls.set_bopStatus "open" SimulationEngine.initialControls)
      (SimulationEngine.updCurrentData
         (fun d =>
            CurrentData.set_pitLevel 0
              (CurrentData.set_gasLevel 50 (CurrentData.set_bitDepth 3000 d)))
         SimulationEngine.constructor) in
  SimulationEngine.getGameOverReason
    (SimulationEngine.checkGameOverConditions sampleEnv Props.default e)
  = "Mud Pit Depletion".
Proof.
  cbv zeta.
  match goal with
  | |- SimulationEngine.getGameOverReason
         (SimulationEngine.checkGameOverConditions _ _ ?e) = _ =>
      destruct (X8_terminal_conditions_in_order sampleEnv Props.default e) as [H _];
      [reflexivity|]; destruct H as [_ H]; [reflexivity | exact H]
  end.
Defined.

(** X9. Which logged actions count as mitigation of a gas influx: of the
    actions that [setControls] logs after the warning, only a change of
    the mud weight or of the choke position counts. A change of
    [bopStatus] does not (the test looks for the text "BOP"), nor do the
    other controls or the casing and tripping actions. *)
Theorem X9_mitigating_actions
    (e : SimulationEngine.t) (ts : Z) (a : Action.t) (u : Controls.update) :
  SimulationEngine.warningTimestamps e !! "gasInflux" = Some ts ->
  (ts < Action.time a)%Z ->
  (Action.action a = "Changed " +:+ Controls.key u ->
   SimulationEngine.mitigatingAction e a
   = match u with
     | Controls.MudWeight _ | Controls.ChokePosition _ => true
     | _ => false
     end)
  /\ (Action.action a = "Run Casing" \/ Action.action a = "Start Tripping"
      \/ Action.action a = "Stop Tripping" ->
      SimulationEngine.mitigatingAction e a = false).
Proof.
  intros Hts Hlater. apply Z.ltb_lt in Hlater.
  unfold SimulationEngine.mitigatingAction. rewrite Hts, Hlater. split.
  - intros ->. destruct u; vm_compute; reflexivity.
  - intros [-> | [-> | ->]]; vm_compute; reflexivity.
Qed.

Lemma X9_witness :
  let e := SimulationEngine.startWarning (Env.mk 10 0 0) "gasInflux"
             SimulationEngine.constructor in
  let closeBop := Action.mk "Changed bopStatus" (VStr "closed") 20 0 0 0 50 0 10 in
  SimulationEngine.mitigatingAction e closeBop = false.
Proof.
  cbv zeta.
  match goal with
  | |- SimulationEngine.mitigatingAction ?e ?a = _ =>
      apply (proj1 (X9_mitigating_actions e 10 a (Controls.BopStatus "closed")
                      eq_refl eq_refl) eq_refl)
  end.
Defined.

(** ** Checkpoint round trip *)

Lemma find_app_fresh {A} (p : A -> bool) (l : list A) (x : A) :
  (forall y, In y l -> p y = false) -> p x = true ->
  find p (l ++ [x]) = Some x.
Proof.
  intros Hl Hx. induction l as [|y l IH]; cbn.
  - now rewrite Hx.
  - rewrite (Hl y (or_introl eq_refl)). apply IH.
    intros z Hz. apply Hl. now right.
Qed.

(** The checkpoint just created is the first of its id in the list when
    no stored checkpoint has that id. *)
Lemma find_created env automatic e :
  (forall c, In c (SimulationEngine.checkpoints e) ->
             Checkpoint.id c <> "cp_" +:+ pretty (Env.now env)) ->
  find (fun c => String.eqb (Checkpoint.id c) ("cp_" +:+ pretty (Env.now env)))
    (SimulationEngine.checkpoints (snd (SimulationEngine.createCheckpoint env automatic e)))
  = Some (fst (SimulationEngine.createCheckpoint env automatic e)).
Proof.
  intros Hfresh.
  assert (Hcps :
    SimulationEngine.checkpoints
      (snd (SimulationEngine.createCheckpoint env automatic e))
    = let l := SimulationEngine.checkpoints e
               ++ [fst (SimulationEngine.createCheckpoint env automatic e)] in
      if (10 <? length l)%nat then SimulationEngine.sliceLast 10 l else l).
  { unfold SimulationEngine.createCheckpoint. cbn [fst snd].
    destruct automatic; reflexivity. }
  rewrite Hcps. cbv zeta.
  assert (Hp : forall l,
             (forall c, In c l -> Checkpoint.id c <> "cp_" +:+ pretty (Env.now env)) ->
             find (fun c => String.eqb (Checkpoint.id c) ("cp_" +:+ pretty (Env.now env)))
               (l ++ [fst (SimulationEngine.createCheckpoint env automatic e)])
             = Some (fst (SimulationEngine.createCheckpoint env automatic e))).
  { intros l Hl. apply find_app_fresh.
    - intros c Hc. apply String.eqb_neq. now apply Hl.
    - apply String.eqb_eq. reflexivity. }
  destruct (10 <? _)%nat eqn:E; [|now apply Hp].
  unfold SimulationEngine.sliceLast.
  rewrite length_app in *. cbn [length] in *. apply Nat.ltb_lt in E.
  rewrite drop_app_le by lia. apply Hp.
  intros c Hc. apply Hfresh.
  rewrite <- (take_drop (length (SimulationEngine.checkpoints e) + 1 - 10)
                (SimulationEngine.checkpoints e)).
  apply in_or_app. now right.
Qed.

(** Loading the checkpoint just created, on any later engine with the
    same checkpoint list: the current data come back, the store of
    arrays is the later one. *)
Lemma loadCreated_data_arrays
    (env env' : Env.t) (automatic : bool) (e later : SimulationEngine.t) :
  (forall c, In c (SimulationEngine.checkpoints e) ->
             Checkpoint.id c <> "cp_" +:+ pretty (Env.now env)) ->
  SimulationEngine.checkpoints later
  = SimulationEngine.checkpoints
      (snd (SimulationEngine.createCheckpoint env automatic e)) ->
  SimulationEngine.getCurrentData
    (snd (SimulationEngine.loadCheckpoint env' ("cp_" +:+ pretty (Env.now env)) later))
  = SimulationEngine.getCurrentData e
  /\ SimulationEngine.arrays
       (snd (SimulationEngine.loadCheckpoint env' ("cp_" +:+ pretty (Env.now env)) later))
     = SimulationEngine.arrays later.
Proof.
  intros Hfresh Hsame.
  pose proof (find_created env automatic e Hfresh) as Hfind.
  rewrite <- Hsame in Hfind.
  unfold SimulationEngine.loadCheckpoint. rewrite Hfind. split; reflexivity.
Qed.

(** X10. Save and restore: when no stored checkpoint has the id that
    [createCheckpoint] issues, then, whatever happens to the engine
    afterwards as long as its checkpoint list stays the same,
    [loadCheckpoint] with that id succeeds and gives back the current
    data, controls, equipment status, casing depth and tick counter of
    the moment of the checkpoint, with the game-over flag cleared. *)
Theorem X10_checkpoint_round_trip
    (env env' : Env.t) (automatic : bool) (e later : SimulationEngine.t) :
  let cp := fst (SimulationEngine.createCheckpoint env automatic e) in
  (forall c, In c (SimulationEngine.getCheckpoints e) ->
             Checkpoint.id c <> Checkpoint.id cp) ->
  SimulationEngine.getCheckpoints later
  = SimulationEngine.getCheckpoints
      (snd (SimulationEngine.createCheckpoint env automatic e)) ->
  let r := SimulationEngine.loadCheckpoint env' (Checkpoint.id cp) later in
  fst r = true
  /\ SimulationEngine.getCurrentData (snd r) = SimulationEngine.getCurrentData e
  /\ SimulationEngine.controls (snd r) = SimulationEngine.controls e
  /\ SimulationEngine.equipmentStatus (snd r) = SimulationEngine.equipmentStatus e
  /\ SimulationEngine.casingDepth (snd r) = SimulationEngine.casingDepth e
  /\ SimulationEngine.simulationTime (snd r) = SimulationEngine.simulationTime e
  /\ SimulationEngine.isGameOver (snd r) = false.
Proof.
  cbv zeta. unfold SimulationEngine.getCheckpoints. intros Hfresh Hsame.
  pose proof (find_created env automatic e Hfresh) as Hfind.
  rewrite <- Hsame in Hfind.
  unfold SimulationEngine.loadCheckpoint.
  change (Checkpoint.id (fst (SimulationEngine.createCheckpoint env automatic e)))
    with ("cp_" +:+ pretty (Env.now env)).
  rewrite Hfind. repeat split; reflexivity.
Qed.

(** A checkpoint of a new engine, loaded after three ticks. *)
Lemma X10_witness :
  let saved := SimulationEngine.createCheckpoint sampleEnv false SimulationEngine.constructor in
  let later :=
    SimulationEngine.ticks [sampleEnv; sampleEnv; sampleEnv]
      (SimulationEngine.start (snd saved)) in
  SimulationEngine.simulationTime later = 3%Z
  /\ SimulationEngine.simulationTime
       (snd (SimulationEngine.loadCheckpoint sampleEnv (Checkpoint.id (fst saved)) later))
     = 0%Z
  /\ SimulationEngine.getCurrentData
       (snd (SimulationEngine.loadCheckpoint sampleEnv (Checkpoint.id (fst saved)) later))
     = SimulationEngine.getCurrentData SimulationEngine.constructor.
Proof.
  cbv zeta. split; [vm_compute; reflexivity|].
  match goal with
  | |- context [SimulationEngine.loadCheckpoint _ _ ?later] =>
      destruct (X10_checkpoint_round_trip sampleEnv sampleEnv false
                  SimulationEngine.constructor later)
        as [_ [Hdata [_ [_ [_ [Htime _]]]]]]
  end.
  - intros c Hc. destruct Hc.
  - vm_compute. reflexivity.
  - split; [exact Htime | exact Hdata].
Defined.

(** X11. The snapshot of a checkpoint shares the events array of the
    current data: an event pushed after the checkpoint is in the events
    of the current data after [loadCheckpoint], which therefore do not
    go back to what they were when the checkpoint was taken. *)
Theorem X11_checkpoint_shares_events_array
    (env env' : Env.t) (automatic : bool) (ev : Event.t) (e : SimulationEngine.t) :
  let cp := fst (SimulationEngine.createCheckpoint env automatic e) in
  let later :=
    SimulationEngine.pushEvent ev (snd (SimulationEngine.createCheckpoint env automatic e)) in
  let e' := snd (SimulationEngine.loadCheckpoint env' (Checkpoint.id cp) later) in
  (forall c, In c (SimulationEngine.getCheckpoints e) ->
             Checkpoint.id c <> Checkpoint.id cp) ->
  (CurrentData.events (SimulationEngine.currentData e)
   < length (SimulationEngine.arrays e))%nat ->
  SimulationEngine.getCurrentData e' = SimulationEngine.getCurrentData e
  /\ SimulationEngine.eventsOf e' (SimulationEngine.getCurrentData e')
     = SimulationEngine.eventsOf e (SimulationEngine.getCurrentData e) ++ [ev].
Proof.
  cbv zeta. intros Hfresh Hvalid.
  destruct (loadCreated_data_arrays env env' automatic e
              (SimulationEngine.pushEvent ev
                 (snd (SimulationEngine.createCheckpoint env automatic e))))
    as [Hdata Harrays]; [exact Hfresh | reflexivity |].
  change (Checkpoint.id (fst (SimulationEngine.createCheckpoint env automatic e)))
    with ("cp_" +:+ pretty (Env.now env)).
  split; [exact Hdata|].
  unfold SimulationEngine.eventsOf. rewrite Hdata, Harrays.
  unfold SimulationEngine.getCurrentData.
  assert (Ha : SimulationEngine.arrays
                 (SimulationEngine.pushEvent ev
                    (snd (SimulationEngine.createCheckpoint env automatic e)))
               = alter (fun a => a ++ [ev])
                   (CurrentData.events (SimulationEngine.currentData e))
                   (SimulationEngine.arrays e)).
  { unfold SimulationEngine.createCheckpoint. cbn [snd].
    destruct automatic; reflexivity. }
  rewrite Ha. rewrite list_lookup_alter_eq.
  destruct (lookup_lt_is_Some_2 _ _ Hvalid) as [a Hlook].
  rewrite Hlook. reflexivity.
Qed.

Lemma X11_witness :
  let ev := Event.mk "kick" 5 0 1 "warning" "Potential kick detected" in
  let saved := SimulationEngine.createCheckpoint sampleEnv true SimulationEngine.constructor in
  let later := SimulationEngine.pushEvent ev (snd saved) in
  let e' := snd (SimulationEngine.loadCheckpoint sampleEnv (Checkpoint.id (fst saved)) later) in
  SimulationEngine.eventsOf SimulationEngine.constructor
    (SimulationEngine.getCurrentData SimulationEngine.constructor) = []
  /\ SimulationEngine.eventsOf e' (SimulationEngine.getCurrentData e') = [] ++ [ev].
Proof.
  cbv zeta. split; [reflexivity|].
  apply (X11_checkpoint_shares_events_array sampleEnv sampleEnv true
           (Event.mk "kick" 5 0 1 "warning" "Potential kick detected")
           SimulationEngine.constructor).
  - intros c Hc. destruct Hc.
  - vm_compute. lia.
Defined.

(** ** Merged log views *)

Section Sorting.
Context {A : Type} (le : A -> A -> bool).
Hypothesis le_total : forall a b, le a b = true \/ le b a = true.

Lemma insertSorted_Permutation (x : A) (l : list A) :
  Permutation (SimulationEngine.insertSorted le x l) (x :: l).
Proof.
  induction l as [|y l IH]; cbn; [reflexivity|].
  destruct (le x y); [reflexivity|].
  rewrite IH. apply perm_swap.
Qed.

Lemma sortBy_Permutation (l : list A) : Permutation (SimulationEngine.sortBy le l) l.
Proof.
  unfold SimulationEngine.sortBy. induction l as [|x l IH]; cbn; [reflexivity|].
  rewrite insertSorted_Permutation. now rewrite IH.
Qed.

Lemma insertSorted_HdRel (a x : A) (l : list A) :
  le a x = true -> HdRel (fun a b => le a b = true) a l ->
  HdRel (fun a b => le a b = true) a (SimulationEngine.insertSorted le x l).
Proof.
  intros Hax Hl. destruct l as [|y l]; cbn; [now constructor|].
  destruct (le x y); constructor; [assumption|].
  now inversion Hl.
Qed.

Lemma insertSorted_Sorted (x : A) (l : list A) :
  Sorted (fun a b => le a b = true) l ->
  Sorted (fun a b => le a b = true) (SimulationEngine.insertSorted le x l).
Proof.
  induction 1 as [|y l Hl IH Hy]; cbn; [repeat constructor|].
  destruct (le x y) eqn:E.
  - constructor; [now constructor|]. now constructor.
  - constructor; [exact IH|].
    apply insertSorted_HdRel; [|exact Hy].
    destruct (le_total x y) as [H|H]; [congruence|exact H].
Qed.

Lemma sortBy_Sorted (l : list A) :
  Sorted (fun a b => le a b = true) (SimulationEngine.sortBy le l).
Proof.
  unfold SimulationEngine.sortBy. induction l as [|x l IH]; cbn; [constructor|].
  now apply insertSorted_Sorted.
Qed.


End Sorting.

Lemma Sorted_weaken {A} (R R' : A -> A -> Prop) (l : list A) :
  (forall a b, R a b -> R' a b) -> Sorted R l -> Sorted R' l.
Proof.
  intros HR. induction 1 as [|x l Hl IH Hx]; constructor; [exact IH|].
  destruct Hx; constructor. now apply HR.
Qed.

Lemma Qle_bool_total (a b : Q) : Qle_bool a b = true \/ Qle_bool b a = true.
Proof.
  destruct (Qlt_le_dec b a) as [H|H].
  - right. apply Qle_bool_iff. lra.
  - left. now apply Qle_bool_iff.
Qed.

Lemma Zleb_total (a b : Z) : (a <=? b)%Z = true \/ (b <=? a)%Z = true.
Proof. rewrite !Z.leb_le. lia. Qed.

(** X12. [getDepthLogs] holds every entry of the event log, the
    timeline, the formation transitions and the action log exactly once,
    in non-decreasing order of depth; [getTimeLogs] holds the same
    entries in non-decreasing order of time. *)
Theorem X12_merged_logs_sorted (e : SimulationEngine.t) :
  Permutation (SimulationEngine.getDepthLogs e) (SimulationEngine.allEvents e)
  /\ Sorted (fun a b => SimulationEngine.DepthLog.depth a <= SimulationEngine.DepthLog.depth b)
       (SimulationEngine.getDepthLogs e)
  /\ Permutation (SimulationEngine.getTimeLogs e) (SimulationEngine.getDepthLogs e)
  /\ Sorted
       (fun a b =>
          (SimulationEngine.DepthLog.timestamp a <= SimulationEngine.DepthLog.timestamp b)%Z)
       (SimulationEngine.getTimeLogs e)
  /\ length (SimulationEngine.getDepthLogs e)
     = (length (SimulationEngine.getEventLog e)
        + length (SimulationEngine.getTimelineEvents e)
        + length (SimulationEngine.formationTransitions e)
        + length (SimulationEngine.getActionLog e))%nat.
Proof.
  unfold SimulationEngine.getTimeLogs, SimulationEngine.getDepthLogs.
  split; [apply sortBy_Permutation|].
  split.
  { eapply Sorted_weaken; [|apply sortBy_Sorted].
    - intros a b H. apply Qle_bool_iff in H. exact H.
    - intros a b. apply Qle_bool_total. }
  split; [apply sortBy_Permutation|].
  split.
  { eapply Sorted_weaken; [|apply sortBy_Sorted].
    - intros a b H. apply Z.leb_le in H. exact H.
    - intros a b. apply Zleb_total. }
  rewrite (Permutation_length (sortBy_Permutation _ _)).
  unfold SimulationEngine.allEvents, SimulationEngine.getEventLog,
    SimulationEngine.getTimelineEvents, SimulationEngine.getActionLog.
  rewrite !length_app, !length_map. lia.
Qed.

(** ** Formation lookup of the engine *)

(** X13. Without a formation model [getFormationAtDepth] always answers
    with an entry of the predefined table: for a depth of 0 or more the
    deepest entry whose top is at or above the depth, for a negative
    depth the surface formation. *)
Theorem X13_getFormationAtDepth_without_model (e : SimulationEngine.t) (depth : Q) :
  SimulationEngine.formation e = None ->
  exists l description,
    SimulationEngine.getFormationAtDepth e depth = Some (l, Some description)
    /\ In (l, description) SimulationEngine.formationData
    /\ (0 <= depth ->
        Layer.depth l <= depth
        /\ forall l' d', In (l', d') SimulationEngine.formationData ->
                         Layer.depth l' <= depth -> Layer.depth l' <= Layer.depth l)
    /\ (depth < 0 -> Layer.name l = "Surface Formation").
Proof.
  intros Hnone. unfold SimulationEngine.getFormationAtDepth. rewrite Hnone.
  unfold SimulationEngine.scanTable, SimulationEngine.formationData.
  cbn [rev app List.find fst snd Layer.depth head option_map].
  repeat match goal with
         | |- context [Qle_bool ?a depth] =>
             let E := fresh "E" in
             destruct (Qle_bool a depth) eqn:E;
             [apply Qle_bool_iff in E
             | assert (depth < a)
                 by (apply Qnot_le_lt; intros Hc; apply Qle_bool_iff in Hc; congruence);
               clear E]
         end;
    (do 2 eexists; split; [reflexivity|]; split; [cbn; tauto|]; split;
     [ intros Hpos; split; [cbn; lra|];
       intros l' d' Hin Hle; cbn in Hin;
       repeat match goal with
              | H : _ \/ _ |- _ => destruct H
              | H : (_, _) = (_, _) |- _ => injection H as <- <-
              | H : False |- _ => destruct H
              end; cbn in *; lra
     | intros Hneg; first [reflexivity | exfalso; lra] ]).
Qed.

Lemma X13_witness :
  exists l description,
    SimulationEngine.getFormationAtDepth SimulationEngine.constructor 3000
    = Some (l, Some description)
    /\ Layer.name l = "Salt Dome".
Proof.
  destruct (X13_getFormationAtDepth_without_model SimulationEngine.constructor 3000
              eq_refl) as [l [description [Hget _]]].
  exists l, description. split; [exact Hget|].
  vm_compute in Hget. injection Hget as <- _. reflexivity.
Defined.

(** ** Formation model: lookup *)

Lemma scanLayers_Some (ls : FormationModel.t) (d : Q) (l : Layer.t) :
  FormationModel.scanLayers ls d = Some l ->
  In l ls /\ FormationModel.inLayer l d = true.
Proof.
  induction ls as [|h rest IH]; cbn; [discriminate|].
  destruct (FormationModel.inLayer h d) eqn:E.
  - intros [= <-]. split; [now left|exact E].
  - intros H. destruct (IH H) as [Hin Hd]. split; [now right|exact Hd].
Qed.

Lemma scanLayers_None (ls : FormationModel.t) (d : Q) :
  FormationModel.scanLayers ls d = None <->
  forall l, In l ls -> FormationModel.inLayer l d = false.
Proof.
  induction ls as [|h rest IH]; cbn.
  - split; [intros _ l []|reflexivity].
  - destruct (FormationModel.inLayer h d) eqn:E.
    + split; [discriminate|]. intros H.
      specialize (H h (or_introl eq_refl)). congruence.
    + rewrite IH. split.
      * intros H l [<-|Hl]; [exact E|now apply H].
      * intros H l Hl. apply H. now right.
Qed.

(** X14. What [getLayerAtDepth] answers: a layer of the list whose
    range holds the depth; or, when no range holds the depth, the last
    layer, provided the depth is at or below its top; or nothing, which happens exactly when no range
    holds the depth and the list is empty or the depth is above the top
    of the last layer. *)
Theorem X14_getLayerAtDepth_answer (ls : FormationModel.t) (d : Q) :
  (forall l, FormationModel.getLayerAtDepth ls d = Some l ->
     In l ls
     /\ (FormationModel.inLayer l d = true
         \/ ((forall l', In l' ls -> FormationModel.inLayer l' d = false)
             /\ last ls = Some l /\ Layer.depth l <= d)))
  /\ (FormationModel.getLayerAtDepth ls d = None <->
      (forall l', In l' ls -> FormationModel.inLayer l' d = false)
      /\ (forall l, last ls = Some l -> d < Layer.depth l)).
Proof.
  unfold FormationModel.getLayerAtDepth. split.
  - intros l. destruct (FormationModel.scanLayers ls d) as [l0|] eqn:Escan.
    + intros [= <-]. apply scanLayers_Some in Escan as [Hin Hd]. tauto.
    + destruct (last ls) as [l1|] eqn:Elast; [|discriminate].
      destruct (Qle_bool (Layer.depth l1) d) eqn:E; [|discriminate].
      intros [= <-]. split; [now apply last_In|]. right.
      split; [exact (proj1 (scanLayers_None ls d) Escan)|]. split; [reflexivity|].
      now apply Qle_bool_iff.
  - destruct (FormationModel.scanLayers ls d) as [l0|] eqn:Escan.
    + split; [discriminate|]. intros [Hnone _].
      apply scanLayers_Some in Escan as [Hin Hd]. rewrite (Hnone l0 Hin) in Hd.
      discriminate.
    + pose proof (proj1 (scanLayers_None ls d) Escan) as Hnone.
      clear Escan. rename Hnone into Escan.
      destruct (last ls) as [l1|] eqn:Elast.
      * destruct (Qle_bool (Layer.depth l1) d) eqn:E.
        -- split; [discriminate|]. intros [_ Hlast].
           specialize (Hlast l1 eq_refl). apply Qle_bool_iff in E. lra.
        -- split; [|reflexivity]. intros _. split; [exact Escan|].
           intros l [= <-]. apply Qnot_le_lt. intros Hc.
           apply Qle_bool_iff in Hc. congruence.
      * split; [|reflexivity]. intros _. split; [exact Escan|]. discriminate.
Qed.

(** X15. The deepest layer extends downward without bound: in a
    non-empty list every depth at or below the top of the last layer
    (so every depth past all ranges) gets a layer, and with it
    [getPropertiesAtDepth] is computed from a layer, not the default. *)
Theorem X15_last_layer_extends_down (ls : FormationModel.t) (l : Layer.t) (d : Q) :
  last ls = Some l -> Layer.depth l <= d ->
  exists l', FormationModel.getLayerAtDepth ls d = Some l' /\ In l' ls
             /\ (FormationModel.scanLayers ls d = None -> l' = l).
Proof.
  intros Hlast Hd. unfold FormationModel.getLayerAtDepth.
  destruct (FormationModel.scanLayers ls d) as [l0|] eqn:Escan.
  - exists l0. apply scanLayers_Some in Escan as [Hin _].
    split; [reflexivity|]. split; [exact Hin|discriminate].
  - rewrite Hlast. apply Qle_bool_iff in Hd. rewrite Hd.
    exists l. split; [reflexivity|]. split; [now apply last_In|reflexivity].
Qed.

Lemma X15_witness :
  exists l', FormationModel.getLayerAtDepth FormationModel.initializeDefaultLayers 9000
             = Some l'
             /\ Layer.name l' = "Overpressured Zone".
Proof.
  destruct (X15_last_layer_extends_down FormationModel.initializeDefaultLayers
              (Layer.mk "Overpressured Zone" 2300 500 14.0 16.5 0.05 "limestone" None)
              9000) as [l' [Hget [_ Hlast]]].
  - reflexivity.
  - vm_compute. discriminate.
  - exists l'. split; [exact Hget|]. rewrite Hlast; reflexivity.
Defined.

Lemma scanIndex_spec (ls : FormationModel.t) (d : Q) (i : nat) :
  match FormationModel.scanIndex ls d i with
  | Some j =>
      exists l, FormationModel.scanLayers ls d = Some l
                /\ (i < j)%nat /\ (j <= i + length ls)%nat
                /\ ls !! (j - S i)%nat = Some l
  | None => FormationModel.scanLayers ls d = None
  end.
Proof.
  revert i. induction ls as [|h rest IH]; intros i; cbn; [reflexivity|].
  destruct (FormationModel.inLayer h d).
  - exists h. split; [reflexivity|]. split; [lia|]. split; [lia|].
    now rewrite Nat.sub_diag.
  - specialize (IH (S i)).
    destruct (FormationModel.scanIndex rest d (S i)) as [j|]; [|exact IH].
    destruct IH as [l [Hscan [Hlt [Hle Hlook]]]].
    exists l. split; [exact Hscan|]. split; [lia|]. split; [lia|].
    replace (j - S i)%nat with (S (j - S (S i))) by lia. exact Hlook.
Qed.

(** X16. [getLayerIndexAtDepth] is the 1-based position of the layer
    that [getLayerAtDepth] returns; when there is no such layer it is 1.
    It is never 0 and never beyond the list (1 for an empty list). *)
Theorem X16_layer_index_agrees_with_layer (ls : FormationModel.t) (d : Q) :
  let index := FormationModel.getLayerIndexAtDepth ls d in
  (1 <= index)%nat /\ (index <= Nat.max 1 (length ls))%nat
  /\ (forall l, FormationModel.getLayerAtDepth ls d = Some l ->
                ls !! (index - 1)%nat = Some l)
  /\ (FormationModel.getLayerAtDepth ls d = None -> index = 1%nat).
Proof.
  cbv zeta.
  unfold FormationModel.getLayerIndexAtDepth, FormationModel.getLayerAtDepth.
  pose proof (scanIndex_spec ls d 0) as Hscan.
  destruct (FormationModel.scanIndex ls d 0) as [j|].
  - destruct Hscan as [l [Hl [Hlt [Hle Hlook]]]]. rewrite Hl.
    split; [lia|]. split; [cbn in Hle; lia|]. split; [|discriminate].
    intros l' [= <-]. exact Hlook.
  - rewrite Hscan. destruct (last ls) as [l1|] eqn:Elast.
    + destruct (Qle_bool (Layer.depth l1) d).
      * assert (Hlen : (1 <= length ls)%nat).
        { destruct ls; [discriminate|cbn; lia]. }
        split; [exact Hlen|]. split; [lia|]. split; [|discriminate].
        intros l [= <-]. rewrite last_lookup in Elast.
        replace (length ls - 1)%nat with (Nat.pred (length ls)) by lia. exact Elast.
      * split; [lia|]. split; [lia|]. split; [discriminate|reflexivity].
    + split; [lia|]. split; [lia|]. split; [discriminate|reflexivity].
Qed.

(** ** Formation model: editing *)

Lemma sortByDepth_sortBy (ls : FormationModel.t) :
  FormationModel.sortByDepth ls = SimulationEngine.sortBy depthLe ls.
Proof.
  unfold FormationModel.sortByDepth, SimulationEngine.sortBy.
  induction ls as [|x ls IH]; cbn; [reflexivity|].
  rewrite IH. generalize (fold_right (SimulationEngine.insertSorted depthLe) [] ls).
  intros l. induction l as [|y l IHl]; cbn; [reflexivity|].
  unfold depthLe at 1. destruct (Qle_bool _ _); [reflexivity|]. now rewrite IHl.
Qed.

Lemma depthLe_total (a b : Layer.t) : depthLe a b = true \/ depthLe b a = true.
Proof. apply Qle_bool_total. Qed.

Lemma sortByDepth_Permutation (ls : FormationModel.t) :
  Permutation (FormationModel.sortByDepth ls) ls.
Proof. rewrite sortByDepth_sortBy. apply sortBy_Permutation. Qed.

Lemma sortByDepth_Sorted (ls : FormationModel.t) :
  Sorted (fun a b => Layer.depth a <= Layer.depth b) (FormationModel.sortByDepth ls).
Proof.
  rewrite sortByDepth_sortBy.
  eapply Sorted_weaken; [|apply sortBy_Sorted; apply depthLe_total].
  intros a b H. apply Qle_bool_iff in H. exact H.
Qed.

(** X17. [addLayer] keeps every layer and the new one, each exactly
    once, and leaves the list in non-decreasing order of top depth,
    whatever the order before was. *)
Theorem X17_addLayer_sorted_permutation (layer : Layer.t) (ls : FormationModel.t) :
  Permutation (FormationModel.addLayer layer ls) (layer :: ls)
  /\ Sorted (fun a b => Layer.depth a <= Layer.depth b)
       (FormationModel.addLayer layer ls)
  /\ length (FormationModel.addLayer layer ls) = S (length ls).
Proof.
  unfold FormationModel.addLayer.
  assert (Hperm : Permutation (FormationModel.sortByDepth (ls ++ [layer])) (layer :: ls)).
  { rewrite sortByDepth_Permutation. symmetry. apply Permutation_cons_append. }
  split; [exact Hperm|]. split; [apply sortByDepth_Sorted|].
  now rewrite (Permutation_length Hperm).
Qed.

Lemma findIndex_Some (p : Layer.t -> bool) (ls : FormationModel.t) (i : nat) :
  FormationModel.findIndex p ls = Some i ->
  exists l, ls !! i = Some l /\ p l = true
            /\ forall j l', (j < i)%nat -> ls !! j = Some l' -> p l' = false.
Proof.
  revert i. induction ls as [|h rest IH]; intros i; cbn; [discriminate|].
  destruct (p h) eqn:E.
  - intros [= <-]. exists h. split; [reflexivity|]. split; [exact E|]. lia.
  - destruct (FormationModel.findIndex p rest) as [k|]; [|discriminate].
    intros [= <-]. destruct (IH k eq_refl) as [l [Hl [Hp Hbefore]]].
    exists l. split; [exact Hl|]. split; [exact Hp|].
    intros [|j] l' Hj Hl'.
    + cbn in Hl'. injection Hl' as <-. exact E.
    + apply (Hbefore j l'); [lia|exact Hl'].
Qed.

Lemma findIndex_None (p : Layer.t -> bool) (ls : FormationModel.t) :
  FormationModel.findIndex p ls = None <-> forall l, In l ls -> p l = false.
Proof.
  induction ls as [|h rest IH]; cbn.
  - split; [intros _ l []|reflexivity].
  - destruct (p h) eqn:E.
    + split; [discriminate|]. intros H. specialize (H h (or_introl eq_refl)). congruence.
    + destruct (FormationModel.findIndex p rest) as [k|].
      * split; [discriminate|]. intros H.
        pose proof (proj2 IH (fun l Hl => H l (or_intror Hl))) as Hc.
        discriminate Hc.
      * split; [|reflexivity]. intros _ l [<-|Hl]; [exact E|].
        exact (proj1 IH eq_refl l Hl).
Qed.

(** X18. [updateLayer] with a name that no layer has leaves the list as
    it is; with a name that some layer has, the first layer of that name
    is replaced by the given one, the other layers are kept, and the
    list is left in non-decreasing order of top depth. *)
Theorem X18_updateLayer (updated : Layer.t) (ls : FormationModel.t) :
  ((forall l, In l ls -> Layer.name l <> Layer.name updated) ->
   FormationModel.updateLayer updated ls = ls)
  /\ ((exists l, In l ls /\ Layer.name l = Layer.name updated) ->
      exists i old,
        ls !! i = Some old /\ Layer.name old = Layer.name updated
        /\ (forall j l', (j < i)%nat -> ls !! j = Some l' ->
                         Layer.name l' <> Layer.name updated)
        /\ Permutation (FormationModel.updateLayer updated ls) (<[i := updated]> ls)
        /\ Sorted (fun a b => Layer.depth a <= Layer.depth b)
             (FormationModel.updateLayer updated ls)
        /\ In updated (FormationModel.updateLayer updated ls)
        /\ length (FormationModel.updateLayer updated ls) = length ls).
Proof.
  unfold FormationModel.updateLayer. split.
  - intros Hnone.
    rewrite (proj2 (findIndex_None _ ls)); [reflexivity|].
    intros l Hl. apply String.eqb_neq. now apply Hnone.
  - intros [l0 [Hin0 Hname0]].
    destruct (FormationModel.findIndex _ ls) as [i|] eqn:E.
    + destruct (findIndex_Some _ ls i E) as [old [Hold [Hp Hbefore]]].
      exists i, old. split; [exact Hold|].
      split; [now apply String.eqb_eq in Hp|].
      split.
      { intros j l' Hj Hl'. apply String.eqb_neq. exact (Hbefore j l' Hj Hl'). }
      assert (Hperm : Permutation (FormationModel.sortByDepth (<[i := updated]> ls))
                        (<[i := updated]> ls)) by apply sortByDepth_Permutation.
      split; [exact Hperm|]. split; [apply sortByDepth_Sorted|].
      split.
      * apply (Permutation_in _ (Permutation_sym Hperm)).
        apply list_elem_of_In. apply list_elem_of_lookup. exists i.
        apply list_lookup_insert_eq. now apply lookup_lt_Some in Hold.
      * rewrite (Permutation_length Hperm). apply length_insert.
    + pose proof (proj1 (findIndex_None _ ls) E l0 Hin0) as Hf.
      apply String.eqb_neq in Hf. contradiction.
Qed.

Lemma X18_witness :
  FormationModel.updateLayer
    (Layer.mk "Basement" 4000 100 12 18 0.1 "granite" None)
    FormationModel.initializeDefaultLayers
  = FormationModel.initializeDefaultLayers
  /\ map Layer.name
       (FormationModel.updateLayer
          (Layer.mk "Shale" 2500 1000 9.2 14.5 0.001 "shale" None)
          FormationModel.initializeDefaultLayers)
     = ["Topsoil"; "Reservoir"; "Overpressured Zone"; "Shale"].
Proof.
  split; [|vm_compute; reflexivity].
  apply (proj1 (X18_updateLayer (Layer.mk "Basement" 4000 100 12 18 0.1 "granite" None)
                  FormationModel.initializeDefaultLayers)).
  intros l Hl. cbn in Hl.
  destruct Hl as [<-|[<-|[<-|[<-|[]]]]]; discriminate.
Defined.

(** X19. [removeLayer] removes every layer of the given name and keeps
    the others in their order; removing a name that no layer has, or
    removing the same name twice, changes nothing more. *)
Theorem X19_removeLayer (name : string) (ls : FormationModel.t) :
  (forall l, In l (FormationModel.removeLayer name ls) <->
             In l ls /\ Layer.name l <> name)
  /\ FormationModel.removeLayer name ls `sublist_of` ls
  /\ ((forall l, In l ls -> Layer.name l <> name) ->
      FormationModel.removeLayer name ls = ls)
  /\ FormationModel.removeLayer name (FormationModel.removeLayer name ls)
     = FormationModel.removeLayer name ls.
Proof.
  unfold FormationModel.removeLayer.
  assert (Hin : forall l, In l (List.filter (fun l => negb (String.eqb (Layer.name l) name)) ls)
                          <-> In l ls /\ Layer.name l <> name).
  { intros l. rewrite filter_In, negb_true_iff, String.eqb_neq. reflexivity. }
  split; [exact Hin|]. clear Hin. split; [|split].
  - induction ls as [|h rest IH]; cbn; [constructor|].
    destruct (negb _); [now apply sublist_skip|now apply sublist_cons].
  - intros Hnone. induction ls as [|h rest IH]; cbn; [reflexivity|].
    rewrite (proj2 (String.eqb_neq _ _) (Hnone h (or_introl eq_refl))). cbn.
    f_equal. apply IH. intros l Hl. apply Hnone. now right.
  - induction ls as [|h rest IH]; cbn; [reflexivity|].
    destruct (negb (String.eqb (Layer.name h) name)) eqn:E; cbn; [|exact IH].
    rewrite E. now rewrite IH.
Qed.

(** ** Attaching a formation *)

Lemma Math_min_le_l (a b : Q) : Math_min a b <= a.
Proof.
  unfold Math_min. destruct (Qle_bool a b) eqn:E; [lra|].
  destruct (Qlt_le_dec b a) as [H|H]; [lra|].
  apply Qle_bool_iff in H. congruence.
Qed.

Lemma Math_min_le_r (a b : Q) : Math_min a b <= b.
Proof.
  unfold Math_min. destruct (Qle_bool a b) eqn:E; [|lra].
  now apply Qle_bool_iff.
Qed.

Lemma Math_min_glb (a b c : Q) : c <= a -> c <= b -> c <= Math_min a b.
Proof. intros Ha Hb. unfold Math_min. now destruct (Qle_bool a b). Qed.

(** X20. [setFormation] gives every layer of the attached model a kick
    risk: a layer that has one keeps it, a layer without one gets
    exactly
    [min(0.8, max(0, (porePressure - 9)/5) * 0.7 + min(1, permeability * 2) * 0.3)],
    which lies between 0 and 0.8 when the permeability is not negative;
    nothing else of a layer changes. *)
Theorem X20_setFormation_backfills_kickRisk
    (f : list Layer.t) (e : SimulationEngine.t) :
  exists f' : list Layer.t,
    SimulationEngine.formation (SimulationEngine.setFormation (Some f) e) = Some f'
    /\ length f' = length f
    /\ forall i l, f !! i = Some l ->
         exists l' k,
           f' !! i = Some l' /\ Layer.kickRisk l' = Some k
           /\ (Layer.name l', Layer.depth l', Layer.thickness l', Layer.porePressure l',
               Layer.fracturePressure l', Layer.permeability l', Layer.lithology l')
              = (Layer.name l, Layer.depth l, Layer.thickness l, Layer.porePressure l,
                 Layer.fracturePressure l, Layer.permeability l, Layer.lithology l)
           /\ (forall k0, Layer.kickRisk l = Some k0 -> k = k0)
           /\ (Layer.kickRisk l = None ->
               k = Math_min 0.8
                     (Math_max 0 ((Layer.porePressure l - 9.0) / 5) * 0.7
                      + Math_min 1 (Layer.permeability l * 2) * 0.3))
           /\ (Layer.kickRisk l = None -> 0 <= Layer.permeability l ->
               0 <= k /\ k <= 0.8).
Proof.
  exists (map SimulationEngine.backfillKickRisk f).
  split; [reflexivity|]. split; [apply length_map|].
  intros i l Hl.
  assert (Hlook : map SimulationEngine.backfillKickRisk f !! i
                  = Some (SimulationEngine.backfillKickRisk l)).
  { change (map SimulationEngine.backfillKickRisk f)
      with (SimulationEngine.backfillKickRisk <$> f).
    now rewrite list_lookup_fmap, Hl. }
  unfold SimulationEngine.backfillKickRisk in Hlook.
  destruct (Layer.kickRisk l) as [k0|] eqn:Ek.
  - exists l, k0. split; [exact Hlook|]. split; [exact Ek|]. split; [reflexivity|].
    split; [now intros k [= <-]|]. split; discriminate.
  - eexists _, _. split; [exact Hlook|]. split; [reflexivity|]. split; [reflexivity|].
    split; [discriminate|]. split; [reflexivity|]. intros _ Hperm. split.
    + apply Math_min_glb; [lra|].
      pose proof (Math_max_lower 0 ((Layer.porePressure l - 9.0) / 5)) as Hmax.
      assert (Hmin : 0 <= Math_min 1 (Layer.permeability l * 2))
        by (apply Math_min_glb; lra).
      generalize dependent (Math_max 0 ((Layer.porePressure l - 9.0) / 5)).
      generalize dependent (Math_min 1 (Layer.permeability l * 2)).
      intros. lra.
    + apply Math_min_le_l.
Qed.

(** ** Completed scenarios *)

(** X21. [addCompletedScenario] keeps the list of completed scenarios
    free of duplicates: the id is in the list afterwards, ids already
    present stay in place, adding an id twice is the same as adding it
    once, and a list without duplicates stays without duplicates. *)
Theorem X21_completed_scenarios_no_duplicates (id : string) (done : list string) :
  In id (ScenarioStore.addCompletedScenario id done)
  /\ done `prefix_of` ScenarioStore.addCompletedScenario id done
  /\ ScenarioStore.addCompletedScenario id (ScenarioStore.addCompletedScenario id done)
     = ScenarioStore.addCompletedScenario id done
  /\ (NoDup done -> NoDup (ScenarioStore.addCompletedScenario id done))
  /\ (In id done -> ScenarioStore.addCompletedScenario id done = done).
Proof.
  unfold ScenarioStore.addCompletedScenario.
  destruct (bool_decide (id ∈ done)) eqn:E.
  - apply bool_decide_eq_true in E. rewrite (bool_decide_eq_true_2 _ E).
    split; [now apply list_elem_of_In|]. split; [reflexivity|].
    split; [reflexivity|]. split; [tauto|reflexivity].
  - apply bool_decide_eq_false in E.
    assert (Hin : id ∈ done ++ [id]) by (apply elem_of_app; right; now left).
    rewrite (bool_decide_eq_true_2 _ Hin).
    split; [now apply list_elem_of_In|]. split; [now apply prefix_app_r|].
    split; [reflexivity|]. split.
    + intros Hnd. apply NoDup_app. split; [exact Hnd|]. split.
      * intros x Hx Hx'. apply list_elem_of_singleton in Hx'. now subst.
      * apply NoDup_singleton.
    + intros Hc. apply list_elem_of_In in Hc. contradiction.
Qed.

(** ** Bounds of the physics formulas *)

(** X22. The vibration computed for the drill string never exceeds 100,
    and the annular pressure lies between half the standpipe pressure and
    the standpipe pressure for a non-negative standpipe pressure and
    depth (the depth factor is clamped to 0.5 from 10000 ft down). *)
Theorem X22_vibration_and_annular_pressure_bounds
    (e : SimulationEngine.t) (standpipePressure depth : Q) :
  SimulationEngine.calculateVibration e <= 100
  /\ (0 <= standpipePressure -> 0 <= depth ->
      standpipePressure * 0.5
        <= SimulationEngine.calculateAnnularPressure standpipePressure depth
      /\ SimulationEngine.calculateAnnularPressure standpipePressure depth
         <= standpipePressure)
  /\ (10000 <= depth ->
      SimulationEngine.calculateAnnularPressure standpipePressure depth
      == standpipePressure * 0.5).
Proof.
  split; [apply Math_min_le_l|].
  unfold SimulationEngine.calculateAnnularPressure.
  assert (Hdiv : depth / 20000 == depth * (1 # 20000)) by (unfold Qdiv; reflexivity).
  split.
  - intros Hsp Hd.
    pose proof (Math_max_lower 0.5 (1 - depth / 20000)) as Hlo.
    assert (Hhi : Math_max 0.5 (1 - depth / 20000) <= 1).
    { unfold Math_max. destruct (Qle_bool _ _); lra. }
    generalize dependent (Math_max 0.5 (1 - depth / 20000)). intros m Hlo Hhi.
    split; nra.
  - intros Hdeep. unfold Math_max.
    destruct (Qle_bool 0.5 (1 - depth / 20000)) eqn:E; [|reflexivity].
    apply Qle_bool_iff in E.
    assert (Heq : 1 - depth / 20000 == 0.5) by lra.
    now rewrite Heq.
Qed.

Lemma X22_witness :
  SimulationEngine.calculateAnnularPressure 3000 12000 == 1500.
Proof.
  rewrite (proj2 (proj2 (X22_vibration_and_annular_pressure_bounds
                          SimulationEngine.constructor 3000 12000))).
  - reflexivity.
  - vm_compute. discriminate.
Defined.

(** ** Wear of one tick *)

Lemma gearIs_frame g (e e' : SimulationEngine.t) :
  (SimulationEngine.controls e',
   EquipmentStatus.pumpsHealth (SimulationEngine.equipmentStatus e'),
   EquipmentStatus.bopHealth (SimulationEngine.equipmentStatus e'))
  = (SimulationEngine.controls e,
     EquipmentStatus.pumpsHealth (SimulationEngine.equipmentStatus e),
     EquipmentStatus.bopHealth (SimulationEngine.equipmentStatus e)) ->
  gearIs g e -> gearIs g e'.
Proof. unfold gearIs. intros ->. trivial. Qed.

Ltac gear_step g := step_with (gearIs g) (gearIs_frame g).

Lemma checkFormationTransition_gear g env depth e :
  gearIs g e -> gearIs g (SimulationEngine.checkFormationTransition env depth e).
Proof.
  intros H. cbv beta delta [SimulationEngine.checkFormationTransition].
  repeat gear_step g.
Qed.

Lemma checkKick_gear g env fp e :
  gearIs g e -> gearIs g (SimulationEngine.checkKick env fp e).
Proof. intros H. cbv beta delta [SimulationEngine.checkKick]. repeat gear_step g. Qed.

Lemma checkLostCirculation_gear g env fp e :
  gearIs g e -> gearIs g (SimulationEngine.checkLostCirculation env fp e).
Proof.
  intros H. cbv beta delta [SimulationEngine.checkLostCirculation].
  repeat gear_step g.
Qed.

Lemma triggerGameOver_gear g env reason details e :
  gearIs g e -> gearIs g (SimulationEngine.triggerGameOver env reason details e).
Proof.
  intros H. cbv beta delta [SimulationEngine.triggerGameOver]. repeat gear_step g.
Qed.

Lemma checkGasInflux_gear g env fp e :
  gearIs g e -> gearIs g (fst (SimulationEngine.checkGasInflux env fp e)).
Proof.
  intros H. unfold SimulationEngine.checkGasInflux.
  repeat match goal with
         | |- context [if ?c then _ else _] => destruct c
         end;
    cbn [fst];
    repeat match goal with
           | |- gearIs g (SimulationEngine.triggerGameOver _ _ _ _) =>
               apply triggerGameOver_gear
           | _ => gear_step g
           end.
Qed.

Lemma checkGameOverConditions_gear g env fp e :
  gearIs g e -> gearIs g (SimulationEngine.checkGameOverConditions env fp e).
Proof.
  intros H. cbv beta delta [SimulationEngine.checkGameOverConditions].
  pose proof (checkGasInflux_gear g env fp e H) as Hgas.
  destruct (SimulationEngine.checkGasInflux env fp e) as [e1 returned].
  cbn [fst] in Hgas. cbv beta iota zeta.
  repeat match goal with
         | |- gearIs g (if ?c then _ else _) => destruct c
         | |- gearIs g (SimulationEngine.triggerGameOver _ _ _ _) =>
             apply triggerGameOver_gear
         | _ => assumption
         end.
Qed.

Lemma checkTrippingOperations_gear g env e :
  gearIs g e -> gearIs g (SimulationEngine.checkTrippingOperations env e).
Proof.
  intros H. cbv beta delta [SimulationEngine.checkTrippingOperations].
  repeat gear_step g.
Qed.

Lemma createCheckpoint_gear g env automatic e :
  gearIs g e -> gearIs g (snd (SimulationEngine.createCheckpoint env automatic e)).
Proof.
  intros H. unfold SimulationEngine.createCheckpoint. cbn [snd].
  destruct automatic; cbn [negb]; repeat gear_step g.
Qed.

Lemma addToLogs_gear g env e :
  gearIs g e -> gearIs g (SimulationEngine.addToLogs env e).
Proof. intros H. cbv beta delta [SimulationEngine.addToLogs]. repeat gear_step g. Qed.

Lemma checkKickHandling_gear g env e :
  gearIs g e -> gearIs g (SimulationEngine.checkKickHandling env e).
Proof.
  intros H. cbv beta delta [SimulationEngine.checkKickHandling]. repeat gear_step g.
Qed.

(** [phase_step P Q side]: on a goal [Q (let x := a in b x)] whose bound
    state [a] is only known to satisfy [P], asks for [P a] (left to
    [side]) and goes on to [Q (b x)] for a state [x] with [P x]. *)
Ltac phase_step P Q side :=
  match goal with
  | |- Q (let x := ?a in @?b x) =>
      let T := type of a in
      lazymatch T with
      | SimulationEngine.t =>
          let e' := fresh "e" in
          let H := fresh "H" in
          cut (P a);
          [ generalize a; intros e' H; change (Q (b e')); cbv beta
          | solve [side] ]
      | _ => change (Q (b a)); cbv beta
      end
  end.

(** The equipment step applies the pump wear and the preventer wear, each
    computed from the controls, and leaves the controls. *)
Lemma updateEquipmentStatus_gear env e c p b :
  gearIs (c, p, b) e ->
  gearIs (c, pumpsHealthAfter c p, bopHealthAfter c b)
    (SimulationEngine.updateEquipmentStatus env e).
Proof.
  intros H. unfold gearIs in H. injection H as <- <- <-.
  cbv beta delta [SimulationEngine.updateEquipmentStatus].
  set (c := SimulationEngine.controls e).
  set (p := pumpsHealthAfter c _).
  set (Post3 := gearIs (c, p, bopHealthAfter c _)).
  set (P2 := (c, p, EquipmentStatus.bopHealth (SimulationEngine.equipmentStatus e))).
  phase_step (gearIs P2) Post3 idtac.
  phase_step (gearIs P2) Post3
    ltac:(subst P2 p c; unfold gearIs, pumpsHealthAfter;
          repeat match goal with
                 | |- context [if ?c then _ else _] => destruct c
                 end; reflexivity).
  repeat phase_step (gearIs P2) Post3 ltac:(repeat gear_step P2).
  subst Post3 P2. unfold gearIs in *.
  match goal with
  | Hx : (SimulationEngine.controls ?x, _, _) = _
    |- context [SimulationEngine.updEquipment _ ?x] =>
      injection Hx as Hc Hp Hb
  end.
  rewrite <- Hp, <- Hb. unfold bopHealthAfter. rewrite <- Hc. cbv zeta.
  repeat match goal with
         | |- context [if ?c then _ else _] => destruct c
         end; reflexivity.
Qed.

Ltac gear_calls g :=
  repeat match goal with
         | |- gearIs g (SimulationEngine.checkFormationTransition _ _ _) =>
             apply checkFormationTransition_gear
         | |- gearIs g (SimulationEngine.checkForEvents _ _ _) =>
             apply checkLostCirculation_gear, checkKick_gear
         | |- gearIs g (SimulationEngine.checkGameOverConditions _ _ _) =>
             apply checkGameOverConditions_gear
         | |- gearIs g (SimulationEngine.checkTrippingOperations _ _) =>
             apply checkTrippingOperations_gear
         | |- gearIs g (snd (SimulationEngine.createCheckpoint _ _ _)) =>
             apply createCheckpoint_gear
         | |- gearIs g (SimulationEngine.addToLogs _ _) => apply addToLogs_gear
         | |- gearIs g (SimulationEngine.checkKickHandling _ _) =>
             apply checkKickHandling_gear
         | _ => gear_step g
         end.

Lemma updateSimulation_gear env e c p b :
  SimulationEngine.gameOver e = false ->
  gearIs (c, p, b) e ->
  gearIs (c, pumpsHealthAfter c p, bopHealthAfter c b)
    (SimulationEngine.updateSimulation env e).
Proof.
  intros Hover H. cbv beta delta [SimulationEngine.updateSimulation]. rewrite Hover.
  set (Post := gearIs (c, pumpsHealthAfter c p, bopHealthAfter c b)).
  repeat match goal with
         | |- Post (let x := SimulationEngine.updateEquipmentStatus _ _ in _) => fail 1
         | _ => phase_step (gearIs (c, p, b)) Post ltac:(gear_calls (c, p, b))
         end.
  match goal with
  | |- Post (let x := SimulationEngine.updateEquipmentStatus env ?y in @?k x) =>
      cut (Post (SimulationEngine.updateEquipmentStatus env y));
      [ generalize (SimulationEngine.updateEquipmentStatus env y);
        intros e' H'; change (Post (k e')); cbv beta
      | apply updateEquipmentStatus_gear; assumption ]
  end.
  subst Post. gear_calls (c, pumpsHealthAfter c p, bopHealthAfter c b).
Qed.

(** X23. The wear of one tick on the pumps and on the blowout preventer
    is exact: a tick of an engine that is not over takes
    (pumpRate - 800) / 200 * 0.1 from the pump health when the pump rate
    control is above 800 and nothing otherwise, and takes
    rotarySpeed * 0.1 from the preventer health when the preventer
    control is closed with the rotary speed above 30 and nothing
    otherwise; no other step of the tick touches these two values. *)
Theorem X23_tick_wear_of_pumps_and_bop (env : Env.t) (e : SimulationEngine.t) :
  SimulationEngine.isGameOver e = false ->
  let c := SimulationEngine.controls e in
  let q := SimulationEngine.equipmentStatus e in
  let q' := SimulationEngine.equipmentStatus (SimulationEngine.updateSimulation env e) in
  EquipmentStatus.pumpsHealth q'
  = (if Qlt_bool 800 (Controls.pumpRate c)
     then EquipmentStatus.pumpsHealth q - (Controls.pumpRate c - 800) / 200 * 0.1
     else EquipmentStatus.pumpsHealth q)
  /\ EquipmentStatus.bopHealth q'
     = (if String.eqb (Controls.bopStatus c) "closed"
           && Qlt_bool 30 (Controls.rotarySpeed c)
        then EquipmentStatus.bopHealth q - Controls.rotarySpeed c * 0.1
        else EquipmentStatus.bopHealth q).
Proof.
  intros Hover c q q'.
  pose proof (updateSimulation_gear env e c (EquipmentStatus.pumpsHealth q)
                (EquipmentStatus.bopHealth q) Hover eq_refl) as H.
  unfold gearIs in H. injection H as _ Hp Hb.
  split; [exact Hp | exact Hb].
Qed.

Lemma X23_witness :
  EquipmentStatus.bopHealth
    (SimulationEngine.equipmentStatus
       (SimulationEngine.updateSimulation sampleEnv mudWeight13))
  = EquipmentStatus.bopHealth (SimulationEngine.equipmentStatus mudWeight13)
    - Controls.rotarySpeed (SimulationEngine.controls mudWeight13) * 0.1.
Proof.
  destruct (X23_tick_wear_of_pumps_and_bop sampleEnv mudWeight13) as [_ Hb].
  - reflexivity.
  - exact Hb.
Defined.

(** ** The clock *)

(** X24. The clock controls. [setSpeed] changes the speed and nothing
    else: its stop-and-start restart of a running, unpaused engine leaves
    the running and paused flags as they were. [start] on a running
    engine does nothing, so it does not resume a paused one. The timer
    callback changes nothing on a paused or stopped engine, and after a
    failure [resume] lifts the pause that the failure set but the
    callback still changes nothing. *)
Theorem X24_clock_controls (env : Env.t) (v : Q) (e : SimulationEngine.t) :
  SimulationEngine.setSpeed v e = SimulationEngine.set_speed v e
  /\ SimulationEngine.start (SimulationEngine.start e) = SimulationEngine.start e
  /\ SimulationEngine.start (SimulationEngine.pause (SimulationEngine.start e))
     = SimulationEngine.pause (SimulationEngine.start e)
  /\ SimulationEngine.intervalTick env (SimulationEngine.pause e) = SimulationEngine.pause e
  /\ SimulationEngine.intervalTick env (SimulationEngine.stop e) = SimulationEngine.stop e
  /\ (forall reason details,
        let failed :=
          SimulationEngine.resume (SimulationEngine.triggerGameOver env reason details e) in
        SimulationEngine.paused failed = false
        /\ SimulationEngine.intervalTick env failed = failed).
Proof.
  split; [|split; [|split; [|split; [|split]]]].
  - unfold SimulationEngine.setSpeed, SimulationEngine.start, SimulationEngine.stop.
    destruct e. cbn. destruct running, paused; reflexivity.
  - unfold SimulationEngine.start. destruct (SimulationEngine.running e) eqn:E.
    + now rewrite E.
    + reflexivity.
  - unfold SimulationEngine.start, SimulationEngine.pause.
    destruct (SimulationEngine.running e) eqn:E; cbn; [now rewrite E | reflexivity].
  - unfold SimulationEngine.intervalTick, SimulationEngine.pause. cbn.
    now rewrite andb_false_r.
  - reflexivity.
  - intros reason details failed. split; [reflexivity|].
    unfold SimulationEngine.intervalTick.
    destruct (SimulationEngine.running failed && negb (SimulationEngine.paused failed));
      [|reflexivity].
    unfold SimulationEngine.updateSimulation.
    assert (SimulationEngine.gameOver failed = true) as ->; [|reflexivity].
    subst failed. unfold SimulationEngine.resume, SimulationEngine.triggerGameOver.
    destruct (SimulationEngine.gameOver e) eqn:E; cbn; [exact E | reflexivity].
Qed.

(** ** Casing and wellbore collapse *)

Lemma notOver_frame (e e' : SimulationEngine.t) :
  SimulationEngine.gameOver e' = SimulationEngine.gameOver e -> notOver e -> notOver e'.
Proof. unfold notOver. intros ->. trivial. Qed.

Lemma collapseOnlyIf_frame (e e' : SimulationEngine.t) :
  (SimulationEngine.gameOver e', SimulationEngine.gameOverReason e',
   CurrentData.bitDepth (SimulationEngine.currentData e'), SimulationEngine.casingDepth e',
   SimulationEngine.simulationTime e', SimulationEngine.lastCasingRun e')
  = (SimulationEngine.gameOver e, SimulationEngine.gameOverReason e,
     CurrentData.bitDepth (SimulationEngine.currentData e), SimulationEngine.casingDepth e,
     SimulationEngine.simulationTime e, SimulationEngine.lastCasingRun e) ->
  collapseOnlyIf e -> collapseOnlyIf e'.
Proof. unfold collapseOnlyIf. intros [= -> -> -> -> -> ->]. trivial. Qed.

Ltac alive_step := step_with notOver notOver_frame.
Ltac collapse_step := step_with collapseOnlyIf collapseOnlyIf_frame.

Lemma checkFormationTransition_alive env depth e :
  notOver e -> notOver (SimulationEngine.checkFormationTransition env depth e).
Proof.
  intros H. cbv beta delta [SimulationEngine.checkFormationTransition].
  repeat alive_step.
Qed.

Lemma checkKick_alive env fp e : notOver e -> notOver (SimulationEngine.checkKick env fp e).
Proof. intros H. cbv beta delta [SimulationEngine.checkKick]. repeat alive_step. Qed.

Lemma checkLostCirculation_alive env fp e :
  notOver e -> notOver (SimulationEngine.checkLostCirculation env fp e).
Proof.
  intros H. cbv beta delta [SimulationEngine.checkLostCirculation]. repeat alive_step.
Qed.

Lemma notOver_collapseOnlyIf e : notOver e -> collapseOnlyIf e.
Proof. unfold notOver, collapseOnlyIf. intros -> [=]. Qed.

(** A failure raised for another reason is no collapse. *)
Lemma triggerGameOver_other env reason details e :
  notOver e -> reason <> "Wellbore Collapse" ->
  collapseOnlyIf (SimulationEngine.triggerGameOver env reason details e).
Proof.
  intros H Hr. unfold SimulationEngine.triggerGameOver. rewrite H.
  intros _ Hc. cbn in Hc. contradiction.
Qed.

Lemma checkGasInflux_collapse env fp e :
  notOver e ->
  if snd (SimulationEngine.checkGasInflux env fp e)
  then collapseOnlyIf (fst (SimulationEngine.checkGasInflux env fp e))
  else notOver (fst (SimulationEngine.checkGasInflux env fp e)).
Proof.
  intros H. unfold SimulationEngine.checkGasInflux.
  repeat match goal with
         | |- context [if ?c then _ else _] =>
             lazymatch c with
             | snd _ => fail
             | _ => destruct c
             end
         end;
    cbn [fst snd];
    repeat match goal with
           | |- collapseOnlyIf (SimulationEngine.triggerGameOver _ _ _ _) =>
               apply triggerGameOver_other; [|discriminate]
           | _ => alive_step
           end.
Qed.

Lemma checkGameOverConditions_collapse env fp e :
  notOver e -> collapseOnlyIf (SimulationEngine.checkGameOverConditions env fp e).
Proof.
  intros H. cbv beta delta [SimulationEngine.checkGameOverConditions].
  pose proof (checkGasInflux_collapse env fp e H) as Hgas.
  destruct (SimulationEngine.checkGasInflux env fp e) as [e1 returned].
  cbn [fst snd] in Hgas. cbv beta iota zeta.
  repeat match goal with
         | |- collapseOnlyIf
                (if (Qlt_bool 1500 ?x && (1000 <? ?y)%Z && ?u)%bool then _ else _) =>
             let E := fresh "E" in
             destruct (Qlt_bool 1500 x && (1000 <? y)%Z && u)%bool eqn:E
         | |- collapseOnlyIf (if ?c then _ else _) => destruct c
         | |- collapseOnlyIf (SimulationEngine.triggerGameOver _ "Wellbore Collapse" _ _) =>
             idtac
         | |- collapseOnlyIf (SimulationEngine.triggerGameOver _ _ _ _) =>
             apply triggerGameOver_other; [assumption | discriminate]
         | |- collapseOnlyIf ?x => first [assumption | apply notOver_collapseOnlyIf; assumption]
         end.
  apply andb_true_iff in E. destruct E as [E _].
  apply andb_true_iff in E. destruct E as [Hd Ht].
  apply Qlt_bool_iff in Hd. apply Z.ltb_lt in Ht.
  unfold SimulationEngine.triggerGameOver. rewrite Hgas.
  intros _ _. cbn. split; assumption.
Qed.

Lemma updateEquipmentStatus_collapse env e :
  collapseOnlyIf e -> collapseOnlyIf (SimulationEngine.updateEquipmentStatus env e).
Proof.
  intros H. cbv beta delta [SimulationEngine.updateEquipmentStatus].
  repeat collapse_step.
Qed.

Lemma checkTrippingOperations_collapse env e :
  collapseOnlyIf e -> collapseOnlyIf (SimulationEngine.checkTrippingOperations env e).
Proof.
  intros H. cbv beta delta [SimulationEngine.checkTrippingOperations].
  repeat collapse_step.
Qed.

Lemma createCheckpoint_collapse env automatic e :
  collapseOnlyIf e ->
  collapseOnlyIf (snd (SimulationEngine.createCheckpoint env automatic e)).
Proof.
  intros H. unfold SimulationEngine.createCheckpoint. cbn [snd].
  destruct automatic; cbn [negb]; repeat collapse_step.
Qed.

Lemma addToLogs_collapse env e :
  collapseOnlyIf e -> collapseOnlyIf (SimulationEngine.addToLogs env e).
Proof. intros H. cbv beta delta [SimulationEngine.addToLogs]. repeat collapse_step. Qed.

Lemma checkKickHandling_collapse env e :
  collapseOnlyIf e -> collapseOnlyIf (SimulationEngine.checkKickHandling env e).
Proof.
  intros H. cbv beta delta [SimulationEngine.checkKickHandling]. repeat collapse_step.
Qed.

Ltac alive_calls :=
  repeat match goal with
         | |- notOver (SimulationEngine.checkFormationTransition _ _ _) =>
             apply checkFormationTransition_alive
         | |- notOver (SimulationEngine.checkForEvents _ _ _) =>
             apply checkLostCirculation_alive, checkKick_alive
         | _ => alive_step
         end.

Ltac collapse_calls :=
  repeat match goal with
         | |- collapseOnlyIf (SimulationEngine.updateEquipmentStatus _ _) =>
             apply updateEquipmentStatus_collapse
         | |- collapseOnlyIf (SimulationEngine.checkTrippingOperations _ _) =>
             apply checkTrippingOperations_collapse
         | |- collapseOnlyIf (snd (SimulationEngine.createCheckpoint _ _ _)) =>
             apply createCheckpoint_collapse
         | |- collapseOnlyIf (SimulationEngine.addToLogs _ _) => apply addToLogs_collapse
         | |- collapseOnlyIf (SimulationEngine.checkKickHandling _ _) =>
             apply checkKickHandling_collapse
         | _ => collapse_step
         end.

Lemma updateSimulation_collapse env e :
  notOver e -> collapseOnlyIf (SimulationEngine.updateSimulation env e).
Proof.
  intros H. cbv beta delta [SimulationEngine.updateSimulation].
  unfold notOver in H. rewrite H. fold (notOver e) in H.
  repeat match goal with
         | |- collapseOnlyIf
                (let x := SimulationEngine.checkGameOverConditions _ _ _ in _) => fail 1
         | _ => phase_step notOver collapseOnlyIf alive_calls
         end.
  match goal with
  | |- collapseOnlyIf
         (let x := SimulationEngine.checkGameOverConditions env ?fp ?y in @?k x) =>
      cut (collapseOnlyIf (SimulationEngine.checkGameOverConditions env fp y));
      [ generalize (SimulationEngine.checkGameOverConditions env fp y);
        intros e' H'; change (collapseOnlyIf (k e')); cbv beta
      | apply checkGameOverConditions_collapse; assumption ]
  end.
  collapse_calls.
Qed.

(** What [n] ticks after a casing run at tick [L] keep. *)
Lemma ticks_grace (L : Z) (envs : list Env.t) :
  forall (n : nat) (e : SimulationEngine.t),
    SimulationEngine.lastCasingRun e = L ->
    (SimulationEngine.simulationTime e <= L + Z.of_nat n)%Z ->
    (SimulationEngine.gameOver e = true ->
     SimulationEngine.gameOverReason e <> "Wellbore Collapse") ->
    (n + length envs <= 1000)%nat ->
    SimulationEngine.gameOver (SimulationEngine.ticks envs e) = true ->
    SimulationEngine.gameOverReason (SimulationEngine.ticks envs e) <> "Wellbore Collapse".
Proof.
  induction envs as [|env envs IH]; intros n e HL Ht Hr Hn.
  - exact Hr.
  - cbn [SimulationEngine.ticks fold_left]. cbn [length] in Hn.
    apply (IH (S n)).
    + destruct (SimulationEngine.gameOver e) eqn:Hover.
      * unfold SimulationEngine.updateSimulation. now rewrite Hover.
      * destruct (updateSimulation_during env e Hover) as [Hs _].
        unfold settings in Hs. cbn in Hs. injection Hs as _ _ _ _ _ _ _ _ _ _ Hl _ _ _.
        now rewrite Hl.
    + destruct (SimulationEngine.gameOver e) eqn:Hover.
      * unfold SimulationEngine.updateSimulation. rewrite Hover. lia.
      * destruct (updateSimulation_during env e Hover) as [Hs _].
        unfold settings in Hs. cbn in Hs. injection Hs as _ _ _ _ _ _ _ Hst _ _ _ _ _ _.
        rewrite Hst. lia.
    + destruct (SimulationEngine.gameOver e) eqn:Hover.
      * unfold SimulationEngine.updateSimulation. rewrite Hover. intros _. now apply Hr.
      * intros Hover' Hc.
        destruct (updateSimulation_collapse env e Hover Hover' Hc) as [_ Hlate].
        destruct (updateSimulation_during env e Hover) as [Hs _].
        unfold settings in Hs. cbn in Hs.
        injection Hs as _ _ _ _ _ _ _ Hst _ _ Hl _ _ _.
        rewrite Hst, Hl in Hlate. lia.
    + lia.
Qed.

(** X25. Wellbore collapse and casing. A tick of an engine that is not
    over ends in the failure "Wellbore Collapse" only with the bit more
    than 1500 ft below the casing depth and more than 1000 ticks after
    the last casing run; so in the 1000 ticks that follow [runCasing] no
    tick ends in that failure, whatever the controls, the formation and
    the random draws are. *)
Theorem X25_casing_run_defers_wellbore_collapse
    (env : Env.t) (envs : list Env.t) (e : SimulationEngine.t) :
  SimulationEngine.isGameOver e = false ->
  (let e' := SimulationEngine.updateSimulation env e in
   SimulationEngine.isGameOver e' = true ->
   SimulationEngine.getGameOverReason e' = "Wellbore Collapse" ->
   1500 < CurrentData.bitDepth (SimulationEngine.getCurrentData e')
          - SimulationEngine.casingDepth e
   /\ (1000 < SimulationEngine.simulationTime e + 1 - SimulationEngine.lastCasingRun e)%Z)
  /\ ((length envs <= 1000)%nat ->
      let e' := SimulationEngine.ticks envs (SimulationEngine.runCasing env e) in
      SimulationEngine.isGameOver e' = true ->
      SimulationEngine.getGameOverReason e' <> "Wellbore Collapse").
Proof.
  intros Hover. split.
  - intros e' Hover' Hc.
    destruct (updateSimulation_collapse env e Hover Hover' Hc) as [Hdeep Hlate].
    destruct (updateSimulation_during env e Hover) as [Hs _].
    unfold settings in Hs. cbn in Hs.
    injection Hs as _ _ _ _ _ _ _ Hst _ Hcd Hl _ _ _.
    fold e' in Hst, Hcd, Hl, Hdeep, Hlate.
    rewrite Hst, Hl in Hlate. rewrite Hcd in Hdeep.
    split; assumption.
  - intros Hn e'.
    apply (ticks_grace (SimulationEngine.simulationTime e) envs 0).
    + reflexivity.
    + cbn. lia.
    + cbn. unfold SimulationEngine.isGameOver in Hover. rewrite Hover. discriminate.
    + cbn. lia.
Qed.

Lemma X25_witness :
  SimulationEngine.isGameOver mudWeight13 = false
  /\ (SimulationEngine.isGameOver
        (SimulationEngine.ticks [sampleEnv; sampleEnv]
           (SimulationEngine.runCasing sampleEnv mudWeight13))
      = true ->
      SimulationEngine.getGameOverReason
        (SimulationEngine.ticks [sampleEnv; sampleEnv]
           (SimulationEngine.runCasing sampleEnv mudWeight13))
      <> "Wellbore Collapse").
Proof.
  split; [reflexivity|].
  destruct (X25_casing_run_defers_wellbore_collapse sampleEnv [sampleEnv; sampleEnv]
              mudWeight13) as [_ H].
  - reflexivity.
  - apply H. cbn. lia.
Defined.

(** ** The risk score *)

(** The properties object of a depth never carries a kick risk: neither
    the default object nor the one that [getPropertiesAtDepth] builds has
    the field. *)
Lemma formationProps_no_kickRisk (e : SimulationEngine.t) (d : Q) :
  Props.kickRisk (SimulationEngine.getFormationPropertiesAtDepth e d) = None.
Proof.
  unfold SimulationEngine.getFormationPropertiesAtDepth.
  destruct (SimulationEngine.formation e); [|reflexivity].
  unfold FormationModel.getPropertiesAtDepth.
  now destruct (FormationModel.getLayerAtDepth _ _).
Qed.

Lemma raise_scoreOK (candidate : Q) (type : string) (acc : Q * option string) :
  scoreOK acc -> candidate <= 100 -> (type = "kick" -> candidate <= 76) ->
  scoreOK (SimulationEngine.raise candidate type acc).
Proof.
  intros [[H0 H100] [Hnone [Hsome Hkick]]] Hc Hk. unfold SimulationEngine.raise.
  destruct (Qlt_bool (fst acc) candidate) eqn:E.
  - apply Qlt_bool_iff in E. unfold scoreOK. cbn [fst snd]. repeat split.
    + lra.
    + exact Hc.
    + discriminate.
    + intros _. lra.
    + intros [= ->]. now apply Hk.
  - repeat split; assumption.
Qed.

Lemma riskScore_scoreOK (e : SimulationEngine.t) : scoreOK (SimulationEngine.riskScore e).
Proof.
  unfold SimulationEngine.riskScore. rewrite formationProps_no_kickRisk.
  repeat match goal with
         | |- scoreOK (if ?c then _ else _) => destruct c
         | |- scoreOK (SimulationEngine.raise _ _ _) => apply raise_scoreOK
         | |- scoreOK (0, None) =>
             unfold scoreOK; cbn [fst snd]; repeat split;
             first [lra | discriminate | congruence]
         | |- Math_min 100 _ <= 100 => apply Math_min_le_l
         | |- _ = "kick" -> _ => first [discriminate | intros _]
         end.
  all: match goal with
       | |- context [Math_min 100 ?x] =>
           pose proof (Math_min_le_l 100 x); generalize dependent (Math_min 100 x); intros
       end; cbn [orDefault]; lra.
Qed.

(** X26. The risk score. The level that [getRiskLevel] returns lies
    between 0 and 100; its type is null exactly when the level is 0. The
    properties object of a depth carries no kick risk, so the formation
    factor of the kick score is always the fallback 0.2: a level of type
    kick is at most 76, and [getRiskLevel] never raises the failure
    "Uncontrolled Kick". *)
Theorem X26_risk_level_range (env : Env.t) (e : SimulationEngine.t) (d : Q) :
  let r := fst (SimulationEngine.getRiskLevel env e) in
  let e' := snd (SimulationEngine.getRiskLevel env e) in
  Props.kickRisk (SimulationEngine.getFormationPropertiesAtDepth e d) = None
  /\ 0 <= SimulationEngine.RiskLevel.level r
  /\ SimulationEngine.RiskLevel.level r <= 100
  /\ (SimulationEngine.RiskLevel.type r = None <-> SimulationEngine.RiskLevel.level r == 0)
  /\ (SimulationEngine.RiskLevel.type r = Some "kick" ->
      SimulationEngine.RiskLevel.level r <= 76)
  /\ (SimulationEngine.isGameOver e = false ->
      SimulationEngine.isGameOver e' = true ->
      SimulationEngine.RiskLevel.level r == 100
      /\ SimulationEngine.getGameOverReason e' <> "Uncontrolled Kick").
Proof.
  intros r e'. split; [apply formationProps_no_kickRisk|].
  pose proof (riskScore_scoreOK e) as [[H0 H100] [Hnone [Hsome Hkick]]].
  assert (SimulationEngine.RiskLevel.level r = fst (SimulationEngine.riskScore e)
          /\ SimulationEngine.RiskLevel.type r = snd (SimulationEngine.riskScore e))
    as [Hl Ht].
  { subst r. unfold SimulationEngine.getRiskLevel.
    destruct (SimulationEngine.riskScore e). split; reflexivity. }
  rewrite Hl, Ht.
  split; [exact H0|]. split; [exact H100|]. split; [|split; [exact Hkick|]].
  - split.
    + intros Hn. rewrite (Hnone Hn). reflexivity.
    + intros Hz. destruct (snd (SimulationEngine.riskScore e)) eqn:E; [|reflexivity].
      assert (0 < fst (SimulationEngine.riskScore e)) by (apply Hsome; discriminate).
      lra.
  - intros Hover Hover'. subst e'. revert Hover'.
    unfold SimulationEngine.getRiskLevel.
    destruct (SimulationEngine.riskScore e) as [level type]. cbn [fst snd] in *.
    unfold SimulationEngine.isGameOver in *.
    match goal with
    | |- context [SimulationEngine.set_riskDecaying ?b (SimulationEngine.set_lastRiskLevel ?l ?x)] =>
        set (st := x)
    end.
    assert (SimulationEngine.gameOver st = false) as Hx.
    { subst st.
      repeat match goal with
             | |- context [if ?c then _ else _] => destruct c
             end; exact Hover. }
    clearbody st.
    cbn [SimulationEngine.gameOver SimulationEngine.set_riskDecaying
         SimulationEngine.set_lastRiskLevel].
    rewrite Hx. cbn [negb]. rewrite andb_true_r.
    destruct (Qle_bool 100 level) eqn:E.
    + apply Qle_bool_iff in E. intros _. split; [lra|].
      destruct (SimulationEngine.riskFailure type) as [reason details] eqn:Ef.
      cbn [snd]. unfold SimulationEngine.triggerGameOver.
      cbn [SimulationEngine.gameOver SimulationEngine.set_riskDecaying
           SimulationEngine.set_lastRiskLevel].
      rewrite Hx. cbn. intros ->.
      assert (type = Some "kick") as Hk.
      { unfold SimulationEngine.riskFailure in Ef.
        repeat case_bool_decide; try discriminate Ef. assumption. }
      specialize (Hkick Hk). lra.
    + cbn [snd fst]. cbn. rewrite Hx. discriminate.
Qed.

(** ** Handled kicks *)

Lemma tallyIs_frame g (e e' : SimulationEngine.t) :
  (SimulationEngine.previousGasLevel e', SimulationEngine.kicksHandled e',
   SimulationEngine.controls e')
  = (SimulationEngine.previousGasLevel e, SimulationEngine.kicksHandled e,
     SimulationEngine.controls e) ->
  tallyIs g e -> tallyIs g e'.
Proof. unfold tallyIs. intros ->. trivial. Qed.

Ltac tally_step g := step_with (tallyIs g) (tallyIs_frame g).

Lemma checkFormationTransition_tally g env depth e :
  tallyIs g e -> tallyIs g (SimulationEngine.checkFormationTransition env depth e).
Proof.
  intros H. cbv beta delta [SimulationEngine.checkFormationTransition].
  repeat tally_step g.
Qed.

Lemma checkKick_tally g env fp e :
  tallyIs g e -> tallyIs g (SimulationEngine.checkKick env fp e).
Proof. intros H. cbv beta delta [SimulationEngine.checkKick]. repeat tally_step g. Qed.

Lemma checkLostCirculation_tally g env fp e :
  tallyIs g e -> tallyIs g (SimulationEngine.checkLostCirculation env fp e).
Proof.
  intros H. cbv beta delta [SimulationEngine.checkLostCirculation].
  repeat tally_step g.
Qed.

Lemma triggerGameOver_tally g env reason details e :
  tallyIs g e -> tallyIs g (SimulationEngine.triggerGameOver env reason details e).
Proof.
  intros H. cbv beta delta [SimulationEngine.triggerGameOver]. repeat tally_step g.
Qed.

Lemma checkGasInflux_tally g env fp e :
  tallyIs g e -> tallyIs g (fst (SimulationEngine.checkGasInflux env fp e)).
Proof.
  intros H. unfold SimulationEngine.checkGasInflux.
  repeat match goal with
         | |- context [if ?c then _ else _] => destruct c
         end;
    cbn [fst];
    repeat match goal with
           | |- tallyIs g (SimulationEngine.triggerGameOver _ _ _ _) =>
               apply triggerGameOver_tally
           | _ => tally_step g
           end.
Qed.

Lemma checkGameOverConditions_tally g env fp e :
  tallyIs g e -> tallyIs g (SimulationEngine.checkGameOverConditions env fp e).
Proof.
  intros H. cbv beta delta [SimulationEngine.checkGameOverConditions].
  pose proof (checkGasInflux_tally g env fp e H) as Hgas.
  destruct (SimulationEngine.checkGasInflux env fp e) as [e1 returned].
  cbn [fst] in Hgas. cbv beta iota zeta.
  repeat match goal with
         | |- tallyIs g (if ?c then _ else _) => destruct c
         | |- tallyIs g (SimulationEngine.triggerGameOver _ _ _ _) =>
             apply triggerGameOver_tally
         | _ => assumption
         end.
Qed.

Lemma updateEquipmentStatus_tally g env e :
  tallyIs g e -> tallyIs g (SimulationEngine.updateEquipmentStatus env e).
Proof.
  intros H. cbv beta delta [SimulationEngine.updateEquipmentStatus].
  repeat tally_step g.
Qed.

Lemma checkTrippingOperations_tally g env e :
  tallyIs g e -> tallyIs g (SimulationEngine.checkTrippingOperations env e).
Proof.
  intros H. cbv beta delta [SimulationEngine.checkTrippingOperations].
  repeat tally_step g.
Qed.

Lemma createCheckpoint_tally g env automatic e :
  tallyIs g e -> tallyIs g (snd (SimulationEngine.createCheckpoint env automatic e)).
Proof.
  intros H. unfold SimulationEngine.createCheckpoint. cbn [snd].
  destruct automatic; cbn [negb]; repeat tally_step g.
Qed.

Lemma addToLogs_tally g env e :
  tallyIs g e -> tallyIs g (SimulationEngine.addToLogs env e).
Proof. intros H. cbv beta delta [SimulationEngine.addToLogs]. repeat tally_step g. Qed.

Ltac tally_calls g :=
  repeat match goal with
         | |- tallyIs g (SimulationEngine.checkFormationTransition _ _ _) =>
             apply checkFormationTransition_tally
         | |- tallyIs g (SimulationEngine.checkForEvents _ _ _) =>
             apply checkLostCirculation_tally, checkKick_tally
         | |- tallyIs g (SimulationEngine.checkGameOverConditions _ _ _) =>
             apply checkGameOverConditions_tally
         | |- tallyIs g (SimulationEngine.updateEquipmentStatus _ _) =>
             apply updateEquipmentStatus_tally
         | |- tallyIs g (SimulationEngine.checkTrippingOperations _ _) =>
             apply checkTrippingOperations_tally
         | |- tallyIs g (snd (SimulationEngine.createCheckpoint _ _ _)) =>
             apply createCheckpoint_tally
         | |- tallyIs g (SimulationEngine.addToLogs _ _) => apply addToLogs_tally
         | _ => tally_step g
         end.

(** The last step of a tick, from the tally before it. *)
Lemma checkKickHandling_tally env e p k c :
  tallyIs (p, k, c) e ->
  let e' := SimulationEngine.checkKickHandling env e in
  SimulationEngine.previousGasLevel e'
  = CurrentData.gasLevel (SimulationEngine.currentData e')
  /\ SimulationEngine.kicksHandled e'
     = (if Qlt_bool 3 p
           && Qlt_bool (CurrentData.gasLevel (SimulationEngine.currentData e')) p
           && String.eqb (Controls.bopStatus c) "closed"
        then S k else k).
Proof.
  unfold tallyIs. intros [= <- <- <-]. unfold SimulationEngine.checkKickHandling.
  destruct (Qlt_bool 3 (SimulationEngine.previousGasLevel e)
            && Qlt_bool (CurrentData.gasLevel (SimulationEngine.currentData e))
                 (SimulationEngine.previousGasLevel e)
            && String.eqb (Controls.bopStatus (SimulationEngine.controls e)) "closed")
    eqn:E; cbn; rewrite E; split; reflexivity.
Qed.

(** X27. Counting handled kicks. After a tick of an engine that is not
    over the stored previous gas level is the gas level of the current
    data, and the count of handled kicks has gone up by one exactly when
    the gas level stored by the tick before was above 3, the gas level
    is now below it and the preventer control is closed; no other step
    of the tick touches the count. *)
Theorem X27_kicks_handled_per_tick (env : Env.t) (e : SimulationEngine.t) :
  SimulationEngine.isGameOver e = false ->
  let e' := SimulationEngine.updateSimulation env e in
  let gas' := CurrentData.gasLevel (SimulationEngine.getCurrentData e') in
  SimulationEngine.previousGasLevel e' = gas'
  /\ SimulationEngine.getKicksHandled e'
     = (if Qlt_bool 3 (SimulationEngine.previousGasLevel e)
           && Qlt_bool gas' (SimulationEngine.previousGasLevel e)
           && String.eqb (Controls.bopStatus (SimulationEngine.controls e)) "closed"
        then S (SimulationEngine.getKicksHandled e)
        else SimulationEngine.getKicksHandled e).
Proof.
  intros Hover.
  set (g := (SimulationEngine.previousGasLevel e, SimulationEngine.kicksHandled e,
             SimulationEngine.controls e)).
  assert (tallyIs g e) as H by reflexivity.
  unfold SimulationEngine.getKicksHandled, SimulationEngine.getCurrentData.
  set (Post := fun x : SimulationEngine.t =>
              let gas' := CurrentData.gasLevel (SimulationEngine.currentData x) in
              SimulationEngine.previousGasLevel x = gas'
              /\ SimulationEngine.kicksHandled x
                 = (if Qlt_bool 3 (SimulationEngine.previousGasLevel e)
                       && Qlt_bool gas' (SimulationEngine.previousGasLevel e)
                       && String.eqb (Controls.bopStatus (SimulationEngine.controls e))
                            "closed"
                    then S (SimulationEngine.kicksHandled e)
                    else SimulationEngine.kicksHandled e)).
  change (Post (SimulationEngine.updateSimulation env e)).
  cbv beta delta [SimulationEngine.updateSimulation].
  unfold SimulationEngine.isGameOver in Hover. rewrite Hover.
  repeat phase_step (tallyIs g) Post ltac:(tally_calls g).
  subst Post. cbv beta.
  match goal with
  | Hx : tallyIs g ?x |- context [SimulationEngine.checkKickHandling env ?x] =>
      exact (checkKickHandling_tally env x _ _ _ Hx)
  end.
Qed.

Lemma X27_witness :
  SimulationEngine.getKicksHandled (SimulationEngine.updateSimulation sampleEnv mudWeight13)
  = SimulationEngine.getKicksHandled mudWeight13.
Proof.
  destruct (X27_kicks_handled_per_tick sampleEnv mudWeight13) as [_ Hk].
  - reflexivity.
  - exact Hk.
Defined.

(** ** What a tick does not read *)

(** [commute_step Ts T calls]: one step of a proof of [f (Ts e) = T (f e)]
    along the body of [f], where [Ts] is the change of the state and [T]
    the corresponding change of the result of [f]; [calls] closes the
    goals that are calls of functions already shown to commute. *)
Ltac commute_step Ts T calls :=
  lazymatch goal with
  | |- (let x := ?a1 in @?b1 x) = T (let y := ?a2 in @?b2 y) =>
      let ty := type of a2 in
      lazymatch ty with
      | SimulationEngine.t =>
          let H := fresh "H" in
          let z := fresh "e" in
          assert (a1 = Ts a2) as H;
          [ repeat commute_step Ts Ts calls
          | change (b1 a1 = T (b2 a2)); rewrite H; clear H;
            generalize a2; intros z; cbv beta ]
      | _ => change (b1 a2 = T (b2 a2)); cbv beta
      end
  | |- (if ?c1 then _ else _) = T (if ?c2 then _ else _) =>
      change c1 with c2; destruct c2
  | |- match ?c1 with Some _ => _ | None => _ end
       = T (match ?c2 with Some _ => _ | None => _ end) =>
      change c1 with c2; destruct c2
  | |- _ = T _ => first [calls | reflexivity]
  end.

Section Unread.
Variables (m : bool) (s : Q).

Lemma addTimelineEvent_unread env type description severity parameters e :
  SimulationEngine.addTimelineEvent env type description severity parameters (unread m s e)
  = unread m s
      (SimulationEngine.addTimelineEvent env type description severity parameters e).
Proof. reflexivity. Qed.

Ltac unread_steps calls := repeat commute_step (unread m s) (unread m s) calls.

Ltac timeline_call := apply addTimelineEvent_unread.

Lemma checkFormationTransition_unread env depth e :
  SimulationEngine.checkFormationTransition env depth (unread m s e)
  = unread m s (SimulationEngine.checkFormationTransition env depth e).
Proof.
  cbv beta delta [SimulationEngine.checkFormationTransition].
  unread_steps timeline_call.
Qed.

Lemma checkKick_unread env fp e :
  SimulationEngine.checkKick env fp (unread m s e)
  = unread m s (SimulationEngine.checkKick env fp e).
Proof. cbv beta delta [SimulationEngine.checkKick]. unread_steps timeline_call. Qed.

Lemma checkLostCirculation_unread env fp e :
  SimulationEngine.checkLostCirculation env fp (unread m s e)
  = unread m s (SimulationEngine.checkLostCirculation env fp e).
Proof.
  cbv beta delta [SimulationEngine.checkLostCirculation]. unread_steps timeline_call.
Qed.

Lemma checkForEvents_unread env fp e :
  SimulationEngine.checkForEvents env fp (unread m s e)
  = unread m s (SimulationEngine.checkForEvents env fp e).
Proof.
  unfold SimulationEngine.checkForEvents.
  now rewrite checkKick_unread, checkLostCirculation_unread.
Qed.

Lemma triggerGameOver_unread env reason details e :
  SimulationEngine.triggerGameOver env reason details (unread m s e)
  = unread m s (SimulationEngine.triggerGameOver env reason details e).
Proof.
  cbv beta delta [SimulationEngine.triggerGameOver]. unread_steps timeline_call.
Qed.

Lemma checkGasInflux_unread env fp e :
  SimulationEngine.checkGasInflux env fp (unread m s e)
  = unreadFst m s (SimulationEngine.checkGasInflux env fp e).
Proof.
  cbv beta delta [SimulationEngine.checkGasInflux].
  repeat commute_step (unread m s) (unreadFst m s)
    ltac:(unfold unreadFst; cbn [fst snd]; f_equal;
          rewrite <- triggerGameOver_unread; reflexivity).
Qed.

Lemma checkGameOverConditions_unread env fp e :
  SimulationEngine.checkGameOverConditions env fp (unread m s e)
  = unread m s (SimulationEngine.checkGameOverConditions env fp e).
Proof.
  cbv beta delta [SimulationEngine.checkGameOverConditions].
  rewrite checkGasInflux_unread.
  destruct (SimulationEngine.checkGasInflux env fp e) as [e1 returned].
  unfold unreadFst. cbn [fst snd]. cbv beta iota.
  unread_steps ltac:(apply triggerGameOver_unread).
Qed.

Lemma updateEquipmentStatus_unread env e :
  SimulationEngine.updateEquipmentStatus env (unread m s e)
  = unread m s (SimulationEngine.updateEquipmentStatus env e).
Proof.
  cbv beta delta [SimulationEngine.updateEquipmentStatus]. unread_steps fail.
Qed.

Lemma checkTrippingOperations_unread env e :
  SimulationEngine.checkTrippingOperations env (unread m s e)
  = unread m s (SimulationEngine.checkTrippingOperations env e).
Proof.
  cbv beta delta [SimulationEngine.checkTrippingOperations]. unread_steps fail.
Qed.

Lemma createCheckpoint_unread env automatic e :
  SimulationEngine.createCheckpoint env automatic (unread m s e)
  = (fst (SimulationEngine.createCheckpoint env automatic e),
     unread m s (snd (SimulationEngine.createCheckpoint env automatic e))).
Proof.
  unfold SimulationEngine.createCheckpoint. destruct automatic; reflexivity.
Qed.

Lemma addToLogs_unread env e :
  SimulationEngine.addToLogs env (unread m s e)
  = unread m s (SimulationEngine.addToLogs env e).
Proof. reflexivity. Qed.

Lemma checkKickHandling_unread env e :
  SimulationEngine.checkKickHandling env (unread m s e)
  = unread m s (SimulationEngine.checkKickHandling env e).
Proof.
  cbv beta delta [SimulationEngine.checkKickHandling]. unread_steps timeline_call.
Qed.

Ltac tick_calls :=
  first
    [ apply checkFormationTransition_unread
    | apply checkForEvents_unread
    | apply checkGameOverConditions_unread
    | apply updateEquipmentStatus_unread
    | apply checkTrippingOperations_unread
    | apply addToLogs_unread
    | apply checkKickHandling_unread
    | rewrite createCheckpoint_unread; reflexivity ].

Lemma updateSimulation_unread env e :
  SimulationEngine.updateSimulation env (unread m s e)
  = unread m s (SimulationEngine.updateSimulation env e).
Proof.
  cbv beta delta [SimulationEngine.updateSimulation]. unread_steps tick_calls.
Qed.

End Unread.

(** X28. A tick reads neither the training mode nor the speed recorded
    by [startTripping]: changing either before a tick gives the state
    that changing it after the tick gives, so no value that a tick
    computes (data, events, wear, failures, checkpoints, logs) depends
    on them; swab and surge are computed from the measured change of
    depth. *)
Theorem X28_tick_ignores_training_mode_and_tripping_speed
    (env : Env.t) (mode : bool) (speed : Q) (e : SimulationEngine.t) :
  let changed (x : SimulationEngine.t) :=
    SimulationEngine.setTrainingMode mode
      (SimulationEngine.set_trippingStatus
         (TrippingStatus.set_speed speed (SimulationEngine.trippingStatus x)) x) in
  SimulationEngine.updateSimulation env (changed e)
  = changed (SimulationEngine.updateSimulation env e)
  /\ SimulationEngine.getCurrentData (SimulationEngine.updateSimulation env (changed e))
     = SimulationEngine.getCurrentData (SimulationEngine.updateSimulation env e)
  /\ SimulationEngine.isGameOver (SimulationEngine.updateSimulation env (changed e))
     = SimulationEngine.isGameOver (SimulationEngine.updateSimulation env e).
Proof.
  intros changed.
  assert (SimulationEngine.updateSimulation env (changed e)
          = changed (SimulationEngine.updateSimulation env e)) as H
    by apply (updateSimulation_unread mode speed env e).
  split; [exact H|]. rewrite H. split; reflexivity.
Qed.

(** ** Scenarios *)

(** A list in order of depth is left as it is by the sort. *)
Lemma sortByDepth_sorted_id (ls : list Layer.t) :
  Sorted Qle (map Layer.depth ls) -> FormationModel.sortByDepth ls = ls.
Proof.
  unfold FormationModel.sortByDepth.
  induction ls as [|x l IH]; cbn; [reflexivity|].
  intros H. inversion H as [|? ? Hl Hx]; subst. rewrite (IH Hl).
  destruct l as [|y rest]; cbn; [reflexivity|].
  inversion Hx as [|? ? Hxy]; subst.
  apply Qle_bool_iff in Hxy. now rewrite Hxy.
Qed.

Lemma findIndex_unique_name (ls : list Layer.t) (i : nat) (l : Layer.t) (name : string) :
  NoDup (map Layer.name ls) -> ls !! i = Some l -> Layer.name l = name ->
  FormationModel.findIndex (fun l' => String.eqb (Layer.name l') name) ls = Some i.
Proof.
  intros Hnd Hi <-. revert i Hnd Hi.
  induction ls as [|h rest IH]; intros i Hnd Hi; [discriminate Hi|].
  cbn in Hnd. apply NoDup_cons in Hnd. destruct Hnd as [Hh Hrest]. cbn.
  destruct i as [|i]; cbn in Hi.
  - injection Hi as ->. now rewrite String.eqb_refl.
  - destruct (String.eqb (Layer.name h) (Layer.name l)) eqn:E.
    + apply String.eqb_eq in E. exfalso. apply Hh. rewrite E.
      apply (list_elem_of_fmap_2 Layer.name). now apply list_elem_of_lookup_2 with i.
    + now rewrite (IH i Hrest Hi).
Qed.

Lemma insert_same_keys {A} (f : Layer.t -> A) (ls : list Layer.t) (i : nat)
    (l l' : Layer.t) :
  ls !! i = Some l -> f l' = f l -> map f (<[i := l']> ls) = map f ls.
Proof.
  intros Hi Hf. change (f <$> <[i := l']> ls = f <$> ls).
  rewrite list_fmap_insert, Hf. apply list_insert_id. now rewrite list_lookup_fmap, Hi.
Qed.

(** For a list in order of depth whose names differ, the scenario's
    change of a layer that keeps the name and the depth is a change of
    that entry alone. *)
Lemma changeLayer_spec (index : option nat) (change : Layer.t -> Layer.t)
    (ls : list Layer.t) :
  Sorted Qle (map Layer.depth ls) -> NoDup (map Layer.name ls) ->
  (forall l, Layer.name (change l) = Layer.name l
             /\ Layer.depth (change l) = Layer.depth l) ->
  SimulationEngine.changeLayer index change ls
  = match index with
    | Some i =>
        match ls !! i with
        | Some l => <[i := change l]> ls
        | None => ls
        end
    | None => ls
    end.
Proof.
  intros Hs Hnd Hc. unfold SimulationEngine.changeLayer, FormationModel.t.
  destruct index as [i|]; [|reflexivity].
  destruct (ls !! i) as [l|] eqn:Hi; [|reflexivity].
  destruct (Hc l) as [Hn Hd].
  unfold FormationModel.updateLayer.
  rewrite (findIndex_unique_name (<[i := change l]> ls) i (change l)).
  - cbv beta iota. unfold FormationModel.t. rewrite list_insert_insert_eq.
    apply sortByDepth_sorted_id.
    now rewrite (insert_same_keys Layer.depth ls i l).
  - now rewrite (insert_same_keys Layer.name ls i l).
  - apply list_lookup_insert_eq. now apply lookup_lt_Some with l.
  - reflexivity.
Qed.

Lemma changeLayer_layout (index : option nat) (change : Layer.t -> Layer.t)
    (ls : list Layer.t) :
  Sorted Qle (map Layer.depth ls) -> NoDup (map Layer.name ls) ->
  (forall l, layout (change l) = layout l) ->
  map layout (SimulationEngine.changeLayer index change ls) = map layout ls
  /\ exists i, forall j, j <> i ->
       SimulationEngine.changeLayer index change ls !! j = ls !! j.
Proof.
  intros Hs Hnd Hc.
  rewrite changeLayer_spec; [|assumption|assumption|].
  - destruct index as [i|]; [|split; [reflexivity|now exists 0%nat]].
    destruct (ls !! i) as [l|] eqn:Hi; [|split; [reflexivity|now exists 0%nat]].
    split.
    + now apply insert_same_keys with l.
    + exists i. intros j Hj. now apply list_lookup_insert_ne.
  - intros l. specialize (Hc l). unfold layout in Hc. now injection Hc.
Qed.

(** X29. A scenario keeps the layout of the formation. For a model in
    order of depth whose layers have different names, [loadScenario]
    records the scenario and leaves a model with the same layers by
    name, top, thickness and lithology, in the same order; it changes
    the pressures, permeability or kick risk of at most one layer, and
    of none for a scenario other than kick, lost-circulation, stuck-pipe
    and blowout. *)
Theorem X29_loadScenario_keeps_layout
    (name : string) (ls : list Layer.t) (e : SimulationEngine.t) :
  SimulationEngine.formation e = Some ls ->
  Sorted Qle (map Layer.depth ls) -> NoDup (map Layer.name ls) ->
  let e' := SimulationEngine.loadScenario name e in
  SimulationEngine.scenario e' = name
  /\ exists ls' : list Layer.t,
       SimulationEngine.formation e' = Some ls'
       /\ map layout ls' = map layout ls
       /\ (exists i, forall j, j <> i -> ls' !! j = ls !! j)
       /\ (name <> "kick" -> name <> "lost-circulation" -> name <> "stuck-pipe" ->
           name <> "blowout" -> ls' = ls).
Proof.
  intros Hf Hs Hnd e'. split; [reflexivity|].
  exists (SimulationEngine.scenarioFormation name ls).
  split; [subst e'; unfold SimulationEngine.loadScenario; cbn; now rewrite Hf|].
  unfold SimulationEngine.scenarioFormation.
  repeat match goal with
         | |- context [String.eqb name ?s] =>
             let E := fresh "E" in
             destruct (String.eqb name s) eqn:E;
             [apply String.eqb_eq in E | apply String.eqb_neq in E]
         end;
    try (destruct (changeLayer_layout
                     (FormationModel.findIndex (fun l => Qlt_bool 1500 (Layer.depth l)) ls)
                     (fun l =>
                        Layer.mk (Layer.name l) (Layer.depth l) (Layer.thickness l) 14.0
                          (Layer.fracturePressure l) (Layer.permeability l)
                          (Layer.lithology l) (Some 0.6))
                     ls Hs Hnd (fun l => eq_refl)) as [Hl Hi]);
    try (destruct (changeLayer_layout
                     (FormationModel.findIndex
                        (fun l => Qlt_bool 800 (Layer.depth l)
                                  && Qlt_bool (Layer.depth l) 1500) ls)
                     (fun l =>
                        Layer.mk (Layer.name l) (Layer.depth l) (Layer.thickness l)
                          (Layer.porePressure l) 11.0 (Layer.permeability l)
                          (Layer.lithology l) (Layer.kickRisk l))
                     ls Hs Hnd (fun l => eq_refl)) as [Hl2 Hi2]);
    try (destruct (changeLayer_layout
                     (FormationModel.findIndex (fun l => Qlt_bool 1000 (Layer.depth l)) ls)
                     (fun l =>
                        Layer.mk (Layer.name l) (Layer.depth l) (Layer.thickness l) 8.0
                          (Layer.fracturePressure l) 0.001 (Layer.lithology l)
                          (Layer.kickRisk l))
                     ls Hs Hnd (fun l => eq_refl)) as [Hl3 Hi3]);
    try (destruct (changeLayer_layout (SimulationEngine.deepestIndex ls)
                     (fun l =>
                        Layer.mk (Layer.name l) (Layer.depth l) (Layer.thickness l) 16.0
                          (Layer.fracturePressure l) 0.5 (Layer.lithology l) (Some 0.8))
                     ls Hs Hnd (fun l => eq_refl)) as [Hl4 Hi4]);
    (split; [assumption || reflexivity|]);
    (split; [assumption || (now exists 0%nat)|]);
    try (intros; congruence); reflexivity.
Qed.

Lemma X29_witness :
  SimulationEngine.scenario
    (SimulationEngine.loadScenario "kick"
       (SimulationEngine.setFormation (Some FormationModel.initializeDefaultLayers)
          SimulationEngine.constructor))
  = "kick".
Proof.
  destruct (X29_loadScenario_keeps_layout "kick"
              (map SimulationEngine.backfillKickRisk FormationModel.initializeDefaultLayers)
              (SimulationEngine.setFormation (Some FormationModel.initializeDefaultLayers)
                 SimulationEngine.constructor)) as [H _].
  - reflexivity.
  - cbn. repeat constructor; unfold Qle; cbn; lia.
  - cbn.
    repeat (apply NoDup_cons; split;
            [ intros H;
              repeat (apply elem_of_cons in H; destruct H as [H|H]; [discriminate H|]);
              now apply elem_of_nil in H
            | ]).
    apply NoDup_nil_2.
  - exact H.
Defined.

(** ** Formation transitions *)

(** X30. Entering a layer is logged once. [checkFormationTransition]
    adds at most one transition; calling it again at the same depth
    changes nothing more, so staying in a layer logs no further
    transition; without a formation model it does nothing at all. *)
Theorem X30_formation_transition_logged_once
    (env env' : Env.t) (depth : Q) (e : SimulationEngine.t) :
  let e' := SimulationEngine.checkFormationTransition env depth e in
  SimulationEngine.checkFormationTransition env' depth e' = e'
  /\ (exists added,
        SimulationEngine.formationTransitions e'
        = SimulationEngine.formationTransitions e ++ added
        /\ (length added <= 1)%nat)
  /\ (SimulationEngine.formation e = None -> e' = e).
Proof.
  intros e'. subst e'. unfold SimulationEngine.checkFormationTransition.
  destruct (SimulationEngine.formation e) as [f|] eqn:Hf.
  - destruct (FormationModel.getLayerAtDepth f depth) as [cl|] eqn:Hl.
    + destruct (SimulationEngine.currentFormation e) as [c|] eqn:Hc.
      * destruct (String.eqb (Layer.name c) (Layer.name cl)) eqn:E; cbn [negb].
        -- split; [|split; [|discriminate]].
           ++ cbn. rewrite Hf, Hl, Hc, E. reflexivity.
           ++ exists []. split; [now rewrite app_nil_r | cbn; lia].
        -- split; [|split; [|discriminate]].
           ++ cbn. rewrite Hf, Hl, String.eqb_refl. reflexivity.
           ++ eexists [_]. cbn. split; [reflexivity|lia].
      * split; [|split; [|discriminate]].
        -- cbn. rewrite Hf, Hl, String.eqb_refl. reflexivity.
        -- eexists [_]. cbn. split; [reflexivity|lia].
    + split; [|split; [|discriminate]].
      * cbn. rewrite Hf, Hl. reflexivity.
      * exists []. split; [now rewrite app_nil_r | cbn; lia].
  - split; [|split; [|reflexivity]].
    + now rewrite Hf.
    + exists []. split; [now rewrite app_nil_r | cbn; lia].
Qed.

(** ** Terminal state *)

Lemma isOver_frame (e e' : SimulationEngine.t) :
  SimulationEngine.gameOver e' = SimulationEngine.gameOver e -> isOver e -> isOver e'.
Proof. unfold isOver. intros ->. trivial. Qed.

Ltac over_step := step_with isOver isOver_frame.

(** Ticks of an engine that is over return at once. *)
Lemma ticks_game_over (e : SimulationEngine.t) (envs : list Env.t) :
  isOver e -> SimulationEngine.ticks envs e = e.
Proof.
  intros Hover. unfold SimulationEngine.ticks.
  induction envs as [|env envs IH]; [reflexivity|].
  simpl. unfold SimulationEngine.updateSimulation at 2.
  rewrite Hover. exact IH.
Qed.

Lemma updateSimulation_game_over env e :
  isOver e -> SimulationEngine.updateSimulation env e = e.
Proof. intros H. unfold SimulationEngine.updateSimulation. now rewrite H. Qed.

Lemma triggerGameOver_over env reason details e :
  isOver e -> isOver (SimulationEngine.triggerGameOver env reason details e).
Proof. intros H. unfold SimulationEngine.triggerGameOver. now rewrite H. Qed.

Lemma logChanges_over env us e :
  isOver e ->
  isOver
    (fold_left
       (fun e u =>
          if Controls.differs (SimulationEngine.controls e) u
          then SimulationEngine.logAction env ("Changed " +:+ Controls.key u)
                 (Controls.value u) e
          else e)
       us e).
Proof.
  revert e. induction us as [|u us IH]; intros e H; [exact H|].
  cbn [fold_left]. apply IH. repeat over_step.
Qed.

Lemma setControls_over env us e :
  isOver e -> isOver (SimulationEngine.setControls env us e).
Proof.
  intros H. cbv beta delta [SimulationEngine.setControls].
  repeat match goal with
         | |- isOver (fold_left _ _ _) => apply logChanges_over
         | _ => over_step
         end.
Qed.

Lemma createCheckpoint_over env automatic e :
  isOver e -> isOver (snd (SimulationEngine.createCheckpoint env automatic e)).
Proof.
  intros H. unfold SimulationEngine.createCheckpoint. cbn [snd].
  destruct automatic; cbn [negb]; repeat over_step.
Qed.

Lemma getRiskLevel_over env e :
  isOver e -> isOver (snd (SimulationEngine.getRiskLevel env e)).
Proof.
  intros H. unfold SimulationEngine.getRiskLevel.
  destruct (SimulationEngine.riskScore e) as [riskLevel riskType].
  destruct (SimulationEngine.riskFailure riskType) as [reason details].
  cbn [snd].
  repeat match goal with
         | |- isOver (SimulationEngine.triggerGameOver _ _ _ _) =>
             apply triggerGameOver_over
         | _ => over_step
         end.
Qed.

(** No operation other than the clearing ones lowers the flag. *)
Lemma apply_over o e :
  isOver e -> clearsGameOver o = false -> isOver (SimulationEngine.apply o e).
Proof.
  intros H Ho. destruct o; try discriminate Ho; cbn [SimulationEngine.apply];
    cbv beta delta [SimulationEngine.start SimulationEngine.pause
                    SimulationEngine.resume SimulationEngine.stop
                    SimulationEngine.setSpeed
                    SimulationEngine.setTrainingMode SimulationEngine.setWellType
                    SimulationEngine.setFormation SimulationEngine.setTargetDepth
                    SimulationEngine.runCasing SimulationEngine.startTripping
                    SimulationEngine.stopTripping
                    SimulationEngine.intervalTick SimulationEngine.refreshData
                    SimulationEngine.refreshLogs SimulationEngine.addToLogs];
    repeat match goal with
           | |- isOver (SimulationEngine.updateSimulation _ ?x) =>
               rewrite (updateSimulation_game_over _ x)
           | |- isOver (SimulationEngine.setControls _ _ _) => apply setControls_over
           | |- isOver (snd (SimulationEngine.createCheckpoint _ _ _)) =>
               apply createCheckpoint_over
           | |- isOver (snd (SimulationEngine.getRiskLevel _ _)) =>
               apply getRiskLevel_over
           | _ => over_step
           end.
Qed.

Lemma run_over ops e :
  isOver e -> forallb (fun o => negb (clearsGameOver o)) ops = true ->
  isOver (SimulationEngine.run ops e).
Proof.
  unfold SimulationEngine.run. revert e.
  induction ops as [|o ops IH]; intros e H Hops; [exact H|].
  cbn [forallb] in Hops. apply andb_true_iff in Hops. destruct Hops as [Ho Hops].
  cbn [fold_left]. apply IH; [|exact Hops].
  apply apply_over; [exact H|]. now apply negb_true_iff in Ho.
Qed.

(** C2 as stated fails: the engine left alone fails at its 18th tick;
    [resetGameOver] (neither [loadCheckpoint] nor [reset]) clears the
    flag, and after [resume] the next timer tick advances the clock. *)
Lemma C2_resetGameOver_lets_ticks_resume :
  SimulationEngine.isGameOver (idleRun 18) = true
  /\ SimulationEngine.simulationTime (idleRun 18) = 18%Z
  /\ SimulationEngine.isGameOver (SimulationEngine.resetGameOver (idleRun 18)) = false
  /\ SimulationEngine.simulationTime
       (SimulationEngine.run
          [SimulationEngine.ResetGameOver; SimulationEngine.Resume;
           SimulationEngine.IntervalTick sampleEnv]
          (idleRun 18))
     = 19%Z.
Proof. split; [|split; [|split]]; vm_compute; reflexivity. Qed.

(** C2, as the code has it. On an engine that is over every simulation
    tick (direct or from the timer) leaves the whole state as it is, and
    this stays so over any sequence of operations that holds none of
    [reset], [loadScenario] (which calls [reset]), [resetGameOver] and
    [loadCheckpoint]: none of the other operations lowers the flag. Each
    of [reset], [loadScenario], [resetGameOver] and a [loadCheckpoint]
    that finds its checkpoint lowers it; a [loadCheckpoint] that finds
    none changes nothing. A tick of an engine whose flag is down advances
    the tick counter by one. *)
Theorem C2_game_over_until_cleared
    (e : SimulationEngine.t) (ops : list SimulationEngine.Op) :
  SimulationEngine.isGameOver e = true ->
  (forall envs, SimulationEngine.ticks envs e = e)
  /\ (forall env, SimulationEngine.intervalTick env e = e)
  /\ (forallb (fun o => negb (clearsGameOver o)) ops = true ->
      SimulationEngine.isGameOver (SimulationEngine.run ops e) = true
      /\ (forall envs,
            SimulationEngine.ticks envs (SimulationEngine.run ops e)
            = SimulationEngine.run ops e)
      /\ (forall env,
            SimulationEngine.intervalTick env (SimulationEngine.run ops e)
            = SimulationEngine.run ops e))
  /\ SimulationEngine.isGameOver (SimulationEngine.reset e) = false
  /\ SimulationEngine.isGameOver (SimulationEngine.resetGameOver e) = false
  /\ (forall name, SimulationEngine.isGameOver (SimulationEngine.loadScenario name e) = false)
  /\ (forall env id,
        (fst (SimulationEngine.loadCheckpoint env id e) = true ->
         SimulationEngine.isGameOver (snd (SimulationEngine.loadCheckpoint env id e)) = false)
        /\ (fst (SimulationEngine.loadCheckpoint env id e) = false ->
            snd (SimulationEngine.loadCheckpoint env id e) = e))
  /\ (forall x env,
        SimulationEngine.isGameOver x = false ->
        SimulationEngine.simulationTime (SimulationEngine.updateSimulation env x)
        = (SimulationEngine.simulationTime x + 1)%Z).
Proof.
  intros Hover. change (isOver e) in Hover.
  assert (Htick : forall x env, isOver x -> SimulationEngine.intervalTick env x = x).
  { intros x env Hx. unfold SimulationEngine.intervalTick.
    rewrite (updateSimulation_game_over env x Hx). now destruct (_ && _). }
  split; [intros envs; now apply ticks_game_over|].
  split; [intros env; now apply Htick|].
  split.
  { intros Hops. pose proof (run_over ops e Hover Hops) as Hrun.
    split; [exact Hrun|]. split.
    - intros envs. now apply ticks_game_over.
    - intros env. now apply Htick. }
  split; [reflexivity|]. split; [reflexivity|]. split; [reflexivity|].
  split.
  - intros env id. unfold SimulationEngine.loadCheckpoint.
    destruct (find _ _); cbn [fst snd]; split; try reflexivity; discriminate.
  - intros x env Hx. destruct (updateSimulation_during env x Hx) as [Hs _].
    unfold settings in Hs. cbn in Hs.
    now injection Hs as _ _ _ _ _ _ _ Hst _ _ _ _ _ _.
Qed.

(** The engine left alone has failed at its 18th tick: resuming it,
    changing the mud weight and asking for the risk level leave it over,
    and the timer ticks that follow change nothing. *)
Lemma C2_witness :
  SimulationEngine.isGameOver (idleRun 18) = true
  /\ SimulationEngine.ticks [sampleEnv; sampleEnv; sampleEnv] (idleRun 18) = idleRun 18
  /\ SimulationEngine.isGameOver
       (SimulationEngine.run
          [SimulationEngine.Resume;
           SimulationEngine.SetControls sampleEnv [Controls.MudWeight 12];
           SimulationEngine.GetRiskLevel sampleEnv]
          (idleRun 18))
     = true.
Proof.
  assert (H : SimulationEngine.isGameOver (idleRun 18) = true)
    by (vm_compute; reflexivity).
  destruct (C2_game_over_until_cleared (idleRun 18)
              [SimulationEngine.Resume;
               SimulationEngine.SetControls sampleEnv [Controls.MudWeight 12];
               SimulationEngine.GetRiskLevel sampleEnv] H)
    as [Hticks [_ [Hops _]]].
  split; [exact H|]. split; [apply Hticks|].
  apply Hops. reflexivity.
Defined.
